(** * VapeBar inventory: the sale, loan and warranty operations

    A shallow embedding of the operations of the repository that touch the
    spreadsheet:

    - [Server.recordSale], the [/api/sheets/recordSale] handler of
      [server.js] (single-item and bulk branch), together with the [read],
      [append] and [update] routes and [ensureSheetExists];
    - [SheetsAPI], the browser-side wrappers around these routes;
    - [InventoryManager.updateItem], [InventoryManager.updateQuantity],
      [InventoryUI.markLoanAsPaid] and [WarrantyManager.processClaim].

    The spreadsheet service is modelled as a map from sheet titles to grids
    of cells; every call that reaches it is recorded in a log, so that the
    order of the writes of one operation can be stated. *)

From Stdlib Require Import ZArith Lia Ascii String DecimalString DecimalZ.
From stdpp Require Import base option list strings gmap.

Local Open Scope string_scope.
Local Open Scope Z_scope.

(** ** JavaScript values *)

Module JS.

(** The operations of IEEE doubles the program relies on.  They are kept as
    an interface: the claims below are about which values flow where, not
    about binary rounding.  [f_parse] is the prefix parse of [parseFloat]
    ([None] when no prefix is a number), [f_to_fixed2] is [toFixed(2)]. *)
Class FloatOps (F : Type) := {
  f_of_Z : Z -> F;
  f_mul : F -> F -> F;
  f_sub : F -> F -> F;
  f_ltb : F -> F -> bool;
  f_eqb : F -> F -> bool;
  f_is_nan : F -> bool;
  f_is_zero : F -> bool;
  f_parse : string -> option F;
  f_to_string : F -> string;
  f_to_fixed2 : F -> string
}.

(** A JS number.  [Int z] is the number whose value is the integer [z]: the
    results of [parseInt], integer literals and their differences, on which
    JS arithmetic is exact below 2^53.  [Float f] is any other double. *)
Inductive number (F : Type) : Type :=
| NaN
| Int (z : Z)
| Float (f : F).
Arguments NaN {F}.
Arguments Int {F} z.
Arguments Float {F} f.

(** The primitive values that occur in JSON bodies, form fields and cells. *)
Inductive value (F : Type) : Type :=
| VUndefined
| VNull
| VBool (b : bool)
| VNum (n : number F)
| VStr (s : string).
Arguments VUndefined {F}.
Arguments VNull {F}.
Arguments VBool {F} b.
Arguments VNum {F} n.
Arguments VStr {F} s.

(** Decimal digits of an integer, as [Number.prototype.toString] prints
    them. *)
Definition string_of_Z (z : Z) : string :=
  NilZero.string_of_int (Z.to_int z).

(** The longest prefix of decimal digits of a string. *)
Fixpoint take_uint (s : string) : Decimal.uint :=
  match s with
  | EmptyString => Decimal.Nil
  | String c s' =>
      if Ascii.eqb c "0" then Decimal.D0 (take_uint s')
      else if Ascii.eqb c "1" then Decimal.D1 (take_uint s')
      else if Ascii.eqb c "2" then Decimal.D2 (take_uint s')
      else if Ascii.eqb c "3" then Decimal.D3 (take_uint s')
      else if Ascii.eqb c "4" then Decimal.D4 (take_uint s')
      else if Ascii.eqb c "5" then Decimal.D5 (take_uint s')
      else if Ascii.eqb c "6" then Decimal.D6 (take_uint s')
      else if Ascii.eqb c "7" then Decimal.D7 (take_uint s')
      else if Ascii.eqb c "8" then Decimal.D8 (take_uint s')
      else if Ascii.eqb c "9" then Decimal.D9 (take_uint s')
      else Decimal.Nil
  end.

(** The value of a hexadecimal digit. *)
Definition hex_digit (c : ascii) : option Z :=
  let n := Z.of_nat (nat_of_ascii c) in
  if (48 <=? n) && (n <=? 57) then Some (n - 48)
  else if (97 <=? n) && (n <=? 102) then Some (n - 87)
  else if (65 <=? n) && (n <=? 70) then Some (n - 55)
  else None.

(** The longest prefix of hexadecimal digits, most significant first;
    [None] when the prefix is empty. *)
Fixpoint take_hex (s : string) (acc : option Z) : option Z :=
  match s with
  | EmptyString => acc
  | String c s' =>
      match hex_digit c with
      | Some d => take_hex s' (Some (16 * default 0 acc + d))
      | None => acc
      end
  end.

(** White space skipped by [parseInt] (the ASCII part of it). *)
Definition is_space (c : ascii) : bool :=
  let n := nat_of_ascii c in
  ((9 <=? n) && (n <=? 13))%nat || (n =? 32)%nat.

Fixpoint trim_start (s : string) : string :=
  match s with
  | String c s' => if is_space c then trim_start s' else s
  | EmptyString => EmptyString
  end.

(** The digits of [parseInt] once the sign is removed: a [0x] or [0X]
    prefix selects radix 16, otherwise the radix is 10. *)
Definition parse_magnitude (s : string) : option Z :=
  match s with
  | String "0" (String "x" s') | String "0" (String "X" s') => take_hex s' None
  | _ =>
      match take_uint s with
      | Decimal.Nil => None
      | u => Some (Z.of_uint u)
      end
  end.

Section Values.
Context {F : Type} {FO : FloatOps F}.

(** [parseInt(s)] on a string, without radix argument. *)
Definition parse_int (s : string) : number F :=
  let s := trim_start s in
  let (neg, body) :=
    match s with
    | String "-" s' => (true, s')
    | String "+" s' => (false, s')
    | _ => (false, s)
    end in
  match parse_magnitude body with
  | Some m => Int (if neg then - m else m)
  | None => NaN
  end.

Definition number_to_string (n : number F) : string :=
  match n with
  | NaN => "NaN"
  | Int z => string_of_Z z
  | Float f => f_to_string f
  end.

(** [String(v)] *)
Definition ToString (v : value F) : string :=
  match v with
  | VUndefined => "undefined"
  | VNull => "null"
  | VBool true => "true"
  | VBool false => "false"
  | VNum n => number_to_string n
  | VStr s => s
  end.

Definition number_truthy (n : number F) : bool :=
  match n with
  | NaN => false
  | Int z => negb (z =? 0)
  | Float f => negb (f_is_zero f || f_is_nan f)
  end.

(** Truthiness: what [!v], [v || w] and [if (v)] test. *)
Definition truthy (v : value F) : bool :=
  match v with
  | VUndefined | VNull => false
  | VBool b => b
  | VNum n => number_truthy n
  | VStr s => negb (String.eqb s "")
  end.

(** [a || b] *)
Definition oror (a b : value F) : value F := if truthy a then a else b.

Definition parseInt (v : value F) : number F := parse_int (ToString v).

Definition parseFloat (v : value F) : number F :=
  match f_parse (ToString v) with
  | Some f => Float f
  | None => NaN
  end.

(** [n || 0] on a number. *)
Definition or0 (n : number F) : number F := if number_truthy n then n else Int 0.

Definition isNaN (n : number F) : bool :=
  match n with
  | NaN => true
  | Int _ => false
  | Float f => f_is_nan f
  end.

Definition to_float (n : number F) : option F :=
  match n with
  | NaN => None
  | Int z => Some (f_of_Z z)
  | Float f => Some f
  end.

(** [a * b] *)
Definition mul (a b : number F) : number F :=
  match a, b with
  | Int x, Int y => Int (x * y)
  | _, _ =>
      match to_float a, to_float b with
      | Some x, Some y => Float (f_mul x y)
      | _, _ => NaN
      end
  end.

(** [a - b] *)
Definition sub (a b : number F) : number F :=
  match a, b with
  | Int x, Int y => Int (x - y)
  | _, _ =>
      match to_float a, to_float b with
      | Some x, Some y => Float (f_sub x y)
      | _, _ => NaN
      end
  end.

(** [a < b]; false as soon as one side is [NaN]. *)
Definition lt (a b : number F) : bool :=
  match a, b with
  | Int x, Int y => x <? y
  | _, _ =>
      match to_float a, to_float b with
      | Some x, Some y => f_ltb x y
      | _, _ => false
      end
  end.

(** [a > b] *)
Definition gt (a b : number F) : bool := lt b a.

(** [a <= b] *)
Definition le (a b : number F) : bool :=
  match a, b with
  | Int x, Int y => x <=? y
  | _, _ =>
      match to_float a, to_float b with
      | Some x, Some y => f_ltb x y || f_eqb x y
      | _, _ => false
      end
  end.

Definition number_eqb (a b : number F) : bool :=
  match a, b with
  | Int x, Int y => x =? y
  | _, _ =>
      match to_float a, to_float b with
      | Some x, Some y => f_eqb x y
      | _, _ => false
      end
  end.

(** [a === b] *)
Definition strict_eq (a b : value F) : bool :=
  match a, b with
  | VUndefined, VUndefined => true
  | VNull, VNull => true
  | VBool x, VBool y => Bool.eqb x y
  | VNum x, VNum y => number_eqb x y
  | VStr x, VStr y => String.eqb x y
  | _, _ => false
  end.

(** [n.toFixed(2)] *)
Definition toFixed2 (n : number F) : string :=
  match n with
  | NaN => "NaN"
  | Int z => string_of_Z z ++ ".00"
  | Float f => f_to_fixed2 f
  end.

(** [row[i]]: reading past the end of an array gives [undefined]. *)
Definition get (r : list (value F)) (i : nat) : value F :=
  default VUndefined (r !! i).

End Values.

(** Addition of doubles, which only the page uses (the handlers of the
    server multiply and subtract). *)
Class FloatSum (F : Type) := { f_add : F -> F -> F }.

Section Sums.
Context {F : Type} {FO : FloatOps F} {FS : FloatSum F}.

(** [a + b] on numbers *)
Definition add (a b : number F) : number F :=
  match a, b with
  | Int x, Int y => Int (x + y)
  | _, _ =>
      match to_float a, to_float b with
      | Some x, Some y => Float (f_add x y)
      | _, _ => NaN
      end
  end.

(** SameValueZero, the equality of [Set] and of [Array.prototype.includes]:
    as [===], but [NaN] equals [NaN]. *)
Definition same_value_zero (a b : value F) : bool :=
  match a, b with
  | VNum x, VNum y => (isNaN x && isNaN y) || number_eqb x y
  | _, _ => strict_eq a b
  end.

(** [Array.from(new Set(values))]: the values without repetition, in the
    order of their first occurrence. *)
Definition set_of (values : list (value F)) : list (value F) :=
  fold_left (fun seen v => if existsb (same_value_zero v) seen then seen
                           else (seen ++ [v])%list)
            values [].

End Sums.

End JS.

(** ** The spreadsheet service

    The service is modelled without transport failures: a call fails only
    when it names a sheet that does not exist.  A cell keeps the value
    written to it (the service would render it as text on the next read),
    and rows are appended at the end of a sheet. *)

Module Sheets.
Import JS.

(** An exception: [new Error(message)]. *)
Inductive error : Type := Error (message : string).

Definition message (e : error) : string := let (m) := e in m.

Inductive outcome (A : Type) : Type :=
| Ok (a : A)
| Throw (e : error).
Arguments Ok {A} a.
Arguments Throw {A} e.

(** A cell range in A1 notation, [sheet!<column><line>]: the column is
    counted from 0 ([A] is 0, [F] is 5, [H] is 7), the line from 1 as the
    spreadsheet does.  The far corner of the range is given by the values
    written. *)
Record range : Type := Range { sheet : string; column : nat; line : nat }.

Section Store.
Context {F : Type}.

Local Abbreviation row := (list (value F)).
Local Abbreviation grid := (list (list (value F))).

(** The requests that change the spreadsheet. *)
Inductive effect : Type :=
| AddSheet (title : string)
| Update (r : range) (values : grid)
| Append (title : string) (values : row).

(** The spreadsheet (its sheets by title) and the requests sent so far,
    oldest first. *)
Record world : Type := World { sheets : gmap string grid; log : list effect }.

(** A computation that talks to the spreadsheet: an exception keeps the
    writes made before it. *)
Definition M (A : Type) : Type := world -> world * outcome A.

Definition ret {A} (a : A) : M A := fun w => (w, Ok a).

Definition throw {A} (msg : string) : M A := fun w => (w, Throw (Error msg)).

Definition bind {A B} (m : M A) (k : A -> M B) : M B :=
  fun w =>
    match m w with
    | (w', Ok a) => k a w'
    | (w', Throw e) => (w', Throw e)
    end.

(** [try { m } catch (error) { h error }] *)
Definition try_catch {A} (m : M A) (h : error -> M A) : M A :=
  fun w =>
    match m w with
    | (w', Ok a) => (w', Ok a)
    | (w', Throw e) => h e w'
    end.

(** Null values in a write are skipped: the cell keeps its content. *)
Definition written (old new : value F) : value F :=
  match new with
  | VUndefined | VNull => old
  | _ => new
  end.

Fixpoint overwrite (new old : row) : row :=
  match new, old with
  | [], _ => old
  | v :: vs, [] => written (VStr "") v :: overwrite vs []
  | v :: vs, x :: xs => written x v :: overwrite vs xs
  end.

(** Write [new] into a line from column [col] on; cells to the left that
    the line does not have yet are empty. *)
Fixpoint write_cells (col : nat) (new old : row) : row :=
  match col, old with
  | O, _ => overwrite new old
  | S c, [] => VStr "" :: write_cells c new []
  | S c, x :: xs => x :: write_cells c new xs
  end.

(** Write [new] into the line of index [i] (from 0) of a grid. *)
Fixpoint write_line (i col : nat) (new : row) (g : grid) : grid :=
  match i, g with
  | O, [] => [write_cells col new []]
  | O, r :: g' => write_cells col new r :: g'
  | S j, [] => [] :: write_line j col new []
  | S j, r :: g' => r :: write_line j col new g'
  end.

Fixpoint write_lines (i col : nat) (new : grid) (g : grid) : grid :=
  match new with
  | [] => g
  | r :: rest => write_lines (S i) col rest (write_line i col r g)
  end.

Definition no_such_sheet (title : string) : string :=
  "Unable to parse range: " ++ title.

(** [sheets.spreadsheets.get]: the sheets of the spreadsheet, by title. *)
Definition spreadsheets_get : M (gmap string grid) :=
  fun w => (w, Ok (sheets w)).

(** [sheets.spreadsheets.batchUpdate] with one [addSheet] request. *)
Definition addSheet (title : string) : M unit :=
  fun w =>
    match sheets w !! title with
    | Some _ => (w, Throw (Error ("A sheet with the name already exists: " ++ title)))
    | None => (World (<[title := []]> (sheets w)) (log w ++ [AddSheet title])%list, Ok tt)
    end.

(** [sheets.spreadsheets.values.get] on a whole sheet. *)
Definition values_get (title : string) : M grid :=
  fun w =>
    match sheets w !! title with
    | Some g => (w, Ok g)
    | None => (w, Throw (Error (no_such_sheet title)))
    end.

(** [sheets.spreadsheets.values.append] of one row to a sheet. *)
Definition values_append (title : string) (r : row) : M unit :=
  fun w =>
    match sheets w !! title with
    | Some g =>
        (World (<[title := (g ++ [overwrite r []])%list]> (sheets w))
               (log w ++ [Append title r])%list, Ok tt)
    | None => (w, Throw (Error (no_such_sheet title)))
    end.

(** [sheets.spreadsheets.values.update] of a range. *)
Definition values_update (r : range) (vs : grid) : M unit :=
  fun w =>
    match sheets w !! sheet r, line r with
    | Some g, S i =>
        (World (<[sheet r := write_lines i (column r) vs g]> (sheets w))
               (log w ++ [Update r vs])%list, Ok tt)
    | _, _ => (w, Throw (Error (no_such_sheet (sheet r))))
    end.

End Store.

Arguments effect : clear implicits.
Arguments world : clear implicits.
Arguments M : clear implicits.

Declare Scope sheets_scope.
Delimit Scope sheets_scope with sheets.
Notation "'let*' x ':=' m 'in' k" := (bind m (fun x => k))
  (at level 10, x name, m at level 100, k at level 200) : sheets_scope.
Notation "'await' m ';' k" := (bind m (fun _ => k))
  (at level 10, m at level 100, k at level 200) : sheets_scope.

End Sheets.

(** ** The server: [server.js] *)

Module BulkItem.
(** One line [{itemId, qty}] of [sale.bulkItems]. *)
Record t (F : Type) : Type := Make { itemId : JS.value F; qty : JS.value F }.
Arguments Make {F}.
Arguments itemId {F}.
Arguments qty {F}.
End BulkItem.

Module Sale.
(** The [sale] object of a [recordSale] request.  A field that the
    request does not have is [VUndefined]; [bulkItems] is [None] when
    the request has no such array. *)
Record t (F : Type) : Type := Make {
  itemId : JS.value F;
  quantitySold : JS.value F;
  appliedPrice : JS.value F;
  pricePerUnit : JS.value F;
  paymentMethod : JS.value F;
  customer : JS.value F;
  date : JS.value F;
  notes : JS.value F;
  saleType : JS.value F;
  bulkItems : option (list (BulkItem.t F))
}.
Arguments Make {F}.
Arguments itemId {F}.
Arguments quantitySold {F}.
Arguments appliedPrice {F}.
Arguments pricePerUnit {F}.
Arguments paymentMethod {F}.
Arguments customer {F}.
Arguments date {F}.
Arguments notes {F}.
Arguments saleType {F}.
Arguments bulkItems {F}.
End Sale.

Module Server.
Import JS Sheets.
Local Open Scope sheets_scope.

(** What the clock gives when a request is handled: [Date.now()] and
    [new Date().toISOString().slice(0, 10)]. *)
Record clock : Type := Clock { now : Z; today : string }.

(** An HTTP response: status 200 with a JSON body, or status 500 with
    [{error: message}]. *)
Inductive response (A : Type) : Type :=
| Status200 (body : A)
| Status500 (error : string).
Arguments Status200 {A} body.
Arguments Status500 {A} error.

Section Handlers.
Context {F : Type} {FO : FloatOps F}.

Local Abbreviation row := (list (value F)).
Local Abbreviation grid := (list (list (value F))).

(** The JSON body of a [recordSale] request. *)
Record body : Type := Body { spreadsheetId : value F; sale : option (Sale.t F) }.

(** The JSON body of a successful [recordSale] response:
    [{success: true, saleId}] for a bulk sale and
    [{success: true, saleId, newQuantity}] for a single item. *)
Record recorded : Type := Recorded { saleId : string; newQuantity : option (number F) }.

Definition strs (l : list string) : row := map VStr l.

Definition inventory_headers : row :=
  strs ["ID"; "Category"; "Item Name"; "Version"; "Flavor"; "Quantity"; "Price";
        "Date Added"; "Notes"].
Definition sales_headers : row :=
  strs ["Sale ID"; "Item ID"; "Item Name"; "Category"; "Quantity Sold";
        "Price Per Unit"; "Total"; "Date"; "Customer"; "Sale Type";
        "Payment Method"; "Notes"].
Definition loans_headers : row :=
  strs ["Loan ID"; "Sale ID"; "Customer"; "Item Name"; "Amount"; "Date Issued";
        "Due Date"; "Status"; "Date Paid"; "Notes"].

(** [ensureSheetExists(spreadsheetId, sheetName, headers)]: its own
    [try]/[catch] swallows every error. *)
Definition ensureSheetExists (sheetName : string) (headers : row) : M F unit :=
  try_catch
    (let* spreadsheet := spreadsheets_get in
     let sheetExists := bool_decide (is_Some (spreadsheet !! sheetName)) in
     if negb sheetExists then
       await addSheet sheetName;
       if (0 <? length headers)%nat
       then values_update (Range sheetName 0 1) [headers]
       else ret tt
     else ret tt)
    (fun _ => ret tt).

(** The [try { ... } catch (error) { 500 }] around every route. *)
Definition respond {A} (m : M F A) : M F (response A) :=
  try_catch (let* a := m in ret (Status200 a))
            (fun e => ret (Status500 (message e))).

(** [GET /api/sheets/read]: the header line and the data lines. *)
Definition read (range : string) : M F (response (row * grid)) :=
  respond
    (let headers :=
       if String.eqb range "Inventory" then inventory_headers
       else if String.eqb range "Sales" then sales_headers
       else if String.eqb range "Loans" then loans_headers
       else [] in
     await ensureSheetExists range headers;
     let* values := values_get range in
     ret (default [] (values !! 0%nat), drop 1 values)).

(** [POST /api/sheets/append] *)
Definition append (range : string) (values : row) : M F (response unit) :=
  respond
    (let headers :=
       if String.eqb range "Inventory" then inventory_headers
       else if String.eqb range "Sales" then sales_headers
       else [] in
     await ensureSheetExists range headers;
     values_append range values).

(** [POST /api/sheets/update] *)
Definition update (r : range) (values : grid) : M F (response unit) :=
  respond (values_update r values).

(** The search loop of [recordSale], from index [i] on:
    [values[i][0] && String(values[i][0]) === String(itemId)]. *)
Fixpoint find_from (i : nat) (rows : grid) (itemId : value F) : option nat :=
  match rows with
  | [] => None
  | r :: rest =>
      if truthy (get r 0) && String.eqb (ToString (get r 0)) (ToString itemId)
      then Some i
      else find_from (S i) rest itemId
  end.

(** [foundIndex], [None] standing for [-1]; line 0 is the header. *)
Definition findIndex (values : grid) (itemId : value F) : option nat :=
  find_from 1 (drop 1 values) itemId.

(** [r[i] = v] on a JS array: assigning past the end leaves holes. *)
Definition assign (i : nat) (v : value F) (r : row) : row :=
  if (i <? length r)%nat then <[i := v]> r
  else (r ++ replicate (i - length r) VUndefined ++ [v])%list.

(** [values[i][j] = v] for a line [i] that exists. *)
Definition assign_cell (i j : nat) (v : value F) (values : grid) : grid :=
  match values !! i with
  | Some r => <[i := assign j v r]> values
  | None => values
  end.

(** The inventory loop of a bulk sale; it returns the local [values]
    array as the last iteration leaves it. *)
Fixpoint bulk_loop (bulkItems : list (BulkItem.t F)) (values : grid) : M F grid :=
  match bulkItems with
  | [] => ret values
  | bulkItem :: rest =>
      let itemId := BulkItem.itemId bulkItem in
      let qtyToDeduct := parseInt (oror (BulkItem.qty bulkItem) (VNum (Int 0))) in
      match findIndex values itemId with
      | None => bulk_loop rest values
      | Some foundIndex =>
          let itemRow := default [] (values !! foundIndex) in
          let existingQty := parseInt (oror (get itemRow 5) (VStr "0")) in
          if gt qtyToDeduct existingQty then
            throw ("Insufficient stock for " ++ ToString (get itemRow 2)
                   ++ " - " ++ ToString (get itemRow 4))
          else
            let newQty := sub existingQty qtyToDeduct in
            let rowNumber := (foundIndex + 1)%nat in
            await values_update (Range "Inventory" 5 rowNumber)
                                [[VStr (number_to_string newQty)]];
            bulk_loop rest
              (assign_cell foundIndex 5 (VStr (number_to_string newQty)) values)
      end
  end.

(** The bulk branch of [recordSale]. *)
Definition recordBulk (c : clock) (sale : Sale.t F)
    (bulkItems : list (BulkItem.t F)) (values : grid) : M F recorded :=
  let saleId := string_of_Z (now c) in
  let sellQty := parseInt (oror (Sale.quantitySold sale) (VNum (Int 0))) in
  let appliedPrice := or0 (parseFloat (oror (Sale.appliedPrice sale) (VNum (Int 0)))) in
  let total := toFixed2 (mul appliedPrice sellQty) in
  let date := oror (Sale.date sale) (VStr (today c)) in
  let saleType := oror (Sale.saleType sale) (VStr "bulk") in
  let category := "Bulk" in
  let itemName :=
    "Bulk Sale (" ++ string_of_Z (Z.of_nat (length bulkItems)) ++ " flavors)" in
  let saleRow :=
    [VStr saleId; VStr "BULK"; VStr itemName; VStr category; VNum sellQty;
     VNum appliedPrice; VStr total; date; oror (Sale.customer sale) (VStr "");
     saleType; oror (Sale.paymentMethod sale) (VStr "Cash");
     oror (Sale.notes sale) (VStr "")] in
  await values_append "Sales" saleRow;
  await (if strict_eq (Sale.paymentMethod sale) (VStr "Loan") then
           let loanId := "LOAN-" ++ saleId in
           let customerName := oror (Sale.customer sale) (VStr "Unknown Customer") in
           let dueDate := VStr "" in
           let loanRow :=
             [VStr loanId; VStr saleId; customerName; VStr itemName; VStr total;
              date; dueDate; VStr "Unpaid"; VStr ""; oror (Sale.notes sale) (VStr "")] in
           values_append "Loans" loanRow
         else ret tt);
  await bulk_loop bulkItems values;
  ret (Recorded saleId None).

(** The single-item branch of [recordSale]. *)
Definition recordSingle (c : clock) (sale : Sale.t F) (values : grid) : M F recorded :=
  if negb (truthy (Sale.itemId sale)) then
    throw "Item ID is required for non-bulk sales"
  else
    match findIndex values (Sale.itemId sale) with
    | None => throw "Item ID not found in Inventory"
    | Some foundIndex =>
        let itemRow := default [] (values !! foundIndex) in
        let existingQty := parseInt (oror (get itemRow 5) (VStr "0")) in
        let sellQty := parseInt (oror (Sale.quantitySold sale) (VNum (Int 0))) in
        if isNaN sellQty || le sellQty (Int 0) then throw "Invalid quantitySold"
        else if gt sellQty existingQty then throw "Insufficient stock"
        else
          let newQty := sub existingQty sellQty in
          let saleId := string_of_Z (now c) in
          let itemName := oror (get itemRow 2) (VStr "") in
          let category := oror (get itemRow 1) (VStr "") in
          let appliedPrice :=
            or0 (parseFloat
                   (oror (oror (oror (Sale.appliedPrice sale) (Sale.pricePerUnit sale))
                               (get itemRow 6))
                         (VNum (Int 0)))) in
          let total := toFixed2 (mul appliedPrice sellQty) in
          let date := oror (Sale.date sale) (VStr (today c)) in
          let saleType := oror (Sale.saleType sale) (VStr "retail") in
          let paymentMethod := oror (Sale.paymentMethod sale) (VStr "Cash") in
          let notes := oror (Sale.notes sale) (VStr "") in
          let saleRow :=
            [VStr saleId; Sale.itemId sale; itemName; category; VNum sellQty;
             VNum appliedPrice; VStr total; date; oror (Sale.customer sale) (VStr "");
             saleType; paymentMethod; notes] in
          await values_append "Sales" saleRow;
          await (if strict_eq paymentMethod (VStr "Loan") then
                   let loanId := "LOAN-" ++ saleId in
                   let customerName :=
                     oror (Sale.customer sale) (VStr "Unknown Customer") in
                   let dueDate := VStr "" in
                   let loanRow :=
                     [VStr loanId; VStr saleId; customerName; itemName; VStr total;
                      date; dueDate; VStr "Unpaid"; VStr ""; notes] in
                   values_append "Loans" loanRow
                 else ret tt);
          let rowNumber := (foundIndex + 1)%nat in
          await values_update (Range "Inventory" 5 rowNumber)
                              [[VStr (number_to_string newQty)]];
          ret (Recorded saleId (Some newQty))
    end.

(** [POST /api/sheets/recordSale] *)
Definition recordSale (c : clock) (b : body) : M F (response recorded) :=
  respond
    (match (if truthy (spreadsheetId b) then sale b else None) with
     | None => throw "Missing required fields"
     | Some sale =>
         await ensureSheetExists "Sales" sales_headers;
         await ensureSheetExists "Loans" loans_headers;
         let* values := values_get "Inventory" in
         match Sale.bulkItems sale with
         | Some (bulkItem :: rest) => recordBulk c sale (bulkItem :: rest) values
         | _ => recordSingle c sale values
         end
     end).

End Handlers.

End Server.

(** ** The browser side *)

(** [class SheetsAPI]: the wrappers around the routes of the server.  A
    request body goes through [JSON.stringify], which writes [undefined]
    and [NaN] array elements as [null]. *)
Module SheetsAPI.
Import JS Sheets.
Local Open Scope sheets_scope.

Section Wrappers.
Context {F : Type} {FO : FloatOps F}.

Local Abbreviation row := (list (value F)).
Local Abbreviation grid := (list (list (value F))).

Definition json (v : value F) : value F :=
  match v with
  | VUndefined => VNull
  | VNum n => if isNaN n then VNull else v
  | _ => v
  end.

(** [updateRange(range, values)] *)
Definition updateRange (r : range) (values : grid) : M F unit :=
  let* response := Server.update r (map (map json) values) in
  match response with
  | Server.Status200 _ => ret tt
  | Server.Status500 error =>
      throw (if String.eqb error "" then "Failed to update range" else error)
  end.

(** [fetchData(sheetName)]: [{headers, data}] *)
Definition fetchData (sheetName : string) : M F (row * grid) :=
  let* response := Server.read sheetName in
  match response with
  | Server.Status200 result => ret result
  | Server.Status500 _ => throw "Failed to fetch data from Google Sheets"
  end.

(** [appendRow(rowData, sheetName)] *)
Definition appendRow (rowData : row) (sheetName : string) : M F unit :=
  let* response := Server.append sheetName (map json rowData) in
  match response with
  | Server.Status200 _ => ret tt
  | Server.Status500 _ => throw "Failed to append row"
  end.

(** A property of a JSON object: [undefined] is left out, and is
    [undefined] again for the reader; [NaN] is written as [null]. *)
Definition json_field (v : value F) : value F :=
  match v with
  | VNum n => if isNaN n then VNull else v
  | _ => v
  end.

(** The [sale] object as the server parses it. *)
Definition json_sale (sale : Sale.t F) : Sale.t F :=
  Sale.Make (json_field (Sale.itemId sale)) (json_field (Sale.quantitySold sale))
            (json_field (Sale.appliedPrice sale)) (json_field (Sale.pricePerUnit sale))
            (json_field (Sale.paymentMethod sale)) (json_field (Sale.customer sale))
            (json_field (Sale.date sale)) (json_field (Sale.notes sale))
            (json_field (Sale.saleType sale))
            (option_map
               (map (fun bulkItem =>
                       BulkItem.Make (json_field (BulkItem.itemId bulkItem))
                                     (json_field (BulkItem.qty bulkItem))))
               (Sale.bulkItems sale)).

(** [recordSale(sale)]; [sheetId] is [CONFIG.sheetId] and [c] is the
    clock of the server. *)
Definition recordSale (c : Server.clock) (sheetId : value F) (sale : Sale.t F)
    : M F Server.recorded :=
  let* response :=
    Server.recordSale c (Server.Body (json_field sheetId) (Some (json_sale sale))) in
  match response with
  | Server.Status200 result => ret result
  | Server.Status500 error =>
      throw (if String.eqb error "" then "Failed to record sale" else error)
  end.

End Wrappers.
End SheetsAPI.

Module ItemData.
(** The [updatedData] argument of [updateItem]. *)
Record t (F : Type) : Type := Make {
  category : JS.value F;
  itemName : JS.value F;
  version : JS.value F;
  flavor : JS.value F;
  quantity : JS.value F;
  price : JS.value F;
  dateAdded : JS.value F;
  notes : JS.value F;
  cost : JS.value F
}.
Arguments Make {F}.
Arguments category {F}.
Arguments itemName {F}.
Arguments version {F}.
Arguments flavor {F}.
Arguments quantity {F}.
Arguments price {F}.
Arguments dateAdded {F}.
Arguments notes {F}.
Arguments cost {F}.
End ItemData.

(** [class InventoryManager]; [items] is its field [this.items], the data
    lines of the Inventory sheet as last loaded.  A method that assigns to
    [this.items] returns the new array next to its result. *)
Module InventoryManager.
Import JS Sheets.
Local Open Scope sheets_scope.

Section Methods.
Context {F : Type} {FO : FloatOps F}.

Local Abbreviation row := (list (value F)).
Local Abbreviation grid := (list (list (value F))).

Definition sheetName : string := "Inventory".

(** [this.items.find(item => item[0] === itemId) || null] *)
Definition getItemById (items : grid) (itemId : value F) : option row :=
  List.find (fun item => strict_eq (get item 0) itemId) items.

(** [this.items.findIndex(item => item[0] === itemId)] *)
Fixpoint findIndex (items : grid) (itemId : value F) : option nat :=
  match items with
  | [] => None
  | item :: rest =>
      if strict_eq (get item 0) itemId then Some O
      else S <$> findIndex rest itemId
  end.

(** [loadInventory()] *)
Definition loadInventory : M F grid :=
  try_catch (let* result := SheetsAPI.fetchData sheetName in ret (snd result))
            (fun _ => ret []).

(** [updateItem(itemId, updatedData)] *)
Definition updateItem (items : grid) (itemId : value F) (updatedData : ItemData.t F)
    : M F (bool * grid) :=
  match findIndex items itemId with
  | None => throw "Item not found"
  | Some itemIndex =>
      let newRow :=
        [itemId; ItemData.category updatedData; ItemData.itemName updatedData;
         ItemData.version updatedData; oror (ItemData.flavor updatedData) (VStr "");
         ItemData.quantity updatedData; ItemData.price updatedData;
         ItemData.dateAdded updatedData; oror (ItemData.notes updatedData) (VStr "");
         oror (ItemData.cost updatedData) (VStr "")] in
      let rowNumber := (itemIndex + 2)%nat in
      await SheetsAPI.updateRange (Range sheetName 0 rowNumber) [newRow];
      ret (true, <[itemIndex := newRow]> items)
  end.

(** [updateQuantity(itemId, newQuantity)] *)
Definition updateQuantity (items : grid) (itemId : value F) (newQuantity : value F)
    : M F (bool * grid) :=
  match getItemById items itemId with
  | None => ret (false, items)
  | Some item =>
      let updatedData :=
        ItemData.Make (get item 1) (get item 2) (get item 3) (get item 4)
                      newQuantity (get item 6) (get item 7) (get item 8) (get item 9) in
      updateItem items itemId updatedData
  end.


(** [getByCategory(category)] *)
Definition getByCategory (items : grid) (category : value F) : grid :=
  List.filter (fun item => strict_eq (get item 1) category) items.

(** [getLowStockItems()] *)
Definition getLowStockItems (items : grid) : grid :=
  List.filter (fun item => lt (parseInt (get item 5)) (Int 10)) items.

End Methods.

Section Analytics.
Context {F : Type} {FO : FloatOps F} {FS : FloatSum F}.

Local Abbreviation row := (list (value F)).
Local Abbreviation grid := (list (list (value F))).

(** The header line of the constructor and of [init]. *)
Definition expectedHeaders : row :=
  Server.strs ["ID"; "Category"; "Item Name"; "Version"; "Flavor"; "Quantity"; "Price";
               "Date Added"; "Notes"; "Cost"].

(** [loadInventory()] with both fields that it assigns: [this.headers]
    and [this.items]. *)
Definition load (headers : row) : M F (row * grid) :=
  try_catch (let* result := SheetsAPI.fetchData sheetName in
             ret (fst result, snd result))
            (fun _ => ret (headers, [])).

(** [init()], without the socket and the rendering; it returns the
    message of [showError] if there is one, and the two fields.  The only
    call that can throw is [updateRange], after the fields are loaded. *)
Definition init (headers : row) : M F (option string * (row * grid)) :=
  let* loaded := load headers in
  if (length (fst loaded) <? length expectedHeaders)%nat
     || negb (existsb (same_value_zero (VStr "Cost")) (fst loaded))
  then
    try_catch
      (await SheetsAPI.updateRange (Range sheetName 0 1) [expectedHeaders];
       ret (None, (expectedHeaders, snd loaded)))
      (fun _ => ret (Some "Failed to load inventory", loaded))
  else ret (None, loaded).

(** The result of [getAnalytics()]. *)
Record analytics : Type := Analytics {
  totalItems : nat;
  totalQuantity : number F;
  totalValue : string;
  juiceItems : nat;
  deviceItems : nat;
  totalBrands : nat;
  brands : list (value F)
}.

(** [getAnalytics()] *)
Definition getAnalytics (items : grid) : analytics :=
  let juiceItems := getByCategory items (VStr "Vape Juice/Pod") in
  let deviceItems := getByCategory items (VStr "Vape Device") in
  let brands := set_of (map (fun item => get item 2) items) in
  let totalQuantity :=
    fold_left (fun sum item => add sum (parseInt (oror (get item 5) (VNum (Int 0)))))
              items (Int 0) in
  let totalValue :=
    fold_left (fun sum item =>
                 add sum (mul (parseInt (oror (get item 5) (VNum (Int 0))))
                              (parseFloat (oror (get item 6) (VNum (Int 0))))))
              items (Int 0) in
  Analytics (length items) totalQuantity (toFixed2 totalValue) (length juiceItems)
            (length deviceItems) (length brands) brands.

End Analytics.
End InventoryManager.

Module QtyInput.
(** One [.bulk-item-qty-input] of the sales form: the number typed and
    the [data-] attributes that the page gave it when it built it, which
    are strings. *)
Record t : Type := Make {
  value : string;
  itemId : string;
  itemName : string;
  flavor : string;
  version : string;
  price : string;
  maxQty : string
}.
End QtyInput.

Module SalesForm.
(** The fields of the sales form, by the ids of their elements. *)
Record t : Type := Make {
  saleType : string;
  saleCustomer : string;
  saleNotes : string;
  bulkSaleQuantity : string;
  retailFlavorSelect : string;
  saleQuantity : string;
  retailPrice : string;
  saleDate : string;
  retailPaymentMethod : string;
  bulkSaleDate : string;
  bulkSalePrice : string;
  bulkPaymentMethod : string;
  qtyInputs : list QtyInput.t
}.
End SalesForm.

Module Selected.
(** An element of [selectedItems] in [handleSalesSubmit]. *)
Record t (F : Type) : Type := Make {
  itemId : string;
  itemName : string;
  flavor : string;
  version : string;
  qty : JS.number F;
  price : JS.number F
}.
Arguments Make {F}.
Arguments itemId {F}.
Arguments itemName {F}.
Arguments flavor {F}.
Arguments version {F}.
Arguments qty {F}.
Arguments price {F}.
End Selected.

(** [class InventoryUI]: the loans tab. *)
Module InventoryUI.
Import JS Sheets.
Local Open Scope sheets_scope.

(** What the page shows when the method ends. *)
Inductive shown : Type :=
| nothing
| showSuccess (message : string)
| showError (message : string).

Section Methods.
Context {F : Type} {FO : FloatOps F}.

Local Abbreviation row := (list (value F)).
Local Abbreviation grid := (list (list (value F))).

(** The loop [for (let i = 0; i < loans.length; i++) if (loans[i][0] ===
    loanId)]. *)
Fixpoint loanIndex (loans : grid) (loanId : value F) : option nat :=
  match loans with
  | [] => None
  | loan :: rest =>
      if strict_eq (get loan 0) loanId then Some O
      else S <$> loanIndex rest loanId
  end.

(** [markLoanAsPaid(loanId)]; [confirmed] is the answer to the [confirm]
    dialog and [today] is [new Date().toISOString().slice(0, 10)].  The
    refresh of the loans tab that follows a success only reads. *)
Definition markLoanAsPaid (confirmed : bool) (today : string) (loanId : value F)
    : M F shown :=
  if negb confirmed then ret nothing
  else
    try_catch
      (let* loansRes := SheetsAPI.fetchData "Loans" in
       let loans := snd loansRes in
       match loanIndex loans loanId with
       | None => throw "Loan not found"
       | Some loanIndex =>
           let loanRow := default [] (loans !! loanIndex) in
           let loanRow := Server.assign 7 (VStr "Paid") loanRow in
           let loanRow := Server.assign 8 (VStr today) loanRow in
           let rowNumber := (loanIndex + 2)%nat in
           await SheetsAPI.updateRange (Range "Loans" 7 rowNumber)
                                       [[get loanRow 7; get loanRow 8]];
           ret (showSuccess "✓ Loan marked as paid")
       end)
      (fun error => ret (showError ("✗ Failed to mark loan as paid: " ++ message error))).

End Methods.

(** The forms of the page.  A form field is read as the string that its
    element holds. *)
Section Forms.
Context {F : Type} {FO : FloatOps F} {FS : FloatSum F}.

Local Abbreviation row := (list (value F)).
Local Abbreviation grid := (list (list (value F))).

(** The markup of an icon in a message: a [span] of class
    [material-symbols-outlined] around the name of the icon. *)
Definition icon (name : string) : string :=
  let q := String (ascii_of_nat 34) EmptyString in
  "<span class=" ++ q ++ "material-symbols-outlined" ++ q ++ " style=" ++ q
  ++ "vertical-align: text-bottom;" ++ q ++ ">" ++ name ++ "</span>".




(** What [updateLoans()] puts on the loans tab. *)
Record loans_view : Type := LoansView {
  totalUnpaidLoans : nat;
  totalUnpaidAmount : string;
  totalPaidLoans : nat;
  unpaidLoans : grid;
  paidLoans : grid
}.

(** The callback of [loans.forEach] in [updateLoans], on the variables
    [unpaidLoans], [paidLoans] and [totalUnpaidAmount]. *)
Definition eachLoan (acc : grid * grid * number F) (row : row) : grid * grid * number F :=
  let '(unpaidLoans, paidLoans, totalUnpaidAmount) := acc in
  let status := oror (get row 7) (VStr "Unpaid") in
  if strict_eq status (VStr "Unpaid") then
    ((unpaidLoans ++ [row])%list, paidLoans,
     add totalUnpaidAmount (parseFloat (oror (get row 4) (VNum (Int 0)))))
  else (unpaidLoans, (paidLoans ++ [row])%list, totalUnpaidAmount).

(** [updateLoans()]; [None] when the loans could not be fetched. *)
Definition updateLoans : M F (option loans_view) :=
  try_catch
    (let* loansRes := SheetsAPI.fetchData "Loans" in
     let loans := snd loansRes in
     let '(unpaidLoans, paidLoans, totalUnpaidAmount) :=
       fold_left eachLoan loans ([], [], Int 0) in
     ret (Some (LoansView (length unpaidLoans) ("₱" ++ toFixed2 totalUnpaidAmount)
                          (length paidLoans) unpaidLoans paidLoans)))
    (fun _ => ret None).

(** The loop [qtyInputs.forEach] of [handleSalesSubmit]: the lines with a
    quantity above 0, their cost and their number of pieces, or the
    message of the line that asks for more than its [maxQty].  On the
    strings of the [data-] attributes, [flavor || ''] and [version || '']
    are the strings themselves. *)
Inductive picked : Type :=
| Picked (selectedItems : list (Selected.t F)) (totalCost totalQty : number F)
| NotEnough (message : string).

Fixpoint pick (qtyInputs : list QtyInput.t) (selectedItems : list (Selected.t F))
    (totalCost totalQty : number F) : picked :=
  match qtyInputs with
  | [] => Picked selectedItems totalCost totalQty
  | input :: rest =>
      let qty := parseInt (oror (VStr (QtyInput.value input)) (VNum (Int 0))) in
      if gt qty (Int 0) then
        let itemId := QtyInput.itemId input in
        let itemName := QtyInput.itemName input in
        let flavor := QtyInput.flavor input in
        let version := QtyInput.version input in
        let costPrice := parseFloat (oror (VStr (QtyInput.price input)) (VNum (Int 0))) in
        let maxQty := parseInt (oror (VStr (QtyInput.maxQty input)) (VNum (Int 0))) in
        if gt qty maxQty then
          let displayName :=
            if truthy (VStr (F := F) flavor) then itemName ++ " - " ++ flavor
            else itemName ++ " " ++ version in
          NotEnough ("Not enough stock for " ++ displayName ++ ". Only "
                     ++ number_to_string maxQty ++ " available.")
        else
          pick rest
               (selectedItems ++ [Selected.Make itemId itemName flavor version qty costPrice])%list
               (add totalCost (mul costPrice qty)) (add totalQty qty)
      else pick rest selectedItems totalCost totalQty
  end.

(** What [handleSalesSubmit] does before it calls [sheetsAPI.recordSale]:
    it builds the [sale] object, or it stops with the messages it shows.
    A line that asks for more than its [maxQty] throws inside the [try],
    so that a second message follows the first. *)
Inductive prepared : Type :=
| Send (sale : Sale.t F)
| Stop (messages : list shown).

Definition prepare (form : SalesForm.t) : prepared :=
  let saleType := ToString (oror (VStr (F := F) (SalesForm.saleType form)) (VStr "retail")) in
  let customer := SalesForm.saleCustomer form in
  let notes := SalesForm.saleNotes form in
  let checked : (value F * number F) + list shown :=
    if String.eqb saleType "bulk" then
      let quantity :=
        parseInt (oror (VStr (SalesForm.bulkSaleQuantity form)) (VStr "0")) in
      if isNaN quantity || le quantity (Int 0)
      then inr [showError "Please enter a valid bulk quantity"]
      else inl (VUndefined, quantity)
    else
      let itemId := VStr (SalesForm.retailFlavorSelect form) in
      let quantity := parseInt (oror (VStr (SalesForm.saleQuantity form)) (VStr "0")) in
      if negb (truthy itemId) || isNaN quantity || le quantity (Int 0)
      then inr [showError "Please select a brand, flavor, and enter a valid quantity"]
      else inl (itemId, quantity) in
  match checked with
  | inr messages => Stop messages
  | inl (itemId, quantity) =>
      if String.eqb saleType "retail" then
        let retailPrice :=
          parseFloat (oror (VStr (SalesForm.retailPrice form)) (VStr "0")) in
        let date := SalesForm.saleDate form in
        let paymentMethod := SalesForm.retailPaymentMethod form in
        if isNaN retailPrice || le retailPrice (Int 0)
        then Stop [showError "Please enter a valid retail price"]
        else Send (Sale.Make itemId (VNum quantity) (VNum retailPrice) (VNum retailPrice)
                             (VStr paymentMethod) (VStr customer) (VStr date)
                             (VStr notes) (VStr saleType) None)
      else
        let date := SalesForm.bulkSaleDate form in
        let bulkSalePrice :=
          parseFloat (oror (VStr (SalesForm.bulkSalePrice form)) (VStr "0")) in
        let paymentMethod := SalesForm.bulkPaymentMethod form in
        if isNaN bulkSalePrice || le bulkSalePrice (Int 0)
        then Stop [showError "Please enter a valid bulk sale price per piece"]
        else
          match pick (SalesForm.qtyInputs form) [] (Int 0) (Int 0) with
          | NotEnough message =>
              Stop [showError message;
                    showError (icon "error"
                               ++ " Failed to record sale: Insufficient stock")]
          | Picked selectedItems totalCost totalQty =>
              if (length selectedItems =? 0)%nat
              then Stop [showError "Please select at least one flavor for the bulk sale"]
              else if negb (number_eqb totalQty quantity)
              then Stop [showError ("Selected flavors total " ++ number_to_string totalQty
                                    ++ " pieces, but bulk quantity is "
                                    ++ number_to_string quantity ++ ". Please adjust.")]
              else
                let newline := String (ascii_of_nat 10) EmptyString in
                let totalRevenue := mul bulkSalePrice totalQty in
                let profit := sub totalRevenue totalCost in
                let flavorsList :=
                  String.concat ", "
                    (map (fun item =>
                            number_to_string (Selected.qty item) ++ "× "
                            ++ Selected.itemName item ++ " - " ++ Selected.flavor item)
                         selectedItems) in
                let bulkNotes :=
                  (if truthy (VStr (F := F) notes) then notes ++ newline else "")
                  ++ "Bulk items: " ++ flavorsList ++ newline
                  ++ "Cost: ₱" ++ toFixed2 totalCost
                  ++ " | Revenue: ₱" ++ toFixed2 totalRevenue
                  ++ " | Profit: ₱" ++ toFixed2 profit in
                Send (Sale.Make itemId (VNum quantity) (VNum bulkSalePrice)
                                (VNum bulkSalePrice) (VStr paymentMethod) (VStr customer)
                                (VStr date) (VStr bulkNotes) (VStr saleType)
                                (Some (map (fun item =>
                                              BulkItem.Make (VStr (Selected.itemId item))
                                                            (VNum (Selected.qty item)))
                                           selectedItems)))
          end
  end.

(** [handleSalesSubmit(e)]; [sheetId] is [CONFIG.sheetId], [c] is the
    clock of the server and [items] is [this.manager.items].  It returns
    the messages shown and [this.manager.items]. *)
Definition handleSalesSubmit (c : Server.clock) (sheetId : value F) (items : grid)
    (form : SalesForm.t) : M F (list shown * grid) :=
  match prepare form with
  | Stop messages => ret (messages, items)
  | Send sale =>
      try_catch
        (await SheetsAPI.recordSale c sheetId sale;
         let* items := InventoryManager.loadInventory in
         ret ([showSuccess (icon "check_circle"
                            ++ " Sale recorded and inventory updated")], items))
        (fun error =>
           ret ([showError (icon "error" ++ " Failed to record sale: " ++ message error)],
                items))
  end.

End Forms.
End InventoryUI.

Module ClaimData.
(** The [claimData] object built from the warranty form. *)
Record t (F : Type) : Type := Make {
  itemId : JS.value F;
  quantity : JS.value F;
  date : JS.value F;
  customer : JS.value F;
  reason : JS.value F;
  notes : JS.value F
}.
Arguments Make {F}.
Arguments itemId {F}.
Arguments quantity {F}.
Arguments date {F}.
Arguments customer {F}.
Arguments reason {F}.
Arguments notes {F}.
End ClaimData.

(** [class WarrantyManager]; [this.manager.items] and [this.claims] are
    passed in and returned. *)
Module WarrantyManager.
Import JS Sheets.
Local Open Scope sheets_scope.

Section Methods.
Context {F : Type} {FO : FloatOps F}.

Local Abbreviation row := (list (value F)).
Local Abbreviation grid := (list (list (value F))).

Definition sheetName : string := "Warranty".

(** [{success: true, claimId, message}] and the fields of the two
    managers after the call. *)
Record processed : Type := Processed {
  claimId : string;
  message : string;
  items : grid;
  claims : grid
}.

(** [loadClaims()] *)
Definition loadClaims : M F grid :=
  try_catch (let* result := SheetsAPI.fetchData sheetName in ret (snd result))
            (fun _ => ret []).

(** [processClaim(claimData)]; [now] is [Date.now()]. *)
Definition processClaim (now : Z) (items : grid) (claimData : ClaimData.t F)
    : M F processed :=
  match InventoryManager.getItemById items (ClaimData.itemId claimData) with
  | None => throw "Product not found"
  | Some product =>
      let currentQty := or0 (parseInt (get product 5)) in
      let replaceQty := or0 (parseInt (ClaimData.quantity claimData)) in
      if lt currentQty replaceQty then
        throw ("Insufficient inventory. Available: " ++ number_to_string currentQty
               ++ ", Requested: " ++ number_to_string replaceQty)
      else
        let claimId := string_of_Z now in
        let rowData :=
          [VStr claimId; ClaimData.date claimData; ClaimData.itemId claimData;
           get product 2; VNum replaceQty; ClaimData.reason claimData;
           oror (ClaimData.customer claimData) (VStr "");
           oror (ClaimData.notes claimData) (VStr ""); VStr "Completed"] in
        await SheetsAPI.appendRow rowData sheetName;
        let newQuantity := sub currentQty replaceQty in
        let* updated :=
          InventoryManager.updateQuantity items (ClaimData.itemId claimData)
                                          (VNum newQuantity) in
        let* claims := loadClaims in
        ret (Processed claimId
               ("Warranty claim processed. " ++ number_to_string replaceQty
                ++ " units replaced.")
               (snd updated) claims)
  end.

End Methods.
End WarrantyManager.

(** ** Exact decimals

    An implementation of [JS.FloatOps] by decimal fractions [m / 10^e]
    with exact arithmetic, in plain notation ([12], [-0.5], [49.90]).  It
    agrees with doubles wherever double arithmetic is exact, and is used to
    run the operations on concrete requests. *)

Module ExactDecimal.

Record t : Type := Dec { mantissa : Z; exponent : nat }.

Definition of_Z (z : Z) : t := Dec z 0.

Definition scale (x : t) (e : nat) : Z :=
  mantissa x * 10 ^ Z.of_nat (e - exponent x).

Definition mul (x y : t) : t :=
  Dec (mantissa x * mantissa y) (exponent x + exponent y).

Definition sub (x y : t) : t :=
  let e := Nat.max (exponent x) (exponent y) in
  Dec (scale x e - scale y e) e.

Definition ltb (x y : t) : bool :=
  let e := Nat.max (exponent x) (exponent y) in
  scale x e <? scale y e.

Definition eqb (x y : t) : bool :=
  let e := Nat.max (exponent x) (exponent y) in
  scale x e =? scale y e.

Definition is_zero (x : t) : bool := mantissa x =? 0.

Fixpoint drop_digits (s : string) : string :=
  match s with
  | String c s' =>
      let n := nat_of_ascii c in
      if ((48 <=? n) && (n <=? 57))%nat then drop_digits s' else s
  | EmptyString => EmptyString
  end.

(** [digits [. digits]] or [. digits] *)
Definition parse_unsigned (s : string) : option t :=
  let whole := JS.take_uint s in
  let frac :=
    match drop_digits s with
    | String "." s' => JS.take_uint s'
    | _ => Decimal.Nil
    end in
  match whole, frac with
  | Decimal.Nil, Decimal.Nil => None
  | _, _ => Some (Dec (Z.of_uint (Decimal.app whole frac)) (Decimal.nb_digits frac))
  end.

Definition parse (s : string) : option t :=
  match JS.trim_start s with
  | String "-" s' =>
      match parse_unsigned s' with
      | Some x => Some (Dec (- mantissa x) (exponent x))
      | None => None
      end
  | String "+" s' => parse_unsigned s'
  | s' => parse_unsigned s'
  end.

(** Drop the zeros that end the fraction. *)
Fixpoint normalize (m : Z) (e : nat) : t :=
  match e with
  | O => Dec m O
  | S e' => if m mod 10 =? 0 then normalize (m / 10) e' else Dec m e
  end.

Fixpoint zeros (n : nat) : string :=
  match n with
  | O => EmptyString
  | S n' => String "0" (zeros n')
  end.

(** The digits of [n], at least [width] of them. *)
Definition padded (width : nat) (n : Z) : string :=
  let digits := JS.string_of_Z n in
  zeros (width - String.length digits) ++ digits.

Definition print (negative : bool) (magnitude : Z) (e : nat) : string :=
  (if negative then "-" else "")
  ++ JS.string_of_Z (magnitude / 10 ^ Z.of_nat e)
  ++ match e with
     | O => ""
     | _ => "." ++ padded e (magnitude mod 10 ^ Z.of_nat e)
     end.

Definition to_string (x : t) : string :=
  let n := normalize (mantissa x) (exponent x) in
  print (mantissa n <? 0) (Z.abs (mantissa n)) (exponent n).

(** Two decimals, the nearest; a tie goes away from zero. *)
Definition to_fixed2 (x : t) : string :=
  let scaled := 2 * Z.abs (mantissa x) * 100 in
  let unit := 2 * 10 ^ Z.of_nat (exponent x) in
  print (mantissa x <? 0) ((scaled + unit / 2) / unit) 2.

#[global] Instance ops : JS.FloatOps t := {|
  JS.f_of_Z := of_Z;
  JS.f_mul := mul;
  JS.f_sub := sub;
  JS.f_ltb := ltb;
  JS.f_eqb := eqb;
  JS.f_is_nan := fun _ => false;
  JS.f_is_zero := is_zero;
  JS.f_parse := parse;
  JS.f_to_string := to_string;
  JS.f_to_fixed2 := to_fixed2
|}.

Definition add (x y : t) : t :=
  let e := Nat.max (exponent x) (exponent y) in
  Dec (scale x e + scale y e) e.

#[global] Instance sums : JS.FloatSum t := {| JS.f_add := add |}.

End ExactDecimal.

(** ** Reading the log of an operation *)

Module Trace.
Import JS Sheets.

Section Trace.
Context {F : Type} {FO : FloatOps F}.

Local Abbreviation row := (list (value F)).
Local Abbreviation grid := (list (list (value F))).

(** The requests sent between [w] and [w']. *)
Definition new_events (w w' : world F) : list (effect F) :=
  drop (length (log w)) (log w').

(** The rows appended to the sheet [title]. *)
Definition appended (title : string) (events : list (effect F)) : list row :=
  flat_map (fun e =>
              match e with
              | Append t r => if String.eqb t title then [r] else []
              | _ => []
              end) events.

(** The requests by which [ensureSheetExists] sets up a missing sheet:
    the new sheet and its header line. *)
Definition creates (title : string) (e : effect F) : Prop :=
  e = AddSheet title \/ exists headers, e = Update (Range title 0 1) [headers].

(** The set-up requests of [recordSale]. *)
Definition sheet_setup (e : effect F) : Prop :=
  creates "Sales" e \/ creates "Loans" e.

(** The cells of column F (Quantity) among the lines [vs] written from
    line [ln], column [col] on, each with its line. *)
Fixpoint quantity_cells (ln col : nat) (vs : grid) : list (nat * value F) :=
  match vs with
  | [] => []
  | cells :: rest =>
      match (if (col <=? 5)%nat then cells !! (5 - col)%nat else None) with
      | Some v => [(ln, v)]
      | None => []
      end ++ quantity_cells (S ln) col rest
  end.

(** The quantities a request writes to the Inventory sheet. *)
Definition quantity_writes (e : effect F) : list (nat * value F) :=
  match e with
  | Update r vs =>
      if String.eqb (sheet r) "Inventory"
      then quantity_cells (line r) (column r) vs
      else []
  | _ => []
  end.

(** The quantity [recordSale] reads in a cell: [parseInt(cell || '0')]. *)
Definition quantity_of (cell : value F) : number F :=
  parseInt (oror cell (VStr "0")).

(** The stored quantity of the line of index [i] of the Inventory sheet. *)
Definition stored_quantity (w : world F) (i : nat) : option (number F) :=
  match sheets w !! "Inventory" with
  | Some g =>
      match g !! i with
      | Some r => Some (quantity_of (get r 5))
      | None => None
      end
  | None => None
  end.

(** The Status and Date Paid cells of the line of index [i] of the Loans
    sheet. *)
Definition stored_loan (w : world F) (i : nat) : option (value F * value F) :=
  match sheets w !! "Loans" with
  | Some g =>
      match g !! i with
      | Some r => Some (get r 7, get r 8)
      | None => None
      end
  | None => None
  end.

(** The quantity write of a sale: one cell of column F of a data line
    of the Inventory sheet, holding the digits of a number that is
    [NaN] or not negative. *)
Definition quantity_update (e : effect F) : Prop :=
  exists i n,
    e = Update (Range "Inventory" 5 (S (S i))) [[VStr (number_to_string n)]]
    /\ (n = NaN \/ exists z, n = Int z /\ 0 <= z).

(** The requests of a sale that passed its checks: the sale record with
    its total, the loan record exactly when the payment method is
    ['Loan'], then quantity updates. *)
Definition sale_events (paymentMethod : value F) (events : list (effect F)) : Prop :=
  exists saleRow loanRows ups p q,
    events = (Append "Sales" saleRow :: map (Append "Loans") loanRows ++ ups)%list
    /\ Forall quantity_update ups
    /\ get saleRow 4 = VNum q
    /\ get saleRow 5 = VNum p
    /\ get saleRow 6 = VStr (toFixed2 (mul p q))
    /\ ((paymentMethod = VStr "Loan"
         /\ exists loanRow,
             loanRows = [loanRow]
             /\ get loanRow 4 = VStr (toFixed2 (mul p q))
             /\ get loanRow 7 = VStr "Unpaid")
        \/ (paymentMethod <> VStr "Loan" /\ loanRows = [])).

End Trace.
End Trace.

(** ** Cells that are stored as they are sent *)

Module Rows.
Import JS.

(** What a line of a bulk sale meets in the Inventory sheet: the line of
    its item, the quantity in stock there and the quantity asked for. *)
Record met : Type := Met { at_line : nat; in_stock : Z; asked : Z }.

Section Rows.
Context {F : Type} {FO : FloatOps F}.


(** A cell as a read gives it: text. *)
Definition text (v : value F) : Prop := exists s, v = VStr s.

(** A loan row that [updateLoans] counts as unpaid:
    [(row[7] || 'Unpaid') === 'Unpaid']. *)
Definition unpaid (row : list (value F)) : bool :=
  strict_eq (oror (get row 7) (VStr "Unpaid")) (VStr "Unpaid").


(** The number of pieces of the lines of a bulk sale. *)
Definition pieces (lines : list (BulkItem.t F)) : Z :=
  fold_right (fun line n =>
                match BulkItem.qty line with
                | VNum (Int z) => z + n
                | _ => n
                end) 0 lines.

(** The pieces in stock as [getAnalytics] adds them up: the quantity
    cells that parse, a blank cell counting as 0. *)
Definition stock (items : list (list (value F))) : Z :=
  fold_right (fun item n =>
                match parseInt (oror (get item 5) (VNum (Int 0))) with
                | Int z => z + n
                | _ => n
                end) 0 items.

(** Two states of the Inventory sheet that differ in quantity cells only:
    the same number of lines, and in each line the same content in every
    column but F, a missing cell counting as an empty one. *)
Definition same_but_quantity (g g' : list (list (value F))) : Prop :=
  length g' = length g
  /\ forall k r, g !! k = Some r ->
       exists r', g' !! k = Some r'
                  /\ forall j, j <> 5%nat ->
                       default (VStr "") (r' !! j) = default (VStr "") (r !! j).

(** A sheet of records that has only grown: the lines that were there
    are there, in place, and more may follow. *)
Definition grown (g g' : list (list (value F))) : Prop :=
  exists more, g' = (g ++ more)%list.

End Rows.
End Rows.

(** ** A shop to run the operations on *)

Module Example.
Import JS Sheets.

Definition str (s : string) : value ExactDecimal.t := VStr s.
Definition num (z : Z) : value ExactDecimal.t := VNum (Int z).
Definition price (m : Z) (e : nat) : value ExactDecimal.t :=
  VNum (Float (ExactDecimal.Dec m e)).
Definition absent : value ExactDecimal.t := VUndefined.

Definition mint : list (value ExactDecimal.t) :=
  [str "1700000000001"; str "Vape Juice/Pod"; str "Brand"; str "v1"; str "Mint";
   str "10"; str "45.50"; str "2024-01-01"; str ""; str "30"].

Definition grape : list (value ExactDecimal.t) :=
  [str "1700000000002"; str "Vape Juice/Pod"; str "Brand"; str "v1"; str "Grape";
   str "2"; str "45.50"; str "2024-01-01"; str ""; str "30"].

Definition inventory : list (list (value ExactDecimal.t)) :=
  [(Server.inventory_headers ++ [str "Cost"])%list; mint; grape].

Definition loan : list (value ExactDecimal.t) :=
  [str "LOAN-1699999999999"; str "1699999999999"; str "Ana"; str "Brand";
   str "91.00"; str "2023-12-30"; str ""; str "Unpaid"; str ""; str ""].

Definition shop : world ExactDecimal.t :=
  World (<["Inventory" := inventory]>
           (<["Sales" := [Server.sales_headers]]>
              (<["Loans" := [Server.loans_headers; loan]]> ∅)))
        [].

Definition clock : Server.clock := Server.Clock 1712345678901 "2024-04-05".

Definition request (sale : Sale.t ExactDecimal.t) : Server.body :=
  Server.Body (str "spreadsheet") (Some sale).

(** Four Mint sold over the counter at 45.50. *)
Definition retail : Sale.t ExactDecimal.t :=
  Sale.Make (str "1700000000001") (num 4) (price 4550 2) (price 4550 2)
            (str "Cash") (str "Bob") (str "") (str "") (str "retail") None.

(** The same on credit. *)
Definition retail_loan : Sale.t ExactDecimal.t :=
  Sale.Make (str "1700000000001") (num 4) (price 4550 2) (price 4550 2)
            (str "Loan") (str "Bob") (str "") (str "") (str "retail") None.

(** Eleven Mint, one more than the stock. *)
Definition oversell : Sale.t ExactDecimal.t :=
  Sale.Make (str "1700000000001") (num 11) (price 4550 2) (price 4550 2)
            (str "Cash") (str "Bob") (str "") (str "") (str "retail") None.

(** An applied price of 0 next to a price per unit of 50. *)
Definition giveaway : Sale.t ExactDecimal.t :=
  Sale.Make (str "1700000000001") (num 3) (num 0) (price 50 0)
            (str "Cash") (str "Bob") (str "") (str "") (str "retail") None.

Definition bulk_line (itemId : string) (qty : Z) : BulkItem.t ExactDecimal.t :=
  BulkItem.Make (str itemId) (num qty).

Definition bulk (paymentMethod : string) (quantitySold : Z)
    (lines : list (BulkItem.t ExactDecimal.t)) : Sale.t ExactDecimal.t :=
  Sale.Make absent (num quantitySold) (price 50 0) (price 50 0)
            (str paymentMethod) (str "Bob") (str "") (str "") (str "bulk") (Some lines).

(** Three Mint and five Grape, of which there are two. *)
Definition short_lines : list (BulkItem.t ExactDecimal.t) :=
  [bulk_line "1700000000001" 3; bulk_line "1700000000002" 5].

(** A sale of an item that the Inventory sheet does not have. *)
Definition unknown_item : Sale.t ExactDecimal.t :=
  Sale.Make (str "42") (num 1) (price 4550 2) (price 4550 2)
            (str "Cash") (str "Bob") (str "") (str "") (str "retail") None.

(** Two lines for items that the Inventory sheet does not have. *)
Definition ghost_lines : list (BulkItem.t ExactDecimal.t) :=
  [bulk_line "42" 3; bulk_line "43" 5].

(** Mint twice: four, then five. *)
Definition mint_twice : list (BulkItem.t ExactDecimal.t) :=
  [bulk_line "1700000000001" 4; bulk_line "1700000000001" 5].

(** A spreadsheet without any sheet. *)
Definition blank : world ExactDecimal.t := World ∅ [].


(** The shop with a Warranty sheet that has a header line and one claim. *)
Definition old_claim : list (value ExactDecimal.t) :=
  [str "1700000009999"; str "2024-01-15"; str "1700000000001"; str "Brand"; str "1";
   str "Burnt coil"; str "Ana"; str ""; str "Completed"].

Definition warranty : list (list (value ExactDecimal.t)) :=
  [Server.strs ["Claim ID"; "Date"; "Product ID"; "Product Name"; "Quantity"; "Reason";
                "Customer"; "Notes"; "Status"];
   old_claim].

Definition shop_with_claims : world ExactDecimal.t :=
  World (<["Warranty" := warranty]> (sheets shop)) [].

(** Grape as a page that loaded the inventory when there were five still
    has it. *)
Definition stale_grape : list (value ExactDecimal.t) :=
  [str "1700000000002"; str "Vape Juice/Pod"; str "Brand"; str "v1"; str "Grape";
   str "5"; str "45.50"; str "2024-01-01"; str ""; str "30"].

(** The sales form filled in for four Mint over the counter at 45.50. *)
Definition counter_form (quantity : string) : SalesForm.t :=
  SalesForm.Make "retail" "Bob" "" "" "1700000000001" quantity "45.50" "2024-04-05"
                 "Cash" "" "" "" [].

(** The inputs of the bulk part of the form for Mint and Grape. *)
Definition mint_input (value : string) : QtyInput.t :=
  QtyInput.Make value "1700000000001" "Brand" "Mint" "v1" "30" "10".

Definition grape_input (value : string) : QtyInput.t :=
  QtyInput.Make value "1700000000002" "Brand" "Grape" "v1" "30" "2".

(** The sales form filled in for a bulk sale of five pieces at 40. *)
Definition bulk_form : SalesForm.t :=
  SalesForm.Make "bulk" "Bob" "" "5" "" "" "" "" "" "2024-04-05" "40" "Cash"
                 [mint_input "3"; grape_input "2"].

(** Three Mint and two Grape, which the stock has. *)
Definition fitting_lines : list (BulkItem.t ExactDecimal.t) :=
  [bulk_line "1700000000001" 3; bulk_line "1700000000002" 2].

(** A warranty claim for Grape. *)
Definition claim (quantity : string) : ClaimData.t ExactDecimal.t :=
  ClaimData.Make (str "1700000000002") (str quantity) (str "2024-04-05") (str "Bob")
                 (str "Leaking pod") (str "").

End Example.

(** * Properties *)

Import JS Sheets Trace.
Local Open Scope sheets_scope.

(** ** Numbers and strings *)

Section NumberFacts.
Context {F : Type} {FO : FloatOps F}.

Lemma take_uint_string_of_uint (u : Decimal.uint) :
  take_uint (NilEmpty.string_of_uint u) = u.
Proof. induction u; simpl; congruence. Qed.

Lemma parse_magnitude_string_of_uint (u : Decimal.uint) :
  u <> Decimal.Nil ->
  parse_magnitude (NilEmpty.string_of_uint u) = Some (Z.of_uint u).
Proof.
  intros Hu.
  assert (Hdec : match take_uint (NilEmpty.string_of_uint u) with
                 | Decimal.Nil => None
                 | v => Some (Z.of_uint v)
                 end = Some (Z.of_uint u)).
  { rewrite take_uint_string_of_uint. destruct u; congruence. }
  destruct u as [|u'|u'|u'|u'|u'|u'|u'|u'|u'|u']; try congruence; try exact Hdec.
  destruct u'; exact Hdec.
Qed.

Lemma parse_int_unsigned (u : Decimal.uint) :
  u <> Decimal.Nil ->
  parse_int (F := F) (NilEmpty.string_of_uint u) = Int (Z.of_uint u).
Proof.
  intros Hu. pose proof (parse_magnitude_string_of_uint u Hu) as Hm.
  unfold parse_int.
  destruct u; try congruence;
    simpl NilEmpty.string_of_uint in Hm |- *; simpl trim_start; cbv iota beta;
    rewrite Hm; reflexivity.
Qed.

Lemma parse_int_negative (u : Decimal.uint) :
  u <> Decimal.Nil ->
  parse_int (F := F) (String "-" (NilEmpty.string_of_uint u)) = Int (- Z.of_uint u).
Proof.
  intros Hu. pose proof (parse_magnitude_string_of_uint u Hu) as Hm.
  unfold parse_int. simpl trim_start. cbv iota beta. rewrite Hm. reflexivity.
Qed.

(** Printing an integer and parsing it back gives the integer. *)
Lemma parse_int_string_of_Z (z : Z) :
  parse_int (F := F) (string_of_Z z) = Int z.
Proof.
  unfold string_of_Z. destruct z as [|p|p]; [reflexivity| |].
  - simpl Z.to_int. unfold NilZero.string_of_int, NilZero.string_of_uint.
    pose proof (DecimalPos.Unsigned.to_uint_nonnil p) as Hn.
    destruct (Pos.to_uint p) eqn:E; try congruence;
      rewrite <- E; rewrite parse_int_unsigned by (rewrite E; congruence);
      f_equal; unfold Z.of_uint; rewrite DecimalPos.Unsigned.of_to; reflexivity.
  - simpl Z.to_int. unfold NilZero.string_of_int, NilZero.string_of_uint.
    pose proof (DecimalPos.Unsigned.to_uint_nonnil p) as Hn.
    destruct (Pos.to_uint p) eqn:E; try congruence;
      rewrite <- E; rewrite parse_int_negative by (rewrite E; congruence);
      f_equal; unfold Z.of_uint; rewrite DecimalPos.Unsigned.of_to; reflexivity.
Qed.

(** [parseInt] gives [NaN] or an integer. *)
Lemma parse_int_cases (s : string) :
  parse_int (F := F) s = NaN \/ exists z, parse_int (F := F) s = Int z.
Proof.
  unfold parse_int.
  destruct (match trim_start s with
            | String "-" s' => (true, s')
            | String "+" s' => (false, s')
            | _ => (false, trim_start s)
            end) as [neg body].
  destruct (parse_magnitude body); eauto.
Qed.

Lemma string_of_Z_nonempty (z : Z) : String.eqb (string_of_Z z) "" = false.
Proof.
  unfold string_of_Z. destruct z as [|p|p]; [reflexivity| |reflexivity].
  simpl. unfold NilZero.string_of_uint.
  pose proof (DecimalPos.Unsigned.to_uint_nonnil p).
  destruct (Pos.to_uint p); simpl; congruence.
Qed.

End NumberFacts.

(** ** The spreadsheet service *)

Section StoreFacts.
Context {F : Type} {FO : FloatOps F}.

Local Abbreviation row := (list (value F)).
Local Abbreviation grid := (list (list (value F))).

Lemma bind_ok {A B} (m : M F A) (k : A -> M F B) w w' a :
  m w = (w', Ok a) -> bind m k w = k a w'.
Proof. intros H. unfold bind. rewrite H. reflexivity. Qed.

Lemma bind_throw {A B} (m : M F A) (k : A -> M F B) w w' e :
  m w = (w', Throw e) -> bind m k w = (w', Throw e).
Proof. intros H. unfold bind. rewrite H. reflexivity. Qed.

Lemma bind_assoc {A B C} (m : M F A) (k : A -> M F B) (h : B -> M F C) w :
  bind (bind m k) h w = bind m (fun a => bind (k a) h) w.
Proof. unfold bind. destruct (m w) as [w' [a|e]]; reflexivity. Qed.

Lemma new_events_app (w w' : world F) evs :
  log w' = (log w ++ evs)%list -> new_events w w' = evs.
Proof. intros H. unfold new_events. rewrite H. apply drop_app_length. Qed.

Lemma new_events_same (w : world F) : new_events w w = [].
Proof. unfold new_events. apply drop_all. Qed.

Lemma values_get_run title (g : grid) (w : world F) :
  sheets w !! title = Some g -> values_get title w = (w, Ok g).
Proof. intros H. unfold values_get. rewrite H. reflexivity. Qed.

Lemma values_append_run title (r : row) (g : grid) (w : world F) :
  sheets w !! title = Some g ->
  values_append title r w =
    (World (<[title := (g ++ [overwrite r []])%list]> (sheets w))
           (log w ++ [Append title r])%list, Ok tt).
Proof. intros H. unfold values_append. rewrite H. reflexivity. Qed.

Lemma values_update_run title col i (vs g : grid) (w : world F) :
  sheets w !! title = Some g ->
  values_update (Range title col (S i)) vs w =
    (World (<[title := write_lines i col vs g]> (sheets w))
           (log w ++ [Update (Range title col (S i)) vs])%list, Ok tt).
Proof. intros H. unfold values_update. simpl. rewrite H. reflexivity. Qed.

(** Writing a value that is not null into a cell, and reading it. *)
Lemma get_write_cells col (v : value F) (r : row) :
  (forall old, written old v = v) -> get (write_cells col [v] r) col = v.
Proof.
  intros Hv. revert r. induction col as [|c IH]; intros r.
  - destruct r as [|x xs]; simpl; unfold get; simpl; apply Hv.
  - destruct r as [|x xs]; simpl; unfold get in *; simpl; apply IH.
Qed.

Lemma get_write_cells_str col s (r : row) :
  get (write_cells col [VStr s] r) col = VStr s.
Proof. apply get_write_cells. reflexivity. Qed.

Lemma lookup_write_line i col (new : row) (g : grid) :
  write_line i col new g !! i = Some (write_cells col new (default [] (g !! i))).
Proof.
  revert g. induction i as [|j IH]; intros [|r g']; simpl; try reflexivity.
  - rewrite IH. reflexivity.
  - apply IH.
Qed.

Lemma lookup_write_line_ne i j col (new : row) (g : grid) (r : row) :
  i <> j -> g !! j = Some r -> write_line i col new g !! j = Some r.
Proof.
  revert g j. induction i as [|i IH]; intros [|x g'] [|j] Hne Hj;
    simpl in *; try congruence.
  apply IH; [congruence | exact Hj].
Qed.

(** [ensureSheetExists] always returns; it leaves the other sheets and an
    existing sheet alone, and sends no request that writes a record. *)
Lemma ensureSheetExists_spec name (headers : row) (w : world F) :
  exists w' evs,
    Server.ensureSheetExists name headers w = (w', Ok tt)
    /\ is_Some (sheets w' !! name)
    /\ (forall t, t <> name -> sheets w' !! t = sheets w !! t)
    /\ (is_Some (sheets w !! name) -> sheets w' = sheets w)
    /\ log w' = (log w ++ evs)%list
    /\ Forall (creates name) evs.
Proof.
  unfold Server.ensureSheetExists, try_catch, bind, spreadsheets_get, addSheet.
  destruct (sheets w !! name) as [g|] eqn:E.
  - rewrite bool_decide_eq_true_2 by eauto. simpl.
    exists w, []. rewrite E, app_nil_r. repeat split; eauto.
  - rewrite bool_decide_eq_false_2 by (intros [? ?]; congruence). simpl.
    rewrite E.
    destruct (0 <? length headers)%nat.
    + unfold values_update. simpl. rewrite lookup_insert_eq.
      eexists _, [AddSheet name; Update (Range name 0 1) [headers]].
      split; [reflexivity|]. simpl.
      repeat split.
      * rewrite lookup_insert_eq. eauto.
      * intros t Ht. rewrite !lookup_insert_ne by congruence. reflexivity.
      * intros [? ?]; congruence.
      * rewrite <- app_assoc. reflexivity.
      * constructor; [left; reflexivity|].
        constructor; [right; eexists; reflexivity|constructor].
    + unfold ret. eexists _, [AddSheet name].
      split; [reflexivity|]. simpl.
      repeat split.
      * rewrite lookup_insert_eq. eauto.
      * intros t Ht. rewrite lookup_insert_ne by congruence. reflexivity.
      * intros [? ?]; congruence.
      * constructor; [left; reflexivity|constructor].
Qed.

End StoreFacts.

(** ** The [recordSale] handler *)

Section RecordSaleFacts.
Context {F : Type} {FO : FloatOps F}.

Local Abbreviation row := (list (value F)).
Local Abbreviation grid := (list (list (value F))).

Lemma respond_ok {A} (m : M F A) w w' a :
  m w = (w', Ok a) -> Server.respond m w = (w', Ok (Server.Status200 a)).
Proof. intros H. unfold Server.respond, try_catch, bind. rewrite H. reflexivity. Qed.

Lemma respond_throw {A} (m : M F A) w w' msg :
  m w = (w', Throw (Error msg)) ->
  Server.respond m w = (w', Ok (Server.Status500 msg)).
Proof. intros H. unfold Server.respond, try_catch, bind. rewrite H. reflexivity. Qed.

Lemma respond_ext {A} (m m' : M F A) w w' :
  m w = m' w' -> Server.respond m w = Server.respond m' w'.
Proof. intros H. unfold Server.respond, try_catch, bind. rewrite H. reflexivity. Qed.

Lemma strict_eq_str (v : value F) s : strict_eq v (VStr s) = true <-> v = VStr s.
Proof.
  destruct v as [| |x|n|t]; simpl; try (split; [discriminate | congruence]).
  rewrite String.eqb_eq. split; congruence.
Qed.

(** [(paymentMethod || 'Cash') === 'Loan'] exactly when [paymentMethod]
    is ['Loan']. *)
Lemma strict_eq_or_cash (v : value F) :
  strict_eq (oror v (VStr "Cash")) (VStr "Loan") = strict_eq v (VStr "Loan").
Proof.
  unfold oror. destruct (truthy v) eqn:E; [reflexivity|].
  destruct v as [| |x|n|t]; try reflexivity; simpl in E.
  apply Bool.negb_false_iff, String.eqb_eq in E. subst. reflexivity.
Qed.

(** The two [ensureSheetExists] calls that open [recordSale]. *)
Lemma recordSale_open c b sale (w : world F) :
  truthy (Server.spreadsheetId b) = true ->
  Server.sale b = Some sale ->
  exists w0 pre gs gl,
    sheets w0 !! "Sales" = Some gs
    /\ sheets w0 !! "Loans" = Some gl
    /\ (forall t, t <> "Sales" -> t <> "Loans" -> sheets w0 !! t = sheets w !! t)
    /\ (forall t, is_Some (sheets w !! t) -> sheets w0 !! t = sheets w !! t)
    /\ log w0 = (log w ++ pre)%list
    /\ Forall sheet_setup pre
    /\ Server.recordSale c b w =
       Server.respond
         (let* values := values_get "Inventory" in
          match Sale.bulkItems sale with
          | Some (bulkItem :: rest) => Server.recordBulk c sale (bulkItem :: rest) values
          | _ => Server.recordSingle c sale values
          end) w0.
Proof.
  intros Hid Hsale.
  destruct (ensureSheetExists_spec "Sales" Server.sales_headers w)
    as (w1 & ev1 & R1 & S1 & O1 & K1 & L1 & D1).
  destruct (ensureSheetExists_spec "Loans" Server.loans_headers w1)
    as (w2 & ev2 & R2 & S2 & O2 & K2 & L2 & D2).
  destruct S1 as [gs S1]. destruct S2 as [gl S2].
  exists w2, (ev1 ++ ev2)%list, gs, gl.
  split. { rewrite O2 by discriminate. exact S1. }
  split. { exact S2. }
  split. { intros t H1 H2. rewrite O2, O1 by assumption. reflexivity. }
  split.
  { intros t Ht.
    assert (H1 : sheets w1 !! t = sheets w !! t).
    { destruct (decide (t = "Sales")) as [->|Hne]; [rewrite K1; auto | auto]. }
    destruct (decide (t = "Loans")) as [->|Hne].
    + rewrite K2; [exact H1 | rewrite H1; exact Ht].
    + rewrite O2 by exact Hne. exact H1. }
  split. { rewrite L2, L1, app_assoc. reflexivity. }
  split.
  { apply Forall_app; split; eapply Forall_impl; eauto; intros e He;
      [left | right]; exact He. }
  unfold Server.recordSale. rewrite Hid, Hsale.
  apply respond_ext.
  rewrite (bind_ok _ _ _ _ _ R1), (bind_ok _ _ _ _ _ R2).
  reflexivity.
Qed.

(** The same with the Inventory sheet loaded. *)
Lemma recordSale_prelude c b sale (w : world F) gi :
  truthy (Server.spreadsheetId b) = true ->
  Server.sale b = Some sale ->
  sheets w !! "Inventory" = Some gi ->
  exists w0 pre gs gl,
    sheets w0 !! "Sales" = Some gs
    /\ sheets w0 !! "Loans" = Some gl
    /\ sheets w0 !! "Inventory" = Some gi
    /\ (forall t, is_Some (sheets w !! t) -> sheets w0 !! t = sheets w !! t)
    /\ log w0 = (log w ++ pre)%list
    /\ Forall sheet_setup pre
    /\ Server.recordSale c b w =
       Server.respond
         (match Sale.bulkItems sale with
          | Some (bulkItem :: rest) => Server.recordBulk c sale (bulkItem :: rest) gi
          | _ => Server.recordSingle c sale gi
          end) w0.
Proof.
  intros Hid Hsale Hinv.
  destruct (recordSale_open c b sale w Hid Hsale)
    as (w0 & pre & gs & gl & HS & HL & O & K & L & D & R).
  assert (Hinv0 : sheets w0 !! "Inventory" = Some gi).
  { rewrite O by discriminate. exact Hinv. }
  exists w0, pre, gs, gl. repeat (split; [assumption|]).
  rewrite R. apply respond_ext.
  rewrite (bind_ok _ _ _ _ _ (values_get_run _ _ _ Hinv0)). reflexivity.
Qed.

(** The single-item branch when every check passes: the record appends
    and the quantity write, in the order they are sent. *)
Lemma recordSingle_ok c sale (values : grid) (w : world F) gs gl gi i :
  sheets w !! "Sales" = Some gs ->
  sheets w !! "Loans" = Some gl ->
  sheets w !! "Inventory" = Some gi ->
  truthy (Sale.itemId sale) = true ->
  Server.findIndex values (Sale.itemId sale) = Some i ->
  let itemRow := default [] (values !! i) in
  let existingQty := quantity_of (get itemRow 5) in
  let sellQty := parseInt (oror (Sale.quantitySold sale) (VNum (Int 0))) in
  let price :=
    or0 (parseFloat
           (oror (oror (oror (Sale.appliedPrice sale) (Sale.pricePerUnit sale))
                       (get itemRow 6))
                 (VNum (Int 0)))) in
  let total := toFixed2 (mul price sellQty) in
  let newQty := sub existingQty sellQty in
  isNaN sellQty || le sellQty (Int 0) = false ->
  gt sellQty existingQty = false ->
  exists w' saleRow loanRows,
    Server.recordSingle c sale values w =
      (w', Ok (Server.Recorded (string_of_Z (Server.now c)) (Some newQty)))
    /\ log w' =
         (log w ++ Append "Sales" saleRow :: map (Append "Loans") loanRows
            ++ [Update (Range "Inventory" 5 (i + 1))
                       [[VStr (number_to_string newQty)]]])%list
    /\ sheets w' !! "Inventory" =
         Some (write_line i 5 [VStr (number_to_string newQty)] gi)
    /\ sheets w' !! "Sales" = Some (gs ++ [overwrite saleRow []])%list
    /\ get saleRow 4 = VNum sellQty
    /\ get saleRow 5 = VNum price
    /\ get saleRow 6 = VStr total
    /\ ((Sale.paymentMethod sale = VStr "Loan"
         /\ exists loanRow,
             loanRows = [loanRow]
             /\ get loanRow 4 = VStr total
             /\ get loanRow 7 = VStr "Unpaid"
             /\ sheets w' !! "Loans" = Some (gl ++ [overwrite loanRow []])%list)
        \/ (Sale.paymentMethod sale <> VStr "Loan"
            /\ loanRows = []
            /\ sheets w' !! "Loans" = Some gl)).
Proof.
  intros HS HL HI Hid Hfind itemRow existingQty sellQty price total newQty Hvalid Hstock.
  unfold existingQty, sellQty, quantity_of, itemRow in Hvalid, Hstock.
  unfold Server.recordSingle. rewrite Hid. cbn [negb]. rewrite Hfind.
  cbv zeta. rewrite Hvalid, Hstock.
  rewrite (bind_ok _ _ _ _ _ (values_append_run _ _ _ _ HS)).
  rewrite strict_eq_or_cash.
  destruct (strict_eq (Sale.paymentMethod sale) (VStr "Loan")) eqn:Epm.
  - apply strict_eq_str in Epm.
    erewrite bind_ok; cycle 1.
    { apply values_append_run. simpl. rewrite lookup_insert_ne by discriminate. exact HL. }
    erewrite bind_ok; cycle 1.
    { rewrite Nat.add_1_r. apply values_update_run. simpl.
      rewrite !lookup_insert_ne by discriminate. exact HI. }
    eexists _, _, [_]. split; [reflexivity|]. simpl.
    split. { rewrite <- !app_assoc. rewrite Nat.add_1_r. reflexivity. }
    split. { rewrite lookup_insert_eq. reflexivity. }
    split.
    { rewrite !lookup_insert_ne by discriminate. rewrite lookup_insert_eq. reflexivity. }
    do 3 (split; [reflexivity|]).
    left. split; [exact Epm|]. eexists. split; [reflexivity|].
    do 2 (split; [reflexivity|]).
    rewrite lookup_insert_ne by discriminate. rewrite lookup_insert_eq. reflexivity.
  - assert (Hne : Sale.paymentMethod sale <> VStr "Loan").
    { intros Heq. apply strict_eq_str in Heq. congruence. }
    erewrite bind_ok; cycle 1. { reflexivity. }
    erewrite bind_ok; cycle 1.
    { rewrite Nat.add_1_r. apply values_update_run. simpl.
      rewrite !lookup_insert_ne by discriminate. exact HI. }
    eexists _, _, []. split; [reflexivity|]. simpl.
    split. { rewrite <- !app_assoc. rewrite Nat.add_1_r. reflexivity. }
    split. { rewrite lookup_insert_eq. reflexivity. }
    split.
    { rewrite !lookup_insert_ne by discriminate. rewrite lookup_insert_eq. reflexivity. }
    do 3 (split; [reflexivity|]).
    right. split; [exact Hne|]. split; [reflexivity|].
    rewrite !lookup_insert_ne by discriminate. exact HL.
Qed.

Lemma find_from_ge k (rows : grid) itemId i :
  Server.find_from k rows itemId = Some i -> (k <= i)%nat.
Proof.
  revert k. induction rows as [|r rest IH]; intros k H; simpl in H; [discriminate|].
  destruct (truthy (get r 0) && String.eqb (ToString (get r 0)) (ToString itemId)).
  - injection H as <-. lia.
  - apply IH in H. lia.
Qed.

Lemma findIndex_pos (values : grid) itemId i :
  Server.findIndex values itemId = Some i -> exists j, i = S j.
Proof.
  intros H. apply find_from_ge in H. destruct i; [lia | eauto].
Qed.

(** When the stock check passes, the new quantity is [NaN] or not
    negative. *)
Lemma sub_not_negative (s1 s2 : string) :
  gt (parse_int (F := F) s1) (parse_int s2) = false ->
  sub (parse_int (F := F) s2) (parse_int s1) = NaN
  \/ exists z, sub (parse_int (F := F) s2) (parse_int s1) = Int z /\ 0 <= z.
Proof.
  destruct (parse_int_cases (F := F) s1) as [-> | [a ->]];
    destruct (parse_int_cases (F := F) s2) as [-> | [b ->]];
    simpl; intros H; auto.
  right. exists (b - a). split; [reflexivity|]. apply Z.ltb_ge in H. lia.
Qed.

(** The inventory loop of a bulk sale sends quantity updates only, and
    touches no sheet but Inventory. *)
Lemma bulk_loop_spec items : forall (values : grid) (w : world F) gi,
  sheets w !! "Inventory" = Some gi ->
  exists w' r ups gi',
    Server.bulk_loop items values w = (w', r)
    /\ log w' = (log w ++ ups)%list
    /\ Forall quantity_update ups
    /\ sheets w' !! "Inventory" = Some gi'
    /\ (forall t, t <> "Inventory" -> sheets w' !! t = sheets w !! t).
Proof.
  induction items as [|item rest IH]; intros values w gi HI; simpl.
  - exists w, (Ok values), [], gi. rewrite app_nil_r. repeat split; auto.
  - destruct (Server.findIndex values (BulkItem.itemId item)) as [i|] eqn:Ef; [|eauto].
    destruct (findIndex_pos _ _ _ Ef) as [j ->].
    destruct (gt _ _) eqn:Egt.
    + eexists w, _, [], gi. rewrite app_nil_r. repeat split; auto.
    + rewrite Nat.add_1_r.
      rewrite (bind_ok _ _ _ _ _ (values_update_run _ _ _ _ _ _ HI)).
      match goal with
      | |- context [Server.bulk_loop rest ?v ?w0] =>
          edestruct (IH v w0) as (w' & r & ups & gi' & R & L & Q & I' & O);
            [simpl; apply lookup_insert_eq|]
      end.
      rewrite R. eexists w', r, (_ :: ups), gi'.
      split; [reflexivity|]. simpl in L, O.
      split. { rewrite L, <- app_assoc. reflexivity. }
      split.
      { constructor; [|exact Q]. eexists j, _. split; [reflexivity|].
        apply sub_not_negative. exact Egt. }
      split; [exact I'|].
      intros t Ht. rewrite O by exact Ht. apply lookup_insert_ne. congruence.
Qed.

Lemma bulk_loop_app l1 : forall l2 (values : grid) (w : world F),
  Server.bulk_loop (l1 ++ l2) values w =
    (let* v := Server.bulk_loop l1 values in Server.bulk_loop l2 v) w.
Proof.
  induction l1 as [|item rest IH]; intros l2 values w; [reflexivity|].
  simpl. destruct (Server.findIndex values (BulkItem.itemId item)) as [i|]; [|apply IH].
  destruct (gt _ _); [reflexivity|].
  rewrite bind_assoc. unfold bind at 1 2.
  destruct (values_update _ _ w) as [w1 [[]|e]]; [|reflexivity].
  apply IH.
Qed.

(** A line that asks for more than the stock stops the loop where the
    lines before it left the spreadsheet. *)
Lemma bulk_loop_abort l1 bad l2 (values v1 : grid) (w w1 : world F) i :
  Server.bulk_loop l1 values w = (w1, Ok v1) ->
  Server.findIndex v1 (BulkItem.itemId bad) = Some i ->
  gt (parseInt (oror (BulkItem.qty bad) (VNum (Int 0))))
     (quantity_of (get (default [] (v1 !! i)) 5)) = true ->
  Server.bulk_loop (l1 ++ bad :: l2) values w =
    (w1, Throw (Error ("Insufficient stock for "
                       ++ ToString (get (default [] (v1 !! i)) 2) ++ " - "
                       ++ ToString (get (default [] (v1 !! i)) 4)))).
Proof.
  intros R Hf Hgt. rewrite bulk_loop_app. rewrite (bind_ok _ _ _ _ _ R).
  simpl. rewrite Hf. unfold quantity_of in Hgt. rewrite Hgt. reflexivity.
Qed.

(** The single-item branch either throws before it sends anything, or
    passes every check. *)
Lemma recordSingle_cases c sale (values : grid) :
  (exists msg, forall w : world F,
      Server.recordSingle c sale values w = (w, Throw (Error msg)))
  \/ (exists i,
        truthy (Sale.itemId sale) = true
        /\ Server.findIndex values (Sale.itemId sale) = Some i
        /\ (let sellQty := parseInt (oror (Sale.quantitySold sale) (VNum (Int 0))) in
            isNaN sellQty || le sellQty (Int 0) = false
            /\ gt sellQty (quantity_of (get (default [] (values !! i)) 5)) = false)).
Proof.
  unfold Server.recordSingle, quantity_of.
  destruct (truthy (Sale.itemId sale)); [|left; eexists; reflexivity].
  destruct (Server.findIndex values (Sale.itemId sale)) as [i|];
    [|left; eexists; reflexivity].
  cbv zeta. cbn [negb].
  destruct (isNaN _ || le _ _) eqn:E1; [left; eexists; reflexivity|].
  destruct (gt _ _) eqn:E2; [left; eexists; reflexivity|].
  right. exists i. auto.
Qed.

(** The record appends of the bulk branch, which come before the
    inventory loop. *)
Lemma recordBulk_run c sale items (values : grid) (w : world F) gs gl :
  sheets w !! "Sales" = Some gs ->
  sheets w !! "Loans" = Some gl ->
  let sellQty := parseInt (oror (Sale.quantitySold sale) (VNum (Int 0))) in
  let price := or0 (parseFloat (oror (Sale.appliedPrice sale) (VNum (Int 0)))) in
  let total := toFixed2 (mul price sellQty) in
  exists wa saleRow loanRows,
    Server.recordBulk c sale items values w =
      (let* _ := Server.bulk_loop items values in
       ret (Server.Recorded (string_of_Z (Server.now c)) None)) wa
    /\ log wa = (log w ++ Append "Sales" saleRow :: map (Append "Loans") loanRows)%list
    /\ sheets wa !! "Sales" = Some (gs ++ [overwrite saleRow []])%list
    /\ (forall t, t <> "Sales" -> t <> "Loans" -> sheets wa !! t = sheets w !! t)
    /\ get saleRow 4 = VNum sellQty
    /\ get saleRow 5 = VNum price
    /\ get saleRow 6 = VStr total
    /\ ((Sale.paymentMethod sale = VStr "Loan"
         /\ exists loanRow,
             loanRows = [loanRow]
             /\ get loanRow 4 = VStr total
             /\ get loanRow 7 = VStr "Unpaid"
             /\ sheets wa !! "Loans" = Some (gl ++ [overwrite loanRow []])%list)
        \/ (Sale.paymentMethod sale <> VStr "Loan"
            /\ loanRows = []
            /\ sheets wa !! "Loans" = Some gl)).
Proof.
  intros HS HL sellQty price total.
  unfold Server.recordBulk. cbv zeta.
  rewrite (bind_ok _ _ _ _ _ (values_append_run _ _ _ _ HS)).
  destruct (strict_eq (Sale.paymentMethod sale) (VStr "Loan")) eqn:Epm.
  - apply strict_eq_str in Epm.
    erewrite bind_ok; cycle 1.
    { apply values_append_run. simpl. rewrite lookup_insert_ne by discriminate. exact HL. }
    eexists _, _, [_]. split; [reflexivity|]. simpl.
    split. { rewrite <- !app_assoc. reflexivity. }
    split. { rewrite lookup_insert_ne by discriminate. apply lookup_insert_eq. }
    split. { intros t H1 H2. rewrite !lookup_insert_ne by congruence. reflexivity. }
    do 3 (split; [reflexivity|]).
    left. split; [exact Epm|]. eexists. split; [reflexivity|].
    do 2 (split; [reflexivity|]). apply lookup_insert_eq.
  - assert (Hne : Sale.paymentMethod sale <> VStr "Loan").
    { intros Heq. apply strict_eq_str in Heq. congruence. }
    erewrite bind_ok; cycle 1. { reflexivity. }
    eexists _, _, []. split; [reflexivity|]. simpl.
    split. { reflexivity. }
    split. { apply lookup_insert_eq. }
    split. { intros t H1 H2. rewrite !lookup_insert_ne by congruence. reflexivity. }
    do 3 (split; [reflexivity|]).
    right. split; [exact Hne|]. split; [reflexivity|].
    rewrite lookup_insert_ne by discriminate. exact HL.
Qed.

Lemma single_shape c sale (w0 : world F) gs gl gi :
  sheets w0 !! "Sales" = Some gs ->
  sheets w0 !! "Loans" = Some gl ->
  sheets w0 !! "Inventory" = Some gi ->
  exists w' r events,
    Server.respond (Server.recordSingle c sale gi) w0 = (w', r)
    /\ log w' = (log w0 ++ events)%list
    /\ (events = [] \/ sale_events (Sale.paymentMethod sale) events).
Proof.
  intros HS HL HI.
  destruct (recordSingle_cases c sale gi) as [[msg Hm] | (i & Hid & Hf & Hv & Hs)].
  - exists w0, (Ok (Server.Status500 msg)), [].
    split; [apply respond_throw, Hm|]. rewrite app_nil_r. auto.
  - destruct (recordSingle_ok c sale gi w0 gs gl gi i HS HL HI Hid Hf Hv Hs)
      as (w' & saleRow & loanRows & R & L & _ & _ & G4 & G5 & G6 & Hloan).
    eexists w', _, _. split; [apply respond_ok, R|]. split; [exact L|].
    right. eexists saleRow, loanRows, _, _, _.
    split; [reflexivity|].
    split.
    { constructor; [|constructor].
      destruct (findIndex_pos _ _ _ Hf) as [j ->]. rewrite Nat.add_1_r.
      eexists j, _. split; [reflexivity|].
      apply sub_not_negative. exact Hs. }
    do 3 (split; [eassumption|]).
    destruct Hloan as [(Hpm & loanRow & -> & A & U & _) | (Hpm & -> & _)];
      [left | right]; eauto.
Qed.

Lemma bulk_shape c sale items (w0 : world F) gs gl gi :
  sheets w0 !! "Sales" = Some gs ->
  sheets w0 !! "Loans" = Some gl ->
  sheets w0 !! "Inventory" = Some gi ->
  exists w' r events,
    Server.respond (Server.recordBulk c sale items gi) w0 = (w', r)
    /\ log w' = (log w0 ++ events)%list
    /\ sale_events (Sale.paymentMethod sale) events.
Proof.
  intros HS HL HI.
  destruct (recordBulk_run c sale items gi w0 gs gl HS HL)
    as (wa & saleRow & loanRows & R & L & _ & O & G4 & G5 & G6 & Hloan).
  assert (HIa : sheets wa !! "Inventory" = Some gi).
  { rewrite O by discriminate. exact HI. }
  destruct (bulk_loop_spec items gi wa gi HIa) as (w' & r & ups & gi' & Rl & Ll & Q & _).
  exists w'.
  assert (Hrun : exists r', Server.respond (Server.recordBulk c sale items gi) w0 = (w', r')).
  { destruct r as [v|[msg]].
    - eexists. apply respond_ok. rewrite R. rewrite (bind_ok _ _ _ _ _ Rl). reflexivity.
    - eexists. apply respond_throw. rewrite R. apply bind_throw. exact Rl. }
  destruct Hrun as [r' Hrun]. exists r'. eexists. split; [exact Hrun|].
  split. { rewrite Ll, L, <- app_assoc. reflexivity. }
  eexists saleRow, loanRows, ups, _, _.
  split; [reflexivity|]. split; [exact Q|].
  do 3 (split; [eassumption|]).
  destruct Hloan as [(Hpm & loanRow & -> & A & U & _) | (Hpm & -> & _)];
    [left | right]; eauto.
Qed.

(** Every run of [recordSale]: sheet creation first, then either nothing
    more, or the requests of a sale. *)
Lemma recordSale_shape c b (w : world F) :
  exists w' r pre events,
    Server.recordSale c b w = (w', r)
    /\ log w' = (log w ++ pre ++ events)%list
    /\ Forall sheet_setup pre
    /\ (events = []
        \/ exists sale, Server.sale b = Some sale
                        /\ sale_events (Sale.paymentMethod sale) events).
Proof.
  destruct (truthy (Server.spreadsheetId b)) eqn:Hid; cycle 1.
  { exists w, (Ok (Server.Status500 "Missing required fields")), [], [].
    split; [|rewrite app_nil_r; auto].
    unfold Server.recordSale. rewrite Hid. apply respond_throw. reflexivity. }
  destruct (Server.sale b) as [sale|] eqn:Hsale; cycle 1.
  { exists w, (Ok (Server.Status500 "Missing required fields")), [], [].
    split; [|rewrite app_nil_r; auto].
    unfold Server.recordSale. rewrite Hid, Hsale. apply respond_throw. reflexivity. }
  destruct (sheets w !! "Inventory") as [gi|] eqn:HI; cycle 1.
  { destruct (recordSale_open c b sale w Hid Hsale)
      as (w0 & pre & gs & gl & HS & HL & O & K & L & D & R).
    eexists w0, _, pre, []. split; [|rewrite app_nil_r; auto].
    rewrite R. apply respond_throw. apply bind_throw.
    unfold values_get. rewrite O, HI by discriminate. reflexivity. }
  destruct (recordSale_prelude c b sale w gi Hid Hsale HI)
    as (w0 & pre & gs & gl & HS & HL & HI0 & K & L & D & R).
  rewrite R.
  destruct (Sale.bulkItems sale) as [[|item rest]|].
  - destruct (single_shape c sale w0 gs gl gi HS HL HI0) as (w' & r & events & Rm & Lm & Hm).
    exists w', r, pre, events. split; [exact Rm|].
    split; [rewrite Lm, L, app_assoc; reflexivity|].
    split; [exact D|]. destruct Hm; eauto.
  - destruct (bulk_shape c sale (item :: rest) w0 gs gl gi HS HL HI0)
      as (w' & r & events & Rm & Lm & Hm).
    exists w', r, pre, events. split; [exact Rm|].
    split; [rewrite Lm, L, app_assoc; reflexivity|].
    split; [exact D|]. eauto.
  - destruct (single_shape c sale w0 gs gl gi HS HL HI0) as (w' & r & events & Rm & Lm & Hm).
    exists w', r, pre, events. split; [exact Rm|].
    split; [rewrite Lm, L, app_assoc; reflexivity|].
    split; [exact D|]. destruct Hm; eauto.
Qed.


Lemma appended_app title (a b : list (effect F)) :
  appended title (a ++ b) = (appended title a ++ appended title b)%list.
Proof. apply flat_map_app. Qed.

Lemma appended_setup title (pre : list (effect F)) :
  Forall sheet_setup pre -> appended title pre = [].
Proof.
  induction 1 as [|e pre He _ IH]; [reflexivity|]. simpl. rewrite IH.
  destruct He as [[-> | [h ->]] | [-> | [h ->]]]; reflexivity.
Qed.

Lemma appended_updates title (ups : list (effect F)) :
  Forall quantity_update ups -> appended title ups = [].
Proof.
  induction 1 as [|e ups He _ IH]; [reflexivity|]. simpl. rewrite IH.
  destruct He as (i & n & -> & _). reflexivity.
Qed.

Lemma appended_loans (rows : list row) :
  appended "Loans" (map (Append "Loans") rows) = rows
  /\ appended "Sales" (map (Append "Loans") rows) = [].
Proof.
  induction rows as [|r rows [IH1 IH2]]; [split; reflexivity|].
  simpl. split; [rewrite IH1 | rewrite IH2]; reflexivity.
Qed.

Lemma quantity_writes_setup (pre : list (effect F)) :
  Forall sheet_setup pre -> Forall (fun e => quantity_writes e = []) pre.
Proof.
  intros H. eapply Forall_impl; [exact H|].
  intros e [[-> | [h ->]] | [-> | [h ->]]]; reflexivity.
Qed.

(** The records that the requests of a sale append. *)
Lemma sale_events_appended pm (pre events : list (effect F)) :
  Forall sheet_setup pre ->
  sale_events pm events ->
  exists saleRow p q,
    appended "Sales" (pre ++ events) = [saleRow]
    /\ get saleRow 4 = VNum q
    /\ get saleRow 5 = VNum p
    /\ get saleRow 6 = VStr (toFixed2 (mul p q))
    /\ ((pm = VStr "Loan"
         /\ exists loanRow,
             appended "Loans" (pre ++ events) = [loanRow]
             /\ get loanRow 4 = VStr (toFixed2 (mul p q))
             /\ get loanRow 7 = VStr "Unpaid")
        \/ (pm <> VStr "Loan" /\ appended "Loans" (pre ++ events) = [])).
Proof.
  intros Hpre (saleRow & loanRows & ups & p & q & -> & Hups & G4 & G5 & G6 & Hloan).
  exists saleRow, p, q.
  destruct (appended_loans loanRows) as [AL AS].
  assert (HS : appended "Sales"
                 (pre ++ Append "Sales" saleRow :: map (Append "Loans") loanRows ++ ups)
               = [saleRow]).
  { rewrite appended_app, (appended_setup _ _ Hpre). simpl.
    rewrite appended_app, AS, (appended_updates _ _ Hups). reflexivity. }
  assert (HL : appended "Loans"
                 (pre ++ Append "Sales" saleRow :: map (Append "Loans") loanRows ++ ups)
               = loanRows).
  { rewrite appended_app, (appended_setup _ _ Hpre). simpl.
    rewrite appended_app, AL, (appended_updates _ _ Hups). apply app_nil_r. }
  rewrite HS, HL. split; [reflexivity|]. do 3 (split; [assumption|]).
  destruct Hloan as [(Hpm & loanRow & -> & A & U) | (Hpm & ->)]; [left | right]; eauto.
Qed.

Lemma quantity_of_digits (z : Z) :
  quantity_of (F := F) (VStr (string_of_Z z)) = Int z.
Proof.
  unfold quantity_of, oror. simpl truthy. rewrite string_of_Z_nonempty. simpl.
  apply parse_int_string_of_Z.
Qed.

(** The inventory loop does not look at the other sheets: from two
    spreadsheets with the same Inventory sheet it sends the same
    requests, ends the same way and leaves the same Inventory sheet. *)
Lemma bulk_loop_indep items : forall (values : grid) (w1 w2 : world F) g,
  sheets w1 !! "Inventory" = Some g ->
  sheets w2 !! "Inventory" = Some g ->
  exists w1' w2' r ups,
    Server.bulk_loop items values w1 = (w1', r)
    /\ Server.bulk_loop items values w2 = (w2', r)
    /\ log w1' = (log w1 ++ ups)%list
    /\ log w2' = (log w2 ++ ups)%list
    /\ sheets w1' !! "Inventory" = sheets w2' !! "Inventory".
Proof.
  induction items as [|item rest IH]; intros values w1 w2 g H1 H2; simpl.
  - exists w1, w2, (Ok values), []. rewrite !app_nil_r, H1, H2. auto.
  - destruct (Server.findIndex values (BulkItem.itemId item)) as [i|] eqn:Ef; [|eauto].
    destruct (findIndex_pos _ _ _ Ef) as [j ->].
    destruct (gt _ _) eqn:Egt.
    + eexists w1, w2, _, []. rewrite !app_nil_r, H1, H2. auto.
    + rewrite Nat.add_1_r.
      rewrite (bind_ok _ _ _ _ _ (values_update_run _ _ _ _ _ _ H1)).
      rewrite (bind_ok _ _ _ _ _ (values_update_run _ _ _ _ _ _ H2)).
      match goal with
      | |- context [Server.bulk_loop rest ?v ?wa = _ /\ Server.bulk_loop rest ?v ?wb = _ /\ _] =>
          edestruct (IH v wa wb) as (w1' & w2' & r & ups & R1 & R2 & L1 & L2 & E);
            [simpl; apply lookup_insert_eq | simpl; apply lookup_insert_eq |]
      end.
      exists w1', w2', r. eexists (_ :: ups).
      split; [exact R1|]. split; [exact R2|]. simpl in L1, L2.
      split. { rewrite L1, <- app_assoc. reflexivity. }
      split. { rewrite L2, <- app_assoc. reflexivity. }
      exact E.
Qed.

(** [a || b || c || z] is the first truthy value, or [z]. *)
Lemma oror_chain (a b c z : value F) :
  oror (oror (oror a b) c) z =
    if truthy a then a else if truthy b then b else if truthy c then c else z.
Proof.
  unfold oror.
  destruct (truthy a) eqn:Ea; destruct (truthy b) eqn:Eb; destruct (truthy c) eqn:Ec;
    repeat (cbv iota; rewrite ?Ea, ?Eb, ?Ec); reflexivity.
Qed.

End RecordSaleFacts.

(** ** The claims about sales *)

Section SaleClaims.
Context {F : Type} {FO : FloatOps F}.

Local Abbreviation row := (list (value F)).
Local Abbreviation grid := (list (list (value F))).

(** C1.  A single-item sale whose item is found and whose quantity sold
    is a positive integer not above the stored quantity succeeds: the
    last request writes the stored quantity minus the quantity sold to
    the quantity cell of the item, no earlier request writes a quantity,
    and the response carries the sale identifier made from the clock
    together with that new quantity. *)
Theorem single_sale_decrements_stock c b sale (w : world F) gi i q e :
  truthy (Server.spreadsheetId b) = true ->
  Server.sale b = Some sale ->
  Sale.bulkItems sale = None \/ Sale.bulkItems sale = Some [] ->
  sheets w !! "Inventory" = Some gi ->
  truthy (Sale.itemId sale) = true ->
  Server.findIndex gi (Sale.itemId sale) = Some i ->
  parseInt (oror (Sale.quantitySold sale) (VNum (Int 0))) = Int q ->
  0 < q ->
  stored_quantity w i = Some (Int e) ->
  q <= e ->
  exists w' earlier,
    Server.recordSale c b w =
      (w', Ok (Server.Status200
                 (Server.Recorded (string_of_Z (Server.now c)) (Some (Int (e - q))))))
    /\ new_events w w' =
         (earlier ++ [Update (Range "Inventory" 5 (i + 1))
                             [[VStr (string_of_Z (e - q))]]])%list
    /\ Forall (fun ev => quantity_writes ev = []) earlier
    /\ stored_quantity w' i = Some (Int (e - q)).
Proof.
  intros Hid Hsale Hsingle HI Hitem Hfind Hq Hpos He Hle.
  destruct (recordSale_prelude c b sale w gi Hid Hsale HI)
    as (w0 & pre & gs & gl & HS & HL & HI0 & K & L & D & R).
  assert (Hex : quantity_of (get (default [] (gi !! i)) 5) = Int e).
  { unfold stored_quantity in He. rewrite HI in He.
    destruct (gi !! i); [simpl; congruence | discriminate]. }
  edestruct (recordSingle_ok c sale gi w0 gs gl gi i HS HL HI0 Hitem Hfind)
    as (w' & saleRow & loanRows & Rs & Ls & Is & _).
  { rewrite Hq. simpl. apply Z.leb_gt. exact Hpos. }
  { rewrite Hq, Hex. simpl. apply Z.ltb_ge. exact Hle. }
  rewrite Hq, Hex in Rs, Ls, Is. simpl sub in Rs, Ls, Is.
  simpl number_to_string in Ls, Is.
  exists w', (pre ++ Append "Sales" saleRow :: map (Append "Loans") loanRows)%list.
  split.
  { rewrite R. destruct Hsingle as [-> | ->]; apply respond_ok; exact Rs. }
  split.
  { apply new_events_app. rewrite Ls, L, <- !app_assoc. reflexivity. }
  split.
  { apply Forall_app. split; [apply quantity_writes_setup, D|].
    constructor; [reflexivity|]. apply Forall_forall.
    intros ev Hev. apply list_elem_of_In, in_map_iff in Hev.
    destruct Hev as (r & <- & _). reflexivity. }
  unfold stored_quantity. rewrite Is, lookup_write_line.
  rewrite get_write_cells_str. rewrite quantity_of_digits. reflexivity.
Qed.

(** The single-item branch checks the stock before it writes anything.  A
    single-item sale whose item is found and whose quantity sold is a
    positive integer above the stored quantity is answered with the error
    "Insufficient stock"; it appends no sale record and no loan record and
    writes no quantity, and every sheet that existed is left as it was (the
    only requests sent are those that set up a missing Sales or Loans
    sheet). *)
Theorem single_sale_insufficient_stock c b sale (w : world F) gi i q e :
  truthy (Server.spreadsheetId b) = true ->
  Server.sale b = Some sale ->
  Sale.bulkItems sale = None \/ Sale.bulkItems sale = Some [] ->
  sheets w !! "Inventory" = Some gi ->
  truthy (Sale.itemId sale) = true ->
  Server.findIndex gi (Sale.itemId sale) = Some i ->
  parseInt (oror (Sale.quantitySold sale) (VNum (Int 0))) = Int q ->
  0 < q ->
  stored_quantity w i = Some (Int e) ->
  e < q ->
  exists w',
    Server.recordSale c b w = (w', Ok (Server.Status500 "Insufficient stock"))
    /\ appended "Sales" (new_events w w') = []
    /\ appended "Loans" (new_events w w') = []
    /\ Forall (fun ev => quantity_writes ev = []) (new_events w w')
    /\ (forall t, is_Some (sheets w !! t) -> sheets w' !! t = sheets w !! t).
Proof.
  intros Hid Hsale Hsingle HI Hitem Hfind Hq Hpos He Hlt.
  destruct (recordSale_prelude c b sale w gi Hid Hsale HI)
    as (w0 & pre & gs & gl & HS & HL & HI0 & K & L & D & R).
  assert (Hex : quantity_of (get (default [] (gi !! i)) 5) = Int e).
  { unfold stored_quantity in He. rewrite HI in He.
    destruct (gi !! i); [simpl; congruence | discriminate]. }
  assert (Rs : Server.recordSingle c sale gi w0 = (w0, Throw (Error "Insufficient stock"))).
  { unfold Server.recordSingle. rewrite Hitem. cbn [negb]. rewrite Hfind. cbv zeta.
    unfold quantity_of in Hex. rewrite Hq, Hex. simpl.
    replace (q <=? 0) with false by (symmetry; apply Z.leb_gt; exact Hpos).
    replace (e <? q) with true by (symmetry; apply Z.ltb_lt; exact Hlt).
    reflexivity. }
  exists w0. rewrite (new_events_app _ _ _ L).
  split. { rewrite R. destruct Hsingle as [-> | ->]; apply respond_throw; exact Rs. }
  split; [apply appended_setup, D|].
  split; [apply appended_setup, D|].
  split; [apply quantity_writes_setup, D | exact K].
Qed.

(** C3.  When a sale, single-item or bulk, has appended its sale record,
    it has appended exactly one sale record, and exactly one loan record
    if the payment method of the request is ['Loan'], with the total of
    the sale record as amount and the status ['Unpaid']; for any other
    payment method it has appended no loan record. *)
Theorem loan_record_iff_payment_is_loan c b (w : world F) saleRow :
  In saleRow (appended "Sales" (new_events w (fst (Server.recordSale c b w)))) ->
  exists sale,
    Server.sale b = Some sale
    /\ appended "Sales" (new_events w (fst (Server.recordSale c b w))) = [saleRow]
    /\ ((Sale.paymentMethod sale = VStr "Loan"
         /\ exists loanRow,
             appended "Loans" (new_events w (fst (Server.recordSale c b w))) = [loanRow]
             /\ get loanRow 4 = get saleRow 6
             /\ get loanRow 7 = VStr "Unpaid")
        \/ (Sale.paymentMethod sale <> VStr "Loan"
            /\ appended "Loans" (new_events w (fst (Server.recordSale c b w))) = [])).
Proof.
  destruct (recordSale_shape c b w) as (w' & r & pre & events & R & L & D & Hev).
  rewrite R. simpl fst. rewrite (new_events_app _ _ _ L). intros Hin.
  destruct Hev as [-> | (sale & Hsale & Hev)].
  { rewrite app_nil_r, (appended_setup _ _ D) in Hin. destruct Hin. }
  destruct (sale_events_appended _ pre events D Hev)
    as (row0 & p & q & HS & G4 & G5 & G6 & Hloan).
  rewrite HS in Hin. destruct Hin as [<- | []].
  exists sale. split; [exact Hsale|]. split; [exact HS|].
  destruct Hloan as [(Hpm & loanRow & HL & A & U) | (Hpm & HL)]; [left | right].
  - split; [exact Hpm|]. exists loanRow. rewrite G6. auto.
  - auto.
Qed.

(** C4.  Every sale record that [recordSale] appends, single-item or
    bulk, holds in its Total cell [toFixed(2)] of the product of its
    Price Per Unit cell and its Quantity Sold cell; and [recordSale]
    sends no other request that writes to a record of the Sales sheet. *)
Theorem sale_total_is_rounded_product c b (w : world F) saleRow :
  In saleRow (appended "Sales" (new_events w (fst (Server.recordSale c b w)))) ->
  (exists p q,
      get saleRow 5 = VNum p
      /\ get saleRow 4 = VNum q
      /\ get saleRow 6 = VStr (toFixed2 (mul p q)))
  /\ appended "Sales" (new_events w (fst (Server.recordSale c b w))) = [saleRow]
  /\ Forall (fun ev => forall r vs, ev = Update r vs -> sheet r = "Sales" -> line r = 1%nat)
             (new_events w (fst (Server.recordSale c b w))).
Proof.
  destruct (recordSale_shape c b w) as (w' & r & pre & events & R & L & D & Hev).
  rewrite R. simpl fst. rewrite (new_events_app _ _ _ L). intros Hin.
  destruct Hev as [-> | (sale & Hsale & Hev)].
  { rewrite app_nil_r, (appended_setup _ _ D) in Hin. destruct Hin. }
  destruct (sale_events_appended _ pre events D Hev)
    as (row0 & p & q & HS & G4 & G5 & G6 & _).
  rewrite HS in Hin. destruct Hin as [<- | []].
  split; [eauto|]. split; [exact HS|].
  apply Forall_app. split.
  - eapply Forall_impl; [exact D|].
    intros ev [[-> | [h ->]] | [-> | [h ->]]] r0 vs Heq; inversion Heq; subst; auto;
      discriminate.
  - destruct Hev as (sr & lr & ups & _ & _ & -> & Hups & _).
    constructor; [discriminate|]. apply Forall_app. split.
    + apply Forall_forall. intros ev Hev r0 vs ->.
      apply list_elem_of_In, in_map_iff in Hev. destruct Hev as (? & ? & _). discriminate.
    + eapply Forall_impl; [exact Hups|].
      intros ev (j & n & -> & _) r0 vs Heq. inversion Heq; subst. discriminate.
Qed.

(** C5, amended.  In a single-item sale that is recorded, the applied
    unit price is read from the first truthy value among the applied
    price of the request, its price per unit and the unit price of the
    item in the inventory (a value that is absent, [null], [false], 0,
    [NaN] or the empty string is passed over), and from 0 when there is
    none; the value is parsed by [parseFloat], and a result that is [NaN]
    or 0 gives the price 0.  That price is the one in the sale record and
    in its total. *)
Theorem applied_price_is_first_truthy c b sale (w : world F) gi rec :
  truthy (Server.spreadsheetId b) = true ->
  Server.sale b = Some sale ->
  Sale.bulkItems sale = None \/ Sale.bulkItems sale = Some [] ->
  sheets w !! "Inventory" = Some gi ->
  snd (Server.recordSale c b w) = Ok (Server.Status200 rec) ->
  exists i saleRow,
    Server.findIndex gi (Sale.itemId sale) = Some i
    /\ appended "Sales" (new_events w (fst (Server.recordSale c b w))) = [saleRow]
    /\ (let itemRow := default [] (gi !! i) in
        let chosen :=
          if truthy (Sale.appliedPrice sale) then Sale.appliedPrice sale
          else if truthy (Sale.pricePerUnit sale) then Sale.pricePerUnit sale
          else if truthy (get itemRow 6) then get itemRow 6
          else VNum (Int 0) in
        let price := or0 (parseFloat chosen) in
        let sellQty := parseInt (oror (Sale.quantitySold sale) (VNum (Int 0))) in
        get saleRow 5 = VNum price
        /\ get saleRow 6 = VStr (toFixed2 (mul price sellQty))).
Proof.
  intros Hid Hsale Hsingle HI Hok.
  destruct (recordSale_prelude c b sale w gi Hid Hsale HI)
    as (w0 & pre & gs & gl & HS & HL & HI0 & K & L & D & R).
  assert (R' : Server.recordSale c b w = Server.respond (Server.recordSingle c sale gi) w0).
  { rewrite R. destruct Hsingle as [-> | ->]; reflexivity. }
  clear R. rewrite R' in Hok |- *.
  destruct (recordSingle_cases c sale gi) as [[msg Hm] | (i & Hitem & Hf & Hv & Hs)].
  { rewrite (respond_throw _ _ _ _ (Hm w0)) in Hok. discriminate. }
  destruct (recordSingle_ok c sale gi w0 gs gl gi i HS HL HI0 Hitem Hf Hv Hs)
    as (w' & saleRow & loanRows & Rs & Ls & _ & _ & _ & G5 & G6 & _).
  rewrite (respond_ok _ _ _ _ Rs). simpl fst.
  exists i, saleRow. split; [exact Hf|]. split.
  - erewrite new_events_app; cycle 1.
    { rewrite Ls, L, <- app_assoc. reflexivity. }
    rewrite appended_app, (appended_setup _ _ D). simpl.
    rewrite appended_app. destruct (appended_loans loanRows) as [_ ->]. reflexivity.
  - cbv zeta. rewrite <- oror_chain. split; [exact G5 | exact G6].
Qed.

(** C7.  In a bulk sale the sale record, and the loan record when the
    payment method is ['Loan'], are appended before any quantity is
    written: after the requests that set up a missing sheet come the two
    appends, then quantity updates only, and the appended records stay in
    their sheets however the loop ends.  When the lines before a line
    pass and that line asks for more than the stock the loop has tracked
    for its item, the response is the error "Insufficient stock for ...",
    the quantity updates are exactly those of the lines before it, and
    the Inventory sheet is as those lines left it. *)
Theorem bulk_sale_appends_before_stock c b sale item rest (w : world F) gi :
  truthy (Server.spreadsheetId b) = true ->
  Server.sale b = Some sale ->
  Sale.bulkItems sale = Some (item :: rest) ->
  sheets w !! "Inventory" = Some gi ->
  exists w' r pre saleRow loanRows ups gs,
    Server.recordSale c b w = (w', r)
    /\ new_events w w' =
         (pre ++ Append "Sales" saleRow :: map (Append "Loans") loanRows ++ ups)%list
    /\ Forall sheet_setup pre
    /\ Forall quantity_update ups
    /\ sheets w' !! "Sales" = Some (gs ++ [overwrite saleRow []])%list
    /\ ((Sale.paymentMethod sale = VStr "Loan"
         /\ exists loanRow gl,
             loanRows = [loanRow]
             /\ sheets w' !! "Loans" = Some (gl ++ [overwrite loanRow []])%list)
        \/ (Sale.paymentMethod sale <> VStr "Loan" /\ loanRows = []))
    /\ (forall l1 bad l2 wl v1 j,
           item :: rest = (l1 ++ bad :: l2)%list ->
           Server.bulk_loop l1 gi w = (wl, Ok v1) ->
           Server.findIndex v1 (BulkItem.itemId bad) = Some j ->
           gt (parseInt (oror (BulkItem.qty bad) (VNum (Int 0))))
              (quantity_of (get (default [] (v1 !! j)) 5)) = true ->
           r = Ok (Server.Status500
                     ("Insufficient stock for "
                      ++ ToString (get (default [] (v1 !! j)) 2) ++ " - "
                      ++ ToString (get (default [] (v1 !! j)) 4)))
           /\ ups = new_events w wl
           /\ sheets w' !! "Inventory" = sheets wl !! "Inventory").
Proof.
  intros Hid Hsale Hbulk HI.
  destruct (recordSale_prelude c b sale w gi Hid Hsale HI)
    as (w0 & pre & gs & gl & HS & HL & HI0 & K & L & D & R).
  rewrite Hbulk in R.
  destruct (recordBulk_run c sale (item :: rest) gi w0 gs gl HS HL)
    as (wa & saleRow & loanRows & Rb & La & Sa & Oa & _ & _ & _ & Hloan).
  assert (HIa : sheets wa !! "Inventory" = Some gi).
  { rewrite Oa by discriminate. exact HI0. }
  destruct (bulk_loop_spec (item :: rest) gi wa gi HIa)
    as (w' & rl & ups & gi' & Rl & Ll & Q & _ & Ol).
  assert (Hrun : exists r, Server.recordSale c b w = (w', r)
                 /\ (forall e, rl = Throw e -> r = Ok (Server.Status500 (message e)))).
  { rewrite R. destruct rl as [v|[msg]].
    - eexists. split; [|discriminate].
      apply respond_ok. rewrite Rb. rewrite (bind_ok _ _ _ _ _ Rl). reflexivity.
    - eexists. split.
      + apply respond_throw. rewrite Rb. apply bind_throw. exact Rl.
      + intros e0 He0. injection He0 as <-. reflexivity. }
  destruct Hrun as (r & Hrun & Hthrow).
  exists w', r, pre, saleRow, loanRows, ups, gs.
  split; [exact Hrun|].
  split. { apply new_events_app. rewrite Ll, La, L, <- !app_assoc. reflexivity. }
  split; [exact D|]. split; [exact Q|].
  split. { rewrite Ol by discriminate. exact Sa. }
  split.
  { destruct Hloan as [(Hpm & loanRow & -> & _ & _ & Hl) | (Hpm & -> & _)];
      [left | right; auto].
    split; [exact Hpm|]. exists loanRow, gl. split; [reflexivity|].
    rewrite Ol by discriminate. exact Hl. }
  intros l1 bad l2 wl v1 j Hsplit Hpass Hfind Hgt.
  destruct (bulk_loop_indep l1 gi w wa gi HI HIa)
    as (w1' & w2' & r0 & ups0 & R1 & R2 & L1 & L2 & E).
  rewrite Hpass in R1. injection R1 as <- <-.
  pose proof (bulk_loop_abort l1 bad l2 gi v1 wa w2' j R2 Hfind Hgt) as Habort.
  rewrite <- Hsplit, Rl in Habort. injection Habort as <- ->.
  split; [exact (Hthrow _ eq_refl)|].
  split.
  - rewrite L2 in Ll. apply app_inv_head in Ll. subst ups0.
    symmetry. apply new_events_app. exact L1.
  - symmetry. exact E.
Qed.

(** C10.  A bulk sale with one line whose quantity parses to a negative
    integer, for an item that is found and whose stored quantity is not
    negative, is answered with success: no validation rejects the line,
    the stock check passes, and the stored quantity of the item grows by
    the absolute value of the line's quantity. *)
Theorem bulk_negative_qty_increases_stock c b sale ln (w : world F) gi i q e :
  truthy (Server.spreadsheetId b) = true ->
  Server.sale b = Some sale ->
  Sale.bulkItems sale = Some [ln] ->
  sheets w !! "Inventory" = Some gi ->
  Server.findIndex gi (BulkItem.itemId ln) = Some i ->
  parseInt (oror (BulkItem.qty ln) (VNum (Int 0))) = Int q ->
  q < 0 ->
  stored_quantity w i = Some (Int e) ->
  0 <= e ->
  exists w',
    Server.recordSale c b w =
      (w', Ok (Server.Status200 (Server.Recorded (string_of_Z (Server.now c)) None)))
    /\ stored_quantity w' i = Some (Int (e + Z.abs q))
    /\ e < e + Z.abs q.
Proof.
  intros Hid Hsale Hbulk HI Hfind Hq Hneg He Hnn.
  destruct (recordSale_prelude c b sale w gi Hid Hsale HI)
    as (w0 & pre & gs & gl & HS & HL & HI0 & K & L & D & R).
  rewrite Hbulk in R.
  destruct (recordBulk_run c sale [ln] gi w0 gs gl HS HL)
    as (wa & saleRow & loanRows & Rb & _ & _ & Oa & _).
  assert (HIa : sheets wa !! "Inventory" = Some gi).
  { rewrite Oa by discriminate. exact HI0. }
  assert (Hex : quantity_of (get (default [] (gi !! i)) 5) = Int e).
  { unfold stored_quantity in He. rewrite HI in He.
    destruct (gi !! i); [simpl; congruence | discriminate]. }
  unfold quantity_of in Hex.
  eexists. split.
  { rewrite R. apply respond_ok. rewrite Rb. simpl Server.bulk_loop.
    rewrite Hfind. cbv zeta. rewrite Hq, Hex. simpl gt.
    replace (e <? q) with false by (symmetry; apply Z.ltb_ge; lia).
    cbv iota. rewrite Nat.add_1_r.
    rewrite bind_assoc.
    rewrite (bind_ok _ _ _ _ _ (values_update_run _ _ _ _ _ _ HIa)).
    reflexivity. }
  split; [|lia].
  unfold stored_quantity. simpl. rewrite lookup_insert_eq. simpl.
  rewrite lookup_write_line, get_write_cells_str.
  replace (e - q) with (e + Z.abs q) by lia.
  rewrite quantity_of_digits. reflexivity.
Qed.

End SaleClaims.

(** ** The routes and their wrappers *)

Section RouteFacts.
Context {F : Type} {FO : FloatOps F}.

Local Abbreviation row := (list (value F)).
Local Abbreviation grid := (list (list (value F))).

Lemma ensureSheetExists_existing name (headers : row) (w : world F) :
  is_Some (sheets w !! name) ->
  Server.ensureSheetExists name headers w = (w, Ok tt).
Proof.
  intros H. unfold Server.ensureSheetExists, try_catch, bind, spreadsheets_get.
  rewrite bool_decide_eq_true_2 by exact H. reflexivity.
Qed.

Lemma fetchData_existing name (g : grid) (w : world F) :
  sheets w !! name = Some g ->
  SheetsAPI.fetchData name w = (w, Ok (default [] (g !! 0%nat), drop 1 g)).
Proof.
  intros H. unfold SheetsAPI.fetchData, Server.read.
  erewrite bind_ok; cycle 1.
  { apply respond_ok.
    rewrite (bind_ok _ _ _ _ _ (ensureSheetExists_existing _ _ _ (mk_is_Some _ _ H))).
    rewrite (bind_ok _ _ _ _ _ (values_get_run _ _ _ H)). reflexivity. }
  reflexivity.
Qed.

Lemma updateRange_run title col i (vs g : grid) (w : world F) :
  sheets w !! title = Some g ->
  SheetsAPI.updateRange (Range title col (S i)) vs w =
    (World (<[title := write_lines i col (map (map SheetsAPI.json) vs) g]> (sheets w))
           (log w ++ [Update (Range title col (S i)) (map (map SheetsAPI.json) vs)])%list,
     Ok tt).
Proof.
  intros H. unfold SheetsAPI.updateRange, Server.update.
  erewrite bind_ok; cycle 1.
  { apply respond_ok. apply values_update_run. exact H. }
  reflexivity.
Qed.

Lemma updateRange_missing r (vs : grid) (w : world F) :
  sheets w !! sheet r = None ->
  exists msg, SheetsAPI.updateRange r vs w = (w, Throw (Error msg)).
Proof.
  intros H. unfold SheetsAPI.updateRange, Server.update.
  erewrite bind_ok; cycle 1.
  { apply respond_throw. unfold values_update. rewrite H. reflexivity. }
  simpl. eexists. reflexivity.
Qed.

(** Appending through the server always succeeds: a missing sheet is
    created first. *)
Lemma appendRow_run (rowData : row) name (w : world F) :
  exists w1 pre g,
    SheetsAPI.appendRow rowData name w =
      (World (<[name := (g ++ [overwrite (map SheetsAPI.json rowData) []])%list]> (sheets w1))
             (log w ++ pre ++ [Append name (map SheetsAPI.json rowData)])%list, Ok tt)
    /\ Forall (creates name) pre
    /\ (forall t, t <> name -> sheets w1 !! t = sheets w !! t).
Proof.
  unfold SheetsAPI.appendRow, Server.append.
  match goal with
  | |- context [Server.ensureSheetExists name ?h] =>
      destruct (ensureSheetExists_spec name h w) as (w1 & pre & R1 & [g S1] & O1 & _ & L1 & D1)
  end.
  exists w1, pre, g. split; [|auto].
  erewrite bind_ok; cycle 1.
  { apply respond_ok. rewrite (bind_ok _ _ _ _ _ R1).
    apply (values_append_run _ _ _ _ S1). }
  rewrite L1, <- app_assoc. reflexivity.
Qed.

(** [loadInventory] gives the data lines of the Inventory sheet. *)
Lemma loadInventory_existing (g : grid) (w : world F) :
  sheets w !! "Inventory" = Some g ->
  InventoryManager.loadInventory w = (w, Ok (drop 1 g)).
Proof.
  intros H. unfold InventoryManager.loadInventory, try_catch.
  rewrite (bind_ok _ _ _ _ _ (fetchData_existing _ _ _ H)). reflexivity.
Qed.

Lemma loadClaims_existing (g : grid) (w : world F) :
  sheets w !! "Warranty" = Some g ->
  WarrantyManager.loadClaims w = (w, Ok (drop 1 g)).
Proof.
  intros H. unfold WarrantyManager.loadClaims, try_catch.
  rewrite (bind_ok _ _ _ _ _ (fetchData_existing _ _ _ H)). reflexivity.
Qed.

(** *** Cells *)

Lemma lookup_overwrite (new : row) : forall (old : row) k v,
  new !! k = Some v ->
  overwrite new old !! k = Some (written (default (VStr "") (old !! k)) v).
Proof.
  induction new as [|x new IH]; intros old k v H; [discriminate|].
  destruct k as [|k]; destruct old as [|o old]; simpl in *.
  - congruence.
  - congruence.
  - rewrite (IH [] k v H). reflexivity.
  - apply IH. exact H.
Qed.

Lemma lookup_write_cells_lt col (new : row) : forall (old : row) j,
  (j < col)%nat ->
  write_cells col new old !! j = Some (default (VStr "") (old !! j)).
Proof.
  induction col as [|col IH]; intros old j Hj; [lia|].
  destruct old as [|o old]; destruct j as [|j]; simpl; try reflexivity.
  - rewrite IH by lia. reflexivity.
  - apply IH. lia.
Qed.

Lemma lookup_write_cells_ge col (new : row) : forall (old : row) k v,
  new !! k = Some v ->
  write_cells col new old !! (col + k)%nat =
    Some (written (default (VStr "") (old !! (col + k)%nat)) v).
Proof.
  induction col as [|col IH]; intros old k v H.
  - destruct old; simpl; apply lookup_overwrite; exact H.
  - destruct old as [|o old]; simpl.
    + rewrite (IH [] k v H). rewrite !lookup_nil. reflexivity.
    + apply IH. exact H.
Qed.

Lemma overwrite_idem (new : row) : forall old : row,
  overwrite new (overwrite new old) = overwrite new old.
Proof.
  induction new as [|v new IH]; intros old; [reflexivity|].
  destruct old as [|o old]; simpl; rewrite IH; f_equal; destruct v; reflexivity.
Qed.

Lemma write_cells_idem col (new : row) : forall old : row,
  write_cells col new (write_cells col new old) = write_cells col new old.
Proof.
  induction col as [|col IH]; intros old.
  - destruct old; simpl; apply overwrite_idem.
  - destruct old; simpl; rewrite IH; reflexivity.
Qed.

Lemma write_line_idem i col (new : row) : forall g : grid,
  write_line i col new (write_line i col new g) = write_line i col new g.
Proof.
  induction i as [|i IH]; intros [|r g]; simpl; rewrite ?write_cells_idem, ?IH;
    reflexivity.
Qed.

Lemma get_assign_eq i (v : value F) (r : row) : get (Server.assign i v r) i = v.
Proof.
  unfold get, Server.assign. destruct (i <? length r)%nat eqn:E.
  - apply Nat.ltb_lt in E. rewrite list_lookup_insert_eq by exact E. reflexivity.
  - apply Nat.ltb_ge in E.
    rewrite lookup_app_r by exact E.
    rewrite lookup_app_r by (rewrite length_replicate; lia).
    rewrite length_replicate. rewrite Nat.sub_diag. reflexivity.
Qed.

Lemma get_assign_ne i j (v : value F) (r : row) :
  i <> j -> (j < i)%nat -> get (Server.assign i v r) j = get r j.
Proof.
  intros Hne Hlt. unfold get, Server.assign. destruct (i <? length r)%nat eqn:E.
  - rewrite list_lookup_insert_ne by exact Hne. reflexivity.
  - apply Nat.ltb_ge in E.
    destruct (decide (j < length r)%nat) as [Hj|Hj].
    + rewrite lookup_app_l by exact Hj. reflexivity.
    + rewrite lookup_app_r by lia.
      rewrite lookup_app_l by (rewrite length_replicate; lia).
      rewrite lookup_replicate_2 by lia.
      rewrite lookup_ge_None_2 by lia. reflexivity.
Qed.

(** *** [markLoanAsPaid] *)

Lemma loanIndex_found (loans : grid) id i :
  InventoryUI.loanIndex loans (VStr id) = Some i ->
  exists r, loans !! i = Some r /\ r !! 0%nat = Some (VStr id).
Proof.
  revert i. induction loans as [|loan rest IH]; intros i H; simpl in H; [discriminate|].
  destruct (strict_eq (get loan 0) (VStr id)) eqn:E.
  - injection H as <-. exists loan. split; [reflexivity|].
    apply strict_eq_str in E. unfold get in E.
    destruct (loan !! 0%nat); simpl in E; congruence.
  - destruct (InventoryUI.loanIndex rest (VStr id)) as [j|]; [|discriminate].
    injection H as <-. destruct (IH j eq_refl) as (r & Hr & H0). eauto.
Qed.

(** Writing the Status and Date Paid cells of a loan does not move it. *)
Lemma loanIndex_write_line (cells : row) (loans : grid) id : forall i,
  InventoryUI.loanIndex loans (VStr id) = Some i ->
  InventoryUI.loanIndex (write_line i 7 cells loans) (VStr id) = Some i.
Proof.
  induction loans as [|loan rest IH]; intros i H; simpl in H; [discriminate|].
  destruct (strict_eq (get loan 0) (VStr id)) eqn:E.
  - injection H as <-. cbn [write_line InventoryUI.loanIndex].
    replace (get (write_cells 7 cells loan) 0) with (get loan 0); [rewrite E; reflexivity|].
    apply strict_eq_str in E. unfold get in *.
    rewrite lookup_write_cells_lt by lia.
    destruct (loan !! 0%nat); simpl in *; congruence.
  - destruct (InventoryUI.loanIndex rest (VStr id)) as [j|] eqn:Ej; [|discriminate].
    injection H as <-. cbn [write_line InventoryUI.loanIndex].
    rewrite E. rewrite (IH j eq_refl). reflexivity.
Qed.

(** A confirmed call on a loan that is found writes ['Paid'] and the
    date of the call to its line. *)
Lemma markLoanAsPaid_run today id (w : world F) gl i :
  sheets w !! "Loans" = Some gl ->
  InventoryUI.loanIndex (drop 1 gl) (VStr id) = Some i ->
  InventoryUI.markLoanAsPaid true today (VStr id) w =
    (World (<["Loans" := write_line (S i) 7 [VStr "Paid"; VStr today] gl]> (sheets w))
           (log w ++ [Update (Range "Loans" 7 (i + 2)) [[VStr "Paid"; VStr today]]])%list,
     Ok (InventoryUI.showSuccess "✓ Loan marked as paid")).
Proof.
  intros HL Hi. unfold InventoryUI.markLoanAsPaid, try_catch. cbn [negb].
  rewrite (bind_ok _ _ _ _ _ (fetchData_existing _ _ _ HL)). cbn [snd].
  rewrite Hi. cbv zeta.
  rewrite get_assign_eq.
  rewrite get_assign_ne by lia. rewrite get_assign_eq.
  replace (i + 2)%nat with (S (S i)) by lia.
  rewrite (bind_ok _ _ _ _ _ (updateRange_run _ _ _ _ _ _ HL)).
  reflexivity.
Qed.

(** *** [processClaim] *)

Lemma getItemById_findIndex (items : grid) id product :
  InventoryManager.getItemById items id = Some product ->
  exists idx,
    InventoryManager.findIndex items id = Some idx /\ items !! idx = Some product.
Proof.
  unfold InventoryManager.getItemById.
  induction items as [|item rest IH]; intros H; simpl in *; [discriminate|].
  destruct (strict_eq (get item 0) id).
  - injection H as <-. exists O. auto.
  - destruct (IH H) as (idx & -> & Hidx). exists (S idx). auto.
Qed.

(** [parseInt(v) || 0] is an integer. *)
Lemma or0_parseInt (v : value F) : exists z, or0 (parseInt v) = Int z.
Proof.
  unfold parseInt. destruct (parse_int_cases (F := F) (ToString v)) as [-> | [z ->]].
  - exists 0. reflexivity.
  - unfold or0. simpl. destruct (z =? 0) eqn:E; simpl; eauto.
Qed.

(** A claim whose product is found and whose quantity is within the
    stock, when the Inventory sheet exists. *)
Lemma processClaim_run now (items : grid) cd (w : world F) g product idx cur req :
  sheets w !! "Inventory" = Some g ->
  InventoryManager.getItemById items (ClaimData.itemId cd) = Some product ->
  InventoryManager.findIndex items (ClaimData.itemId cd) = Some idx ->
  or0 (parseInt (get product 5)) = Int cur ->
  or0 (parseInt (ClaimData.quantity cd)) = Int req ->
  req <= cur ->
  exists w' res pre claimRow newRow,
    WarrantyManager.processClaim now items cd w = (w', Ok res)
    /\ log w' =
         (log w ++ pre ++ [Append "Warranty" claimRow;
                           Update (Range "Inventory" 0 (idx + 2)) [newRow]])%list
    /\ Forall (creates "Warranty") pre
    /\ get claimRow 8 = VStr "Completed"
    /\ get claimRow 4 = VNum (Int req)
    /\ newRow !! 5%nat = Some (VNum (Int (cur - req)))
    /\ sheets w' !! "Inventory" = Some (write_line (S idx) 0 newRow g).
Proof.
  intros HI Hget Hidx Hcur Hreq Hle.
  unfold WarrantyManager.processClaim. rewrite Hget. cbv zeta. rewrite Hcur, Hreq.
  change (lt (Int cur) (Int req)) with (cur <? req).
  replace (cur <? req) with false by (symmetry; apply Z.ltb_ge; exact Hle).
  cbv iota.
  match goal with
  | |- context [SheetsAPI.appendRow ?r ?n] =>
      destruct (appendRow_run r n w) as (w1 & pre & gw & Ra & Dpre & Oa)
  end.
  eexists _, _, pre, _, _. split.
  { rewrite (bind_ok _ _ _ _ _ Ra).
    unfold InventoryManager.updateQuantity. rewrite Hget.
    unfold InventoryManager.updateItem. rewrite Hidx. cbv zeta.
    replace (idx + 2)%nat with (S (S idx)) by lia.
    erewrite bind_ok; cycle 1.
    { erewrite bind_ok; cycle 1.
      { apply updateRange_run. simpl. rewrite lookup_insert_ne by discriminate.
        rewrite Oa by discriminate. exact HI. }
      reflexivity. }
    erewrite bind_ok; cycle 1.
    { apply loadClaims_existing. simpl. rewrite lookup_insert_ne by discriminate.
      apply lookup_insert_eq. }
    reflexivity. }
  simpl log. simpl sheets.
  split. { rewrite <- !app_assoc. replace (idx + 2)%nat with (S (S idx)) by lia. reflexivity. }
  split; [exact Dpre|].
  split; [reflexivity|]. split; [reflexivity|]. split; [reflexivity|].
  rewrite lookup_insert_eq. reflexivity.
Qed.

Lemma quantity_of_int (z : Z) : quantity_of (F := F) (VNum (Int z)) = Int z.
Proof.
  unfold quantity_of, oror. simpl truthy. destruct (z =? 0) eqn:E; simpl.
  - apply Z.eqb_eq in E. subst. reflexivity.
  - apply parse_int_string_of_Z.
Qed.

Lemma quantity_update_not_negative (e : effect F) ln v :
  quantity_update e -> In (ln, v) (quantity_writes e) ->
  lt (quantity_of v) (Int 0) = false.
Proof.
  intros (i & n & -> & Hn) Hin. simpl in Hin.
  destruct Hin as [Heq | []]. injection Heq as _ <-.
  destruct Hn as [-> | (z & -> & Hz)].
  - reflexivity.
  - simpl number_to_string. rewrite quantity_of_digits. simpl. apply Z.ltb_ge. exact Hz.
Qed.

(** Every run of [processClaim]: the set-up of a missing Warranty sheet,
    then nothing, or the claim record, or the claim record and the
    rewritten line of the item, whose quantity is not negative. *)
Lemma processClaim_shape now (items : grid) cd (w : world F) :
  exists w' r pre rest,
    WarrantyManager.processClaim now items cd w = (w', r)
    /\ log w' = (log w ++ pre ++ rest)%list
    /\ Forall (creates "Warranty") pre
    /\ (rest = []
        \/ (exists claimRow, rest = [Append "Warranty" claimRow])
        \/ (exists claimRow ln newRow z,
               rest = [Append "Warranty" claimRow;
                       Update (Range "Inventory" 0 ln) [newRow]]
               /\ newRow !! 5%nat = Some (VNum (Int z))
               /\ 0 <= z)).
Proof.
  destruct (InventoryManager.getItemById items (ClaimData.itemId cd))
    as [product|] eqn:Hget; cycle 1.
  { eexists w, _, [], []. split.
    - unfold WarrantyManager.processClaim. rewrite Hget. reflexivity.
    - rewrite app_nil_r. auto. }
  destruct (or0_parseInt (get product 5)) as [cur Hcur].
  destruct (or0_parseInt (ClaimData.quantity cd)) as [req Hreq].
  destruct (getItemById_findIndex _ _ _ Hget) as (idx & Hidx & _).
  destruct (Z.ltb_spec cur req) as [Hlt | Hle].
  { eexists w, _, [], []. split.
    - unfold WarrantyManager.processClaim. rewrite Hget. cbv zeta. rewrite Hcur, Hreq.
      change (lt (Int cur) (Int req)) with (cur <? req).
      replace (cur <? req) with true by (symmetry; apply Z.ltb_lt; exact Hlt).
      reflexivity.
    - rewrite app_nil_r. auto. }
  destruct (sheets w !! "Inventory") as [g|] eqn:HI.
  - destruct (processClaim_run now items cd w g product idx cur req HI Hget Hidx Hcur Hreq Hle)
      as (w' & res & pre & claimRow & newRow & R & L & D & _ & _ & N5 & _).
    eexists w', _, pre, _. split; [exact R|]. split; [exact L|]. split; [exact D|].
    right. right. exists claimRow, (idx + 2)%nat, newRow, (cur - req).
    split; [reflexivity|]. split; [exact N5 | lia].
  - unfold WarrantyManager.processClaim. rewrite Hget. cbv zeta. rewrite Hcur, Hreq.
    change (lt (Int cur) (Int req)) with (cur <? req).
    replace (cur <? req) with false by (symmetry; apply Z.ltb_ge; exact Hle).
    cbv iota.
    match goal with
    | |- context [SheetsAPI.appendRow ?r ?n] =>
        destruct (appendRow_run r n w) as (w1 & pre & gw & Ra & Dpre & Oa)
    end.
    match type of Ra with
    | _ = (?wa, _) =>
        destruct (updateRange_missing (Range "Inventory" 0 (idx + 2))
                    [[ClaimData.itemId cd; get product 1; get product 2; get product 3;
                      oror (get product 4) (VStr ""); VNum (sub (Int cur) (Int req));
                      get product 6; get product 7; oror (get product 8) (VStr "");
                      oror (get product 9) (VStr "")]] wa)
          as [msg Hmsg]
    end.
    { simpl. rewrite lookup_insert_ne by discriminate. rewrite Oa by discriminate.
      exact HI. }
    eexists _, _, pre, _. split.
    { rewrite (bind_ok _ _ _ _ _ Ra).
      apply bind_throw.
      unfold InventoryManager.updateQuantity. rewrite Hget.
      unfold InventoryManager.updateItem. rewrite Hidx. cbv zeta.
      apply bind_throw. exact Hmsg. }
    simpl log. split; [reflexivity|]. split; [exact Dpre|].
    right. left. eexists. reflexivity.
Qed.

Lemma appended_creates title name (pre : list (effect F)) :
  Forall (creates name) pre -> appended title pre = [].
Proof.
  induction 1 as [|e pre He _ IH]; [reflexivity|]. simpl. rewrite IH.
  destruct He as [-> | [h ->]]; reflexivity.
Qed.

Lemma quantity_writes_creates name (pre : list (effect F)) :
  name <> "Inventory" ->
  Forall (creates name) pre -> flat_map quantity_writes pre = [].
Proof.
  intros Hne. induction 1 as [|e pre He _ IH]; [reflexivity|]. simpl. rewrite IH.
  destruct He as [-> | [h ->]]; [reflexivity|]. simpl.
  destruct (String.eqb_spec name "Inventory"); [contradiction | reflexivity].
Qed.

End RouteFacts.

(** ** The claims about loans, warranty claims and stored quantities *)

Section LedgerClaims.
Context {F : Type} {FO : FloatOps F}.

Local Abbreviation row := (list (value F)).
Local Abbreviation grid := (list (list (value F))).

(** C6, amended.  Two confirmed calls of [markLoanAsPaid] on a loan that
    is found both succeed; after each of them the status of the loan is
    ['Paid'] and its date paid is the date of that call, so the second
    call replaces the date paid by its own date.  When both calls are
    made on the same date the second one leaves the sheets as they
    were. *)
Theorem markPaid_twice_keeps_paid d1 d2 id (w : world F) gl i :
  sheets w !! "Loans" = Some gl ->
  InventoryUI.loanIndex (drop 1 gl) (VStr id) = Some i ->
  exists w1 w2,
    InventoryUI.markLoanAsPaid true d1 (VStr id) w =
      (w1, Ok (InventoryUI.showSuccess "✓ Loan marked as paid"))
    /\ stored_loan w1 (S i) = Some (VStr "Paid", VStr d1)
    /\ InventoryUI.markLoanAsPaid true d2 (VStr id) w1 =
         (w2, Ok (InventoryUI.showSuccess "✓ Loan marked as paid"))
    /\ stored_loan w2 (S i) = Some (VStr "Paid", VStr d2)
    /\ (d1 = d2 -> sheets w2 = sheets w1).
Proof.
  intros HL Hi.
  destruct gl as [|header loans]; [discriminate|]. simpl drop in Hi.
  assert (Hcells : forall d (r : row),
             (get (write_cells 7 [VStr "Paid"; VStr d] r) 7,
              get (write_cells 7 [VStr "Paid"; VStr d] r) 8)
             = (VStr (F := F) "Paid", VStr d)).
  { intros d r. unfold get.
    pose proof (lookup_write_cells_ge 7 [VStr "Paid"; VStr d] r 0 (VStr "Paid") eq_refl) as H7.
    pose proof (lookup_write_cells_ge 7 [VStr "Paid"; VStr d] r 1 (VStr d) eq_refl) as H8.
    change (7 + 0)%nat with 7%nat in H7. change (7 + 1)%nat with 8%nat in H8.
    rewrite H7, H8. reflexivity. }
  eexists _, _.
  split; [apply (markLoanAsPaid_run d1 id w (header :: loans) i HL Hi)|].
  split.
  { unfold stored_loan. cbn [sheets]. rewrite lookup_insert_eq, lookup_write_line.
    rewrite Hcells. reflexivity. }
  split.
  { apply markLoanAsPaid_run.
    - simpl. apply lookup_insert_eq.
    - simpl. apply loanIndex_write_line. exact Hi. }
  split.
  { unfold stored_loan. cbn [sheets]. rewrite lookup_insert_eq, lookup_write_line.
    rewrite Hcells. reflexivity. }
  intros <-. cbn [sheets write_line]. rewrite write_line_idem. apply insert_insert_eq.
Qed.

(** C8, amended.  Across the single-item sale, the bulk sale and the
    warranty claim, a stored quantity never becomes negative: no quantity
    that [recordSale] or [processClaim] writes to the Inventory sheet reads
    as a negative number, a write that would drive the quantity below zero
    being rejected before that write is sent. *)
Theorem quantity_writes_never_negative :
  (forall c b (w : world F) ln v,
      In (ln, v) (flat_map quantity_writes
                           (new_events w (fst (Server.recordSale c b w)))) ->
      lt (quantity_of v) (Int 0) = false)
  /\ (forall now (items : grid) cd (w : world F) ln v,
         In (ln, v) (flat_map quantity_writes
                              (new_events w (fst (WarrantyManager.processClaim now items cd w)))) ->
         lt (quantity_of v) (Int 0) = false).
Proof.
  split.
  - intros c b w ln v.
    destruct (recordSale_shape c b w) as (w' & r & pre & events & R & L & D & Hev).
    rewrite R. simpl fst. rewrite (new_events_app _ _ _ L).
    rewrite flat_map_app. intros Hin. apply in_app_or in Hin.
    destruct Hin as [Hin | Hin].
    { apply in_flat_map in Hin. destruct Hin as (e & He & Hin).
      pose proof (quantity_writes_setup _ D) as Hq.
      rewrite Forall_forall in Hq. rewrite (Hq e) in Hin; [destruct Hin|].
      apply list_elem_of_In. exact He. }
    destruct Hev as [-> | (sale & _ & sr & lr & ups & p & q & -> & Hups & _)];
      [destruct Hin|].
    simpl in Hin. rewrite flat_map_app in Hin. apply in_app_or in Hin.
    destruct Hin as [Hin | Hin].
    { apply in_flat_map in Hin. destruct Hin as (e & He & Hin).
      apply in_map_iff in He. destruct He as (x & <- & _). destruct Hin. }
    apply in_flat_map in Hin. destruct Hin as (e & He & Hin).
    rewrite Forall_forall in Hups.
    apply (quantity_update_not_negative e ln v); [|exact Hin].
    apply Hups, list_elem_of_In, He.
  - intros now items cd w ln v.
    destruct (processClaim_shape now items cd w) as (w' & r & pre & rest & R & L & D & Hrest).
    rewrite R. simpl fst. rewrite (new_events_app _ _ _ L).
    rewrite flat_map_app, (quantity_writes_creates "Warranty") by (discriminate || exact D).
    simpl app.
    destruct Hrest as [-> | [[cr ->] | (cr & l0 & nr & z & -> & N5 & Hz)]];
      simpl; try tauto.
    rewrite N5. simpl. intros [Heq | []]. injection Heq as _ <-.
    rewrite quantity_of_int. simpl. apply Z.ltb_ge. exact Hz.
Qed.


End LedgerClaims.

(** ** Runs on the example shop *)

Section Runs.
Import Example.

Local Abbreviation D := ExactDecimal.t.

(** Four Mint out of ten over the counter. *)
Lemma retail_sale_run :
  exists w' earlier,
    Server.recordSale clock (request retail) shop =
      (w', Ok (Server.Status200
                 (Server.Recorded (string_of_Z (Server.now clock))
                                  (Some (Int (10 - 4))))))
    /\ new_events shop w' =
         (earlier ++ [Update (Range "Inventory" 5 (1 + 1))
                             [[VStr (string_of_Z (10 - 4))]]])%list
    /\ Forall (fun ev => quantity_writes ev = []) earlier
    /\ stored_quantity w' 1 = Some (Int (10 - 4)).
Proof.
  apply (single_sale_decrements_stock clock (request retail) retail shop inventory 1 4 10);
    try reflexivity; try lia.
  left. reflexivity.
Defined.

(** Eleven Mint out of ten. *)
Lemma oversell_run :
  exists w',
    Server.recordSale clock (request oversell) shop =
      (w', Ok (Server.Status500 "Insufficient stock"))
    /\ appended "Sales" (new_events shop w') = []
    /\ appended "Loans" (new_events shop w') = []
    /\ Forall (fun ev => quantity_writes ev = []) (new_events shop w')
    /\ (forall t, is_Some (sheets shop !! t) -> sheets w' !! t = sheets shop !! t).
Proof.
  apply (single_sale_insufficient_stock clock (request oversell) oversell shop
           inventory 1 11 10);
    try reflexivity; try lia.
  left. reflexivity.
Defined.

(** C2.  The bulk branch does not keep the promise that a sale asking for
    more than the stock produces no sale record, no loan record and no
    quantity write.  A bulk sale on credit whose second line asks for five
    Grape, of which there are two, is answered with the stock error; by
    then the sale record and the loan record are appended and the quantity
    of the first line is written, and they stay. *)
Lemma bulk_short_keeps_records :
  let run := Server.recordSale clock (request (bulk "Loan" 8 short_lines)) shop in
  snd run = Ok (Server.Status500 "Insufficient stock for Brand - Grape")
  /\ appended "Sales" (new_events shop (fst run)) =
       [[str "1712345678901"; str "BULK"; str "Bulk Sale (2 flavors)"; str "Bulk";
         num 8; price 50 0; str "400.00"; str "2024-04-05"; str "Bob"; str "bulk";
         str "Loan"; str ""]]
  /\ appended "Loans" (new_events shop (fst run)) =
       [[str "LOAN-1712345678901"; str "1712345678901"; str "Bob";
         str "Bulk Sale (2 flavors)"; str "400.00"; str "2024-04-05"; str "";
         str "Unpaid"; str ""; str ""]]
  /\ flat_map quantity_writes (new_events shop (fst run)) = [(2%nat, str "7")]
  /\ stored_quantity (fst run) 1 = Some (Int 7).
Proof. vm_compute. repeat split; reflexivity. Qed.

(** The same on credit, through the general statements. *)
Lemma credit_sale_run :
  exists sale,
    Server.sale (request retail_loan) = Some sale
    /\ appended "Sales" (new_events shop (fst (Server.recordSale clock (request retail_loan) shop)))
       = [[str "1712345678901"; str "1700000000001"; str "Brand";
           str "Vape Juice/Pod"; num 4; price 455 1; str "182.00"; str "2024-04-05";
           str "Bob"; str "retail"; str "Loan"; str ""]]
    /\ ((Sale.paymentMethod sale = VStr "Loan"
         /\ exists loanRow,
             appended "Loans"
               (new_events shop (fst (Server.recordSale clock (request retail_loan) shop)))
             = [loanRow]
             /\ get loanRow 4 =
                  get [str "1712345678901"; str "1700000000001"; str "Brand";
                       str "Vape Juice/Pod"; num 4; price 455 1; str "182.00";
                       str "2024-04-05"; str "Bob"; str "retail"; str "Loan"; str ""] 6
             /\ get loanRow 7 = VStr "Unpaid")
        \/ (Sale.paymentMethod sale <> VStr "Loan"
            /\ appended "Loans"
                 (new_events shop (fst (Server.recordSale clock (request retail_loan) shop)))
               = [])).
Proof.
  apply (loan_record_iff_payment_is_loan clock (request retail_loan) shop).
  vm_compute. left. reflexivity.
Defined.

Lemma retail_total_run :
  (exists p q,
      get [str "1712345678901"; str "1700000000001"; str "Brand";
           str "Vape Juice/Pod"; num 4; price 455 1; str "182.00"; str "2024-04-05";
           str "Bob"; str "retail"; str "Cash"; str ""] 5 = VNum p
      /\ get [str "1712345678901"; str "1700000000001"; str "Brand";
              str "Vape Juice/Pod"; num 4; price 455 1; str "182.00";
              str "2024-04-05"; str "Bob"; str "retail"; str "Cash"; str ""] 4 = VNum q
      /\ get [str "1712345678901"; str "1700000000001"; str "Brand";
              str "Vape Juice/Pod"; num 4; price 455 1; str "182.00";
              str "2024-04-05"; str "Bob"; str "retail"; str "Cash"; str ""] 6
         = VStr (toFixed2 (mul p q)))
  /\ appended "Sales" (new_events shop (fst (Server.recordSale clock (request retail) shop)))
     = [[str "1712345678901"; str "1700000000001"; str "Brand";
         str "Vape Juice/Pod"; num 4; price 455 1; str "182.00"; str "2024-04-05";
         str "Bob"; str "retail"; str "Cash"; str ""]]
  /\ Forall (fun ev => forall r vs, ev = Update r vs -> sheet r = "Sales" -> line r = 1%nat)
             (new_events shop (fst (Server.recordSale clock (request retail) shop))).
Proof.
  apply (sale_total_is_rounded_product clock (request retail) shop).
  vm_compute. left. reflexivity.
Defined.

(** An applied price of 0 is passed over: the sale is recorded at the
    price per unit, 50, and its total is 150.00. *)
Lemma zero_applied_price_passed_over :
  Sale.appliedPrice giveaway = num 0
  /\ Sale.pricePerUnit giveaway = price 50 0
  /\ appended "Sales" (new_events shop (fst (Server.recordSale clock (request giveaway) shop)))
     = [[str "1712345678901"; str "1700000000001"; str "Brand";
         str "Vape Juice/Pod"; num 3; price 50 0; str "150.00"; str "2024-04-05";
         str "Bob"; str "retail"; str "Cash"; str ""]].
Proof. vm_compute. repeat split; reflexivity. Qed.

Lemma giveaway_run :
  exists i saleRow,
    Server.findIndex inventory (Sale.itemId giveaway) = Some i
    /\ appended "Sales" (new_events shop (fst (Server.recordSale clock (request giveaway) shop)))
       = [saleRow]
    /\ (let itemRow := default [] (inventory !! i) in
        let chosen :=
          if truthy (Sale.appliedPrice giveaway) then Sale.appliedPrice giveaway
          else if truthy (Sale.pricePerUnit giveaway) then Sale.pricePerUnit giveaway
          else if truthy (get itemRow 6) then get itemRow 6
          else VNum (Int 0) in
        let price := or0 (parseFloat chosen) in
        let sellQty := parseInt (oror (Sale.quantitySold giveaway) (VNum (Int 0))) in
        get saleRow 5 = VNum price
        /\ get saleRow 6 = VStr (toFixed2 (mul price sellQty))).
Proof.
  apply (applied_price_is_first_truthy clock (request giveaway) giveaway shop inventory
           (Server.Recorded "1712345678901" (Some (Int 7))));
    try reflexivity.
  left. reflexivity.
Defined.

(** Marking the loan paid on one day and again on the next: the date
    paid is replaced by the date of the second call. *)
Lemma second_markPaid_replaces_date :
  let w1 := fst (InventoryUI.markLoanAsPaid true "2024-04-05" (str "LOAN-1699999999999") shop) in
  let w2 := fst (InventoryUI.markLoanAsPaid true "2024-04-06" (str "LOAN-1699999999999") w1) in
  stored_loan shop 1 = Some (str "Unpaid", str "")
  /\ stored_loan w1 1 = Some (str "Paid", str "2024-04-05")
  /\ stored_loan w2 1 = Some (str "Paid", str "2024-04-06").
Proof. vm_compute. repeat split; reflexivity. Qed.

Lemma markPaid_run :
  exists w1 w2,
    InventoryUI.markLoanAsPaid true "2024-04-05" (str "LOAN-1699999999999") shop =
      (w1, Ok (InventoryUI.showSuccess "✓ Loan marked as paid"))
    /\ stored_loan w1 1 = Some (VStr "Paid", VStr "2024-04-05")
    /\ InventoryUI.markLoanAsPaid true "2024-04-05" (str "LOAN-1699999999999") w1 =
         (w2, Ok (InventoryUI.showSuccess "✓ Loan marked as paid"))
    /\ stored_loan w2 1 = Some (VStr "Paid", VStr "2024-04-05")
    /\ ("2024-04-05" = "2024-04-05" -> sheets w2 = sheets w1).
Proof.
  apply (markPaid_twice_keeps_paid "2024-04-05" "2024-04-05" "LOAN-1699999999999" shop
           [Server.loans_headers; loan] 0);
    reflexivity.
Defined.

(** The bulk sale on credit again, through the general statement: the
    response is the stock error and the Inventory sheet is as the first
    line left it. *)
Lemma bulk_short_run :
  exists w',
    Server.recordSale clock (request (bulk "Loan" 8 short_lines)) shop =
      (w', Ok (Server.Status500 "Insufficient stock for Brand - Grape"))
    /\ sheets w' !! "Inventory" =
         sheets (fst (Server.bulk_loop [bulk_line "1700000000001" 3] inventory shop))
           !! "Inventory".
Proof.
  destruct (bulk_sale_appends_before_stock clock (request (bulk "Loan" 8 short_lines))
              (bulk "Loan" 8 short_lines) (bulk_line "1700000000001" 3)
              [bulk_line "1700000000002" 5] shop inventory
              eq_refl eq_refl eq_refl eq_refl)
    as (w' & r & pre & saleRow & loanRows & ups & gs & R & _ & _ & _ & _ & _ & Habort).
  destruct (Habort [bulk_line "1700000000001" 3] (bulk_line "1700000000002" 5) []
              (fst (Server.bulk_loop [bulk_line "1700000000001" 3] inventory shop))
              (Server.assign_cell 1 5 (str "7") inventory) 2%nat)
    as (Hr & _ & E).
  - reflexivity.
  - vm_compute. reflexivity.
  - reflexivity.
  - reflexivity.
  - exists w'. split; [rewrite R, Hr; reflexivity | exact E].
Defined.

(** A bulk sale paid in cash whose second line is rejected: the rejection
    does not come before every write, the sale record is appended and the
    quantity of the first line is written by then. *)
Lemma bulk_rejection_follows_writes :
  let run := Server.recordSale clock (request (bulk "Cash" 8 short_lines)) shop in
  snd run = Ok (Server.Status500 "Insufficient stock for Brand - Grape")
  /\ new_events shop (fst run) =
       [Append "Sales"
          [str "1712345678901"; str "BULK"; str "Bulk Sale (2 flavors)"; str "Bulk";
           num 8; price 50 0; str "400.00"; str "2024-04-05"; str "Bob"; str "bulk";
           str "Cash"; str ""];
        Update (Range "Inventory" 5 2) [[str "7"]]].
Proof. vm_compute. split; reflexivity. Qed.


(** A bulk line of minus three Mint adds three to the stock. *)
Lemma negative_line_run :
  exists w',
    Server.recordSale clock (request (bulk "Cash" 3 [bulk_line "1700000000001" (-3)])) shop =
      (w', Ok (Server.Status200 (Server.Recorded (string_of_Z (Server.now clock)) None)))
    /\ stored_quantity w' 1 = Some (Int (10 + Z.abs (-3)))
    /\ 10 < 10 + Z.abs (-3).
Proof.
  apply (bulk_negative_qty_increases_stock clock
           (request (bulk "Cash" 3 [bulk_line "1700000000001" (-3)]))
           (bulk "Cash" 3 [bulk_line "1700000000001" (-3)])
           (bulk_line "1700000000001" (-3)) shop inventory 1 (-3) 10);
    try reflexivity; try lia.
Defined.

End Runs.

(** * Further properties of the server *)

Section ServerFacts.
Context {F : Type} {FO : FloatOps F}.

Local Abbreviation row := (list (value F)).
Local Abbreviation grid := (list (list (value F))).

(** X1.  A single-item sale that is answered with an error leaves no trace in
    the records: whatever the reason of the error (a missing field, no
    Inventory sheet, an item that is not found, a quantity that is not a
    positive number, not enough stock), no sale record and no loan record
    is appended, no quantity is written and every sheet that existed is as
    it was. *)
Theorem failed_single_sale_leaves_no_record c b (w : world F) msg :
  (forall sale, Server.sale b = Some sale ->
                Sale.bulkItems sale = None \/ Sale.bulkItems sale = Some []) ->
  snd (Server.recordSale c b w) = Ok (Server.Status500 msg) ->
  appended "Sales" (new_events w (fst (Server.recordSale c b w))) = []
  /\ appended "Loans" (new_events w (fst (Server.recordSale c b w))) = []
  /\ flat_map quantity_writes (new_events w (fst (Server.recordSale c b w))) = []
  /\ (forall t, is_Some (sheets w !! t) ->
                sheets (fst (Server.recordSale c b w)) !! t = sheets w !! t).
Proof.
  intros Hsingle Hfail.
  assert (Hsame : Server.recordSale c b w = (w, Ok (Server.Status500 "Missing required fields")) ->
                  appended "Sales" (new_events w (fst (Server.recordSale c b w))) = []
                  /\ appended "Loans" (new_events w (fst (Server.recordSale c b w))) = []
                  /\ flat_map quantity_writes (new_events w (fst (Server.recordSale c b w))) = []
                  /\ (forall t, is_Some (sheets w !! t) ->
                                sheets (fst (Server.recordSale c b w)) !! t = sheets w !! t)).
  { intros ->. simpl. rewrite new_events_same. auto. }
  destruct (truthy (Server.spreadsheetId b)) eqn:Hid; cycle 1.
  { apply Hsame. unfold Server.recordSale. rewrite Hid. apply respond_throw. reflexivity. }
  destruct (Server.sale b) as [sale|] eqn:Hsale; cycle 1.
  { apply Hsame. unfold Server.recordSale. rewrite Hid, Hsale. apply respond_throw.
    reflexivity. }
  clear Hsame.
  destruct (recordSale_open c b sale w Hid Hsale)
    as (w0 & pre & gs & gl & HS & HL & O & K & L & D & R).
  assert (R' : Server.recordSale c b w =
               Server.respond
                 (let* values := values_get "Inventory" in
                  Server.recordSingle c sale values) w0).
  { rewrite R. destruct (Hsingle sale eq_refl) as [-> | ->]; reflexivity. }
  clear R.
  assert (Hend : Server.recordSale c b w = (w0, Ok (Server.Status500 msg))).
  { rewrite R' in Hfail |- *.
    destruct (sheets w0 !! "Inventory") as [gi|] eqn:HI.
    - assert (R2 : Server.respond
                     (let* values := values_get "Inventory" in
                      Server.recordSingle c sale values) w0
                   = Server.respond (Server.recordSingle c sale gi) w0).
      { apply respond_ext. rewrite (bind_ok _ _ _ _ _ (values_get_run _ _ _ HI)).
        reflexivity. }
      rewrite R2 in Hfail |- *.
      destruct (recordSingle_cases c sale gi) as [[m Hm] | (i & Hitem & Hf & Hv & Hs)].
      + rewrite (respond_throw _ _ _ _ (Hm w0)) in Hfail |- *.
        simpl in Hfail. congruence.
      + destruct (recordSingle_ok c sale gi w0 gs gl gi i HS HL HI Hitem Hf Hv Hs)
          as (w' & saleRow & loanRows & Rs & _).
        rewrite (respond_ok _ _ _ _ Rs) in Hfail. discriminate.
    - assert (Hthrow : (let* values := values_get "Inventory" in
                        Server.recordSingle c sale values) w0
                       = (w0, Throw (Error (no_such_sheet "Inventory")))).
      { apply bind_throw. unfold values_get. rewrite HI. reflexivity. }
      rewrite (respond_throw _ _ _ _ Hthrow) in Hfail |- *.
      simpl in Hfail. congruence. }
  rewrite Hend. simpl fst. rewrite (new_events_app _ _ _ L).
  split; [apply appended_setup, D|]. split; [apply appended_setup, D|].
  split; [|exact K].
  pose proof (quantity_writes_setup _ D) as Hq.
  clear - Hq. induction Hq as [|e l He _ IH]; [reflexivity|]. simpl. rewrite He, IH.
  reflexivity.
Qed.

Lemma bulk_loop_unknown items : forall (values : grid) (w : world F),
  Forall (fun l => Server.findIndex values (BulkItem.itemId l) = None) items ->
  Server.bulk_loop items values w = (w, Ok values).
Proof.
  induction items as [|item rest IH]; intros values w H; [reflexivity|].
  inversion H as [|? ? Hitem Hrest]; subst. simpl. rewrite Hitem. apply IH, Hrest.
Qed.

(** X2.  A bulk sale none of whose lines names an item of the Inventory sheet is
    recorded all the same: the lines are passed over one by one, the sale
    record is appended with the quantity and the total of the request, the
    answer is a success, and no quantity is written. *)
Theorem bulk_sale_of_unknown_items_is_recorded c b sale item rest (w : world F) gi :
  truthy (Server.spreadsheetId b) = true ->
  Server.sale b = Some sale ->
  Sale.bulkItems sale = Some (item :: rest) ->
  sheets w !! "Inventory" = Some gi ->
  Forall (fun l => Server.findIndex gi (BulkItem.itemId l) = None) (item :: rest) ->
  let run := Server.recordSale c b w in
  let sellQty := parseInt (oror (Sale.quantitySold sale) (VNum (Int 0))) in
  let price := or0 (parseFloat (oror (Sale.appliedPrice sale) (VNum (Int 0)))) in
  snd run = Ok (Server.Status200 (Server.Recorded (string_of_Z (Server.now c)) None))
  /\ (exists saleRow,
        appended "Sales" (new_events w (fst run)) = [saleRow]
        /\ get saleRow 4 = VNum sellQty
        /\ get saleRow 6 = VStr (toFixed2 (mul price sellQty)))
  /\ flat_map quantity_writes (new_events w (fst run)) = []
  /\ sheets (fst run) !! "Inventory" = Some gi.
Proof.
  intros Hid Hsale Hbulk HI Hunknown run sellQty price. subst run.
  destruct (recordSale_prelude c b sale w gi Hid Hsale HI)
    as (w0 & pre & gs & gl & HS & HL & HI0 & K & L & D & R).
  rewrite Hbulk in R.
  destruct (recordBulk_run c sale (item :: rest) gi w0 gs gl HS HL)
    as (wa & saleRow & loanRows & Rb & Lb & _ & O & G4 & _ & G6 & _).
  assert (Rrun : Server.recordSale c b w =
                 (wa, Ok (Server.Status200
                            (Server.Recorded (string_of_Z (Server.now c)) None)))).
  { rewrite R. apply respond_ok. rewrite Rb.
    rewrite (bind_ok _ _ _ _ _ (bulk_loop_unknown _ _ _ Hunknown)). reflexivity. }
  rewrite Rrun. simpl fst. simpl snd.
  assert (Hev : new_events w wa =
                (pre ++ Append "Sales" saleRow :: map (Append "Loans") loanRows)%list).
  { apply new_events_app. rewrite Lb, L, <- app_assoc. reflexivity. }
  rewrite Hev.
  split; [reflexivity|].
  split.
  { exists saleRow. split; [|split; [exact G4 | exact G6]].
    rewrite appended_app, (appended_setup _ _ D). simpl.
    rewrite (proj2 (appended_loans loanRows)). reflexivity. }
  split.
  { rewrite flat_map_app.
    assert (Hpre : flat_map quantity_writes pre = []).
    { pose proof (quantity_writes_setup _ D) as Hq. clear - Hq.
      induction Hq as [|e l He _ IH]; [reflexivity|]. simpl. rewrite He, IH.
      reflexivity. }
    rewrite Hpre. simpl. clear. induction loanRows as [|r l IH]; [reflexivity|exact IH]. }
  rewrite O by discriminate. exact HI0.
Qed.

Lemma find_from_lookup (rows : grid) itemId : forall k i,
  Server.find_from k rows itemId = Some i ->
  exists r, rows !! (i - k)%nat = Some r.
Proof.
  induction rows as [|r rest IH]; intros k i H; simpl in H; [discriminate|].
  destruct (truthy (get r 0) && String.eqb (ToString (get r 0)) (ToString itemId)).
  - injection H as <-. rewrite Nat.sub_diag. eauto.
  - pose proof (find_from_ge _ _ _ _ H) as Hge. apply IH in H.
    replace (i - k)%nat with (S (i - S k)) by lia. exact H.
Qed.

(** A line that the search finds is a line of the sheet. *)
Lemma findIndex_lookup (values : grid) itemId i :
  Server.findIndex values itemId = Some i -> exists r, values !! i = Some r.
Proof.
  unfold Server.findIndex. intros H.
  pose proof (find_from_ge _ _ _ _ H) as Hge.
  apply find_from_lookup in H. destruct H as [r H]. exists r.
  rewrite lookup_drop in H. replace (1 + (i - 1))%nat with i in H by lia. exact H.
Qed.

Lemma find_from_insert (rows : grid) itemId (r' : row) : forall k i,
  (forall r, rows !! i = Some r -> get r' 0 = get r 0) ->
  Server.find_from k (<[i := r']> rows) itemId = Server.find_from k rows itemId.
Proof.
  induction rows as [|r rest IH]; intros k i H; [reflexivity|].
  destruct i as [|i]; simpl.
  - rewrite (H r eq_refl). reflexivity.
  - rewrite IH; [reflexivity|]. intros r0 Hr0. apply H. exact Hr0.
Qed.

(** Writing a quantity into the local copy of the sheet does not change
    which line an item id finds. *)
Lemma findIndex_assign_cell (values : grid) i (v : value F) itemId :
  Server.findIndex (Server.assign_cell i 5 v values) itemId =
    Server.findIndex values itemId.
Proof.
  unfold Server.findIndex, Server.assign_cell.
  destruct (values !! i) as [r|] eqn:Hi; [|reflexivity].
  destruct values as [|hd tl]; [discriminate|].
  destruct i as [|i]; [reflexivity|]. simpl. rewrite !drop_0.
  apply find_from_insert. intros r0 Hr0. simpl in Hi.
  assert (r0 = r) as -> by congruence.
  apply get_assign_ne; lia.
Qed.

Lemma lookup_assign_cell (values : grid) i j (v : value F) r :
  values !! i = Some r ->
  Server.assign_cell i j v values !! i = Some (Server.assign j v r).
Proof.
  intros Hi. unfold Server.assign_cell. rewrite Hi.
  apply list_lookup_insert_eq. apply lookup_lt_Some in Hi. exact Hi.
Qed.

(** X3.  Two lines of a bulk sale that name the same item add up: the second
    line is checked against what the first line left, not against the
    stock the request started from.  When it fits, the stored quantity is
    the stock less both lines; when it does not, the request is answered
    with an error and the stored quantity is the stock less the first
    line. *)
Theorem bulk_lines_of_one_item_add_up c b sale l1 l2 (w : world F) gi i e q1 q2 :
  truthy (Server.spreadsheetId b) = true ->
  Server.sale b = Some sale ->
  Sale.bulkItems sale = Some [l1; l2] ->
  sheets w !! "Inventory" = Some gi ->
  Server.findIndex gi (BulkItem.itemId l1) = Some i ->
  Server.findIndex gi (BulkItem.itemId l2) = Some i ->
  quantity_of (get (default [] (gi !! i)) 5) = Int e ->
  parseInt (oror (BulkItem.qty l1) (VNum (Int 0))) = Int q1 ->
  parseInt (oror (BulkItem.qty l2) (VNum (Int 0))) = Int q2 ->
  q1 <= e ->
  let run := Server.recordSale c b w in
  (q2 <= e - q1 ->
   snd run = Ok (Server.Status200 (Server.Recorded (string_of_Z (Server.now c)) None))
   /\ stored_quantity (fst run) i = Some (Int (e - q1 - q2)))
  /\ (e - q1 < q2 ->
      (exists msg, snd run = Ok (Server.Status500 msg))
      /\ stored_quantity (fst run) i = Some (Int (e - q1))).
Proof.
  intros Hid Hsale Hbulk HI Hf1 Hf2 He Hq1 Hq2 Hle run. subst run.
  destruct (recordSale_prelude c b sale w gi Hid Hsale HI)
    as (w0 & pre & gs & gl & HS & HL & HI0 & K & L & D & R).
  rewrite Hbulk in R.
  destruct (recordBulk_run c sale [l1; l2] gi w0 gs gl HS HL)
    as (wa & saleRow & loanRows & Rb & Lb & _ & O & _).
  assert (HIa : sheets wa !! "Inventory" = Some gi).
  { rewrite O by discriminate. exact HI0. }
  destruct (findIndex_pos _ _ _ Hf1) as [j ->].
  destruct (findIndex_lookup _ _ _ Hf1) as [r Hr].
  rewrite Hr in He. cbn [from_option] in He. unfold id in He. unfold quantity_of in He.
  set (v1 := Server.assign_cell (S j) 5 (VStr (string_of_Z (e - q1))) gi).
  set (w1 := World (<["Inventory" := write_line (S j) 5 [VStr (string_of_Z (e - q1))] gi]>
                      (sheets wa))
                   (log wa ++ [Update (Range "Inventory" 5 (S (S j)))
                                      [[VStr (string_of_Z (e - q1))]]])%list).
  assert (Hfirst : Server.bulk_loop [l1; l2] gi wa = Server.bulk_loop [l2] v1 w1).
  { cbn [Server.bulk_loop]. cbv zeta. rewrite Hf1, Hq1, Hr. cbn [from_option]. unfold id. rewrite He.
    unfold gt. cbn [lt]. rewrite (proj2 (Z.ltb_ge e q1)) by lia.
    rewrite Nat.add_1_r. cbn [sub number_to_string].
    rewrite (bind_ok _ _ _ _ _ (values_update_run _ _ _ _ _ _ HIa)). reflexivity. }
  assert (Hf2' : Server.findIndex v1 (BulkItem.itemId l2) = Some (S j)).
  { unfold v1. rewrite findIndex_assign_cell. exact Hf2. }
  assert (Hr1 : v1 !! S j = Some (Server.assign 5 (VStr (string_of_Z (e - q1))) r)).
  { apply lookup_assign_cell. exact Hr. }
  assert (Hcur : parseInt (oror (get (Server.assign 5 (VStr (string_of_Z (e - q1))) r) 5)
                                (VStr "0")) = Int (e - q1)).
  { rewrite get_assign_eq. apply (quantity_of_digits (e - q1)). }
  assert (HI1 : sheets w1 !! "Inventory" =
                Some (write_line (S j) 5 [VStr (string_of_Z (e - q1))] gi)).
  { apply lookup_insert_eq. }
  split.
  - intros Hfit.
    assert (Rrun : Server.recordSale c b w =
                   (World (<["Inventory" :=
                               write_line (S j) 5 [VStr (string_of_Z (e - q1 - q2))]
                                 (write_line (S j) 5 [VStr (string_of_Z (e - q1))] gi)]>
                             (sheets w1))
                          (log w1 ++ [Update (Range "Inventory" 5 (S (S j)))
                                             [[VStr (string_of_Z (e - q1 - q2))]]])%list,
                    Ok (Server.Status200
                          (Server.Recorded (string_of_Z (Server.now c)) None)))).
    { rewrite R. apply respond_ok. rewrite Rb.
      erewrite bind_ok; [reflexivity|].
      rewrite Hfirst. cbn [Server.bulk_loop]. cbv zeta. rewrite Hf2', Hq2, Hr1. cbn [from_option]. unfold id.
      rewrite Hcur. unfold gt. cbn [lt]. rewrite (proj2 (Z.ltb_ge (e - q1) q2)) by lia.
      rewrite Nat.add_1_r. cbn [sub number_to_string].
      rewrite (bind_ok _ _ _ _ _ (values_update_run _ _ _ _ _ _ HI1)). reflexivity. }
    rewrite Rrun. split; [reflexivity|].
    unfold stored_quantity. cbn [fst sheets]. rewrite lookup_insert_eq.
    rewrite lookup_write_line. cbn [from_option]. unfold id.
    rewrite get_write_cells_str. rewrite quantity_of_digits. reflexivity.
  - intros Hshort.
    assert (Rrun : exists msg,
               Server.recordSale c b w = (w1, Ok (Server.Status500 msg))).
    { eexists. rewrite R. apply respond_throw. rewrite Rb. apply bind_throw.
      rewrite Hfirst. cbn [Server.bulk_loop]. cbv zeta. rewrite Hf2', Hq2, Hr1. cbn [from_option]. unfold id.
      rewrite Hcur. unfold gt. cbn [lt]. rewrite (proj2 (Z.ltb_lt (e - q1) q2)) by lia.
      reflexivity. }
    destruct Rrun as [msg Rrun]. rewrite Rrun. split; [eauto|].
    unfold stored_quantity. cbn [fst]. rewrite HI1.
    rewrite lookup_write_line. cbn [from_option]. unfold id.
    rewrite get_write_cells_str. rewrite quantity_of_digits. reflexivity.
Qed.

(** X4.  [ensureSheetExists] never fails and is idempotent.  A sheet that
    exists is left as it is, header line included, and nothing is sent; a
    sheet that is missing is created with the header line as its only line
    (empty when no headers are given); the other sheets are not touched;
    and a second call changes nothing. *)
Theorem ensureSheetExists_is_idempotent name (headers : row) (w : world F) :
  let w1 := fst (Server.ensureSheetExists name headers w) in
  snd (Server.ensureSheetExists name headers w) = Ok tt
  /\ Server.ensureSheetExists name headers w1 = (w1, Ok tt)
  /\ (is_Some (sheets w !! name) -> w1 = w)
  /\ (sheets w !! name = None ->
      sheets w1 !! name =
        Some (if (0 <? length headers)%nat then [overwrite headers []] else []))
  /\ (forall t, t <> name -> sheets w1 !! t = sheets w !! t).
Proof.
  intros w1. subst w1.
  destruct (ensureSheetExists_spec name headers w) as (w' & evs & R & S & O & _).
  rewrite R. cbn [fst snd].
  split; [reflexivity|].
  split; [apply ensureSheetExists_existing, S|].
  split.
  { intros Hex. rewrite (ensureSheetExists_existing _ _ _ Hex) in R. congruence. }
  split; [|exact O].
  intros Hnone. revert R.
  unfold Server.ensureSheetExists, try_catch, bind, spreadsheets_get, addSheet.
  rewrite bool_decide_eq_false_2 by (rewrite Hnone; intros [? ?]; congruence).
  cbn [negb]. rewrite Hnone.
  destruct (0 <? length headers)%nat.
  - unfold values_update. cbn [sheet line sheets]. rewrite lookup_insert_eq.
    intros [= <-]. cbn [sheets column write_lines write_line write_cells].
    apply lookup_insert_eq.
  - unfold ret. intros [= <-]. cbn [sheets]. apply lookup_insert_eq.
Qed.

End ServerFacts.

(** * Further properties of the routes and of the wrappers *)

Section WrapperFacts.
Context {F : Type} {FO : FloatOps F}.

Local Abbreviation row := (list (value F)).
Local Abbreviation grid := (list (list (value F))).


Lemma overwrite_strs (l : list string) :
  overwrite (F := F) (Server.strs l) [] = Server.strs l.
Proof. induction l as [|s l IH]; [reflexivity|]. simpl. f_equal. exact IH. Qed.

(** [appendRow] on a sheet that exists. *)
Lemma appendRow_existing (rowData : row) name (g : grid) (w : world F) :
  sheets w !! name = Some g ->
  SheetsAPI.appendRow rowData name w =
    (World (<[name := (g ++ [overwrite (map SheetsAPI.json rowData) []])%list]> (sheets w))
           (log w ++ [Append name (map SheetsAPI.json rowData)])%list, Ok tt).
Proof.
  intros H. unfold SheetsAPI.appendRow, Server.append.
  erewrite bind_ok; cycle 1.
  { apply respond_ok.
    rewrite (bind_ok _ _ _ _ _ (ensureSheetExists_existing _ _ _ (mk_is_Some _ _ H))).
    apply (values_append_run _ _ _ _ H). }
  reflexivity.
Qed.

(** [appendRow] on a sheet that is missing and for which the append route
    has no headers. *)
Lemma appendRow_missing (rowData : row) name (w : world F) :
  sheets w !! name = None ->
  name <> "Inventory" -> name <> "Sales" ->
  SheetsAPI.appendRow rowData name w =
    (World (<[name := [overwrite (map SheetsAPI.json rowData) []]]>
              (<[name := []]> (sheets w)))
           (log w ++ [AddSheet name; Append name (map SheetsAPI.json rowData)])%list,
     Ok tt).
Proof.
  intros H H1 H2. unfold SheetsAPI.appendRow, Server.append.
  rewrite (proj2 (String.eqb_neq name "Inventory")) by exact H1.
  rewrite (proj2 (String.eqb_neq name "Sales")) by exact H2.
  assert (He : Server.ensureSheetExists name [] w =
               (World (<[name := []]> (sheets w)) (log w ++ [AddSheet name])%list, Ok tt)).
  { unfold Server.ensureSheetExists, try_catch, bind, spreadsheets_get, addSheet.
    rewrite bool_decide_eq_false_2 by (rewrite H; intros [? ?]; congruence).
    cbn [negb]. rewrite H. reflexivity. }
  erewrite bind_ok; cycle 1.
  { apply respond_ok. rewrite (bind_ok _ _ _ _ _ He).
    apply values_append_run. cbn [sheets]. apply lookup_insert_eq. }
  cbn [sheets log]. rewrite <- app_assoc. reflexivity.
Qed.


(** [fetchData] on a spreadsheet that has no Inventory sheet. *)
Lemma fetchData_inventory_missing (w : world F) :
  sheets w !! "Inventory" = None ->
  SheetsAPI.fetchData "Inventory" w =
    (World (<["Inventory" := [Server.inventory_headers]]>
              (<["Inventory" := []]> (sheets w)))
           (log w ++ [AddSheet "Inventory";
                      Update (Range "Inventory" 0 1) [Server.inventory_headers]])%list,
     Ok (Server.inventory_headers, [])).
Proof.
  intros H.
  assert (He : Server.ensureSheetExists "Inventory" Server.inventory_headers w =
               (World (<["Inventory" := [Server.inventory_headers]]>
                         (<["Inventory" := []]> (sheets w)))
                      (log w ++ [AddSheet "Inventory";
                                 Update (Range "Inventory" 0 1) [Server.inventory_headers]])%list,
                Ok tt)).
  { unfold Server.ensureSheetExists, try_catch, bind, spreadsheets_get, addSheet.
    rewrite bool_decide_eq_false_2 by (rewrite H; intros [? ?]; congruence).
    cbn [negb]. rewrite H.
    change (0 <? length (Server.inventory_headers (F := F)))%nat with true. cbv iota.
    unfold values_update. cbn [sheet line sheets]. rewrite lookup_insert_eq.
    cbn [column write_lines write_line write_cells log].
    assert (Hh : overwrite (F := F) Server.inventory_headers [] = Server.inventory_headers)
      by apply overwrite_strs.
    rewrite Hh, <- app_assoc. reflexivity. }
  unfold SheetsAPI.fetchData, Server.read.
  erewrite bind_ok; cycle 1.
  { apply respond_ok.
    change (String.eqb "Inventory" "Inventory") with true. cbv iota.
    rewrite (bind_ok _ _ _ _ _ He).
    erewrite bind_ok; cycle 1.
    { apply values_get_run. cbn [sheets]. apply lookup_insert_eq. }
    reflexivity. }
  reflexivity.
Qed.

(** X6.  [loadInventory] on a spreadsheet that has no Inventory sheet does not
    fail: the read route creates the sheet with the nine headers of the
    server as its only line, and no item is loaded.  The other sheets are
    not touched. *)
Theorem loadInventory_creates_missing_sheet (w : world F) :
  sheets w !! "Inventory" = None ->
  let w' := fst (InventoryManager.loadInventory w) in
  snd (InventoryManager.loadInventory w) = Ok []
  /\ sheets w' !! "Inventory" = Some [Server.inventory_headers]
  /\ new_events w w' =
       [AddSheet "Inventory"; Update (Range "Inventory" 0 1) [Server.inventory_headers]]
  /\ (forall t, t <> "Inventory" -> sheets w' !! t = sheets w !! t).
Proof.
  intros H w'. subst w'.
  assert (Hl : InventoryManager.loadInventory w =
               (World (<["Inventory" := [Server.inventory_headers]]>
                         (<["Inventory" := []]> (sheets w)))
                      (log w ++ [AddSheet "Inventory";
                                 Update (Range "Inventory" 0 1) [Server.inventory_headers]])%list,
                Ok [])).
  { unfold InventoryManager.loadInventory, try_catch.
    erewrite bind_ok; cycle 1.
    { apply fetchData_inventory_missing. exact H. }
    reflexivity. }
  rewrite Hl. cbn [fst snd sheets].
  split; [reflexivity|].
  split; [apply lookup_insert_eq|].
  split; [apply new_events_app; reflexivity|].
  intros t Ht. rewrite !lookup_insert_ne by congruence. reflexivity.
Qed.

(** [appendRow] on the Warranty sheet, which the append route creates
    without a header line when it is missing. *)
Lemma appendRow_warranty (rowData : row) (w : world F) :
  exists wa pre,
    SheetsAPI.appendRow rowData "Warranty" w = (wa, Ok tt)
    /\ sheets wa !! "Warranty" =
         Some (default [] (sheets w !! "Warranty")
               ++ [overwrite (map SheetsAPI.json rowData) []])%list
    /\ (forall t, t <> "Warranty" -> sheets wa !! t = sheets w !! t)
    /\ log wa = (log w ++ pre ++ [Append "Warranty" (map SheetsAPI.json rowData)])%list
    /\ Forall (creates "Warranty") pre.
Proof.
  destruct (sheets w !! "Warranty") as [gw|] eqn:E.
  - eexists _, []. split; [apply (appendRow_existing _ _ _ _ E)|].
    cbn [sheets log]. split; [apply lookup_insert_eq|].
    split; [intros t Ht; apply lookup_insert_ne; congruence|].
    split; [reflexivity | constructor].
  - eexists _, [AddSheet "Warranty"].
    split; [apply (appendRow_missing _ _ _ E); discriminate|].
    cbn [sheets log]. split; [apply lookup_insert_eq|].
    split; [intros t Ht; rewrite !lookup_insert_ne by congruence; reflexivity|].
    split; [reflexivity|]. constructor; [left; reflexivity | constructor].
Qed.

(** A claim that passes the checks, on any Inventory sheet: the claim
    row, the claims that are loaded afterwards and the quantity that is
    stored. *)
Lemma processClaim_listing now (items : grid) cd (w : world F) g product idx cur req :
  sheets w !! "Inventory" = Some g ->
  InventoryManager.getItemById items (ClaimData.itemId cd) = Some product ->
  InventoryManager.findIndex items (ClaimData.itemId cd) = Some idx ->
  or0 (parseInt (get product 5)) = Int cur ->
  or0 (parseInt (ClaimData.quantity cd)) = Int req ->
  req <= cur ->
  exists w' res claimRow newRow,
    WarrantyManager.processClaim now items cd w = (w', Ok res)
    /\ get claimRow 0 = VStr (string_of_Z now)
    /\ get claimRow 4 = VNum (Int req)
    /\ get claimRow 8 = VStr "Completed"
    /\ sheets w' !! "Warranty" =
         Some (default [] (sheets w !! "Warranty") ++ [claimRow])%list
    /\ WarrantyManager.claims res =
         drop 1 (default [] (sheets w !! "Warranty") ++ [claimRow])%list
    /\ WarrantyManager.claimId res = string_of_Z now
    /\ sheets w' !! "Inventory" = Some (write_line (S idx) 0 newRow g)
    /\ newRow !! 5%nat = Some (VNum (Int (cur - req)))
    /\ (forall t, t <> "Warranty" -> t <> "Inventory" -> sheets w' !! t = sheets w !! t).
Proof.
  intros HI Hget Hidx Hcur Hreq Hle.
  unfold WarrantyManager.processClaim. rewrite Hget. cbv zeta. rewrite Hcur, Hreq.
  change (lt (Int cur) (Int req)) with (cur <? req).
  replace (cur <? req) with false by (symmetry; apply Z.ltb_ge; exact Hle).
  cbv iota.
  match goal with
  | |- context [SheetsAPI.appendRow ?r ?n] =>
      destruct (appendRow_warranty r w) as (wa & pre & Ra & Wa & Oa & _ & _)
  end.
  assert (HIa : sheets wa !! "Inventory" = Some g).
  { rewrite Oa by discriminate. exact HI. }
  match type of Wa with
  | _ = Some (_ ++ [?cr])%list => eexists _, _, cr, _
  end.
  split.
  { unfold WarrantyManager.sheetName. rewrite (bind_ok _ _ _ _ _ Ra).
    unfold InventoryManager.updateQuantity. rewrite Hget.
    unfold InventoryManager.updateItem. rewrite Hidx. cbv zeta.
    replace (idx + 2)%nat with (S (S idx)) by lia.
    erewrite bind_ok; cycle 1.
    { erewrite bind_ok; cycle 1.
      { apply updateRange_run. exact HIa. }
      reflexivity. }
    erewrite bind_ok; cycle 1.
    { apply loadClaims_existing. cbn [sheets]. rewrite lookup_insert_ne by discriminate.
      exact Wa. }
    reflexivity. }
  cbn [sheets WarrantyManager.claims WarrantyManager.claimId].
  split; [reflexivity|]. split; [reflexivity|]. split; [reflexivity|].
  split. { rewrite lookup_insert_ne by discriminate. exact Wa. }
  split; [reflexivity|]. split; [reflexivity|].
  split. { rewrite lookup_insert_eq. reflexivity. }
  split; [reflexivity|].
  intros t H1 H2.
  rewrite lookup_insert_ne by (intros Heq; apply H2; symmetry; exact Heq).
  apply Oa. exact H1.
Qed.

(** X7.  A warranty claim that is processed on a Warranty sheet with a header
    line is the last of the claims that [processClaim] loads afterwards,
    after the claims that were there; its row has the claim id, the
    quantity and the status ['Completed']. *)
Theorem warranty_claim_is_listed_last now (items : grid) cd (w : world F)
    g header old product cur req :
  sheets w !! "Inventory" = Some g ->
  sheets w !! "Warranty" = Some (header :: old) ->
  InventoryManager.getItemById items (ClaimData.itemId cd) = Some product ->
  or0 (parseInt (get product 5)) = Int cur ->
  or0 (parseInt (ClaimData.quantity cd)) = Int req ->
  req <= cur ->
  exists w' res claimRow,
    WarrantyManager.processClaim now items cd w = (w', Ok res)
    /\ WarrantyManager.claims res = (old ++ [claimRow])%list
    /\ WarrantyManager.claimId res = string_of_Z now
    /\ get claimRow 0 = VStr (string_of_Z now)
    /\ get claimRow 4 = VNum (Int req)
    /\ get claimRow 8 = VStr "Completed".
Proof.
  intros HI HW Hget Hcur Hreq Hle.
  destruct (getItemById_findIndex _ _ _ Hget) as (idx & Hidx & _).
  destruct (processClaim_listing now items cd w g product idx cur req
              HI Hget Hidx Hcur Hreq Hle)
    as (w' & res & claimRow & newRow & R & G0 & G4 & G8 & _ & C & Id & _).
  exists w', res, claimRow. rewrite HW in C.
  repeat (split; [assumption|]). assumption.
Qed.

(** X8.  The first warranty claim of a spreadsheet is not listed.  When the
    Warranty sheet is missing or empty the claim row becomes the first line
    of the sheet, which a read takes for the header line: the claims that
    [processClaim] loads afterwards are none, although the claim is stored
    and the stock is written. *)
Theorem first_warranty_claim_is_not_listed now (items : grid) cd (w : world F)
    g product cur req :
  sheets w !! "Inventory" = Some g ->
  sheets w !! "Warranty" = None \/ sheets w !! "Warranty" = Some [] ->
  InventoryManager.getItemById items (ClaimData.itemId cd) = Some product ->
  or0 (parseInt (get product 5)) = Int cur ->
  or0 (parseInt (ClaimData.quantity cd)) = Int req ->
  req <= cur ->
  exists w' res claimRow,
    WarrantyManager.processClaim now items cd w = (w', Ok res)
    /\ WarrantyManager.claims res = []
    /\ sheets w' !! "Warranty" = Some [claimRow]
    /\ SheetsAPI.fetchData "Warranty" w' = (w', Ok (claimRow, []))
    /\ get claimRow 0 = VStr (string_of_Z now)
    /\ get claimRow 8 = VStr "Completed".
Proof.
  intros HI HW Hget Hcur Hreq Hle.
  destruct (getItemById_findIndex _ _ _ Hget) as (idx & Hidx & _).
  destruct (processClaim_listing now items cd w g product idx cur req
              HI Hget Hidx Hcur Hreq Hle)
    as (w' & res & claimRow & newRow & R & G0 & G4 & G8 & S & C & _).
  assert (He : default [] (sheets w !! "Warranty") = []).
  { destruct HW as [-> | ->]; reflexivity. }
  rewrite He in S, C. cbn [app] in S, C.
  exists w', res, claimRow.
  split; [exact R|]. split; [exact C|]. split; [exact S|].
  split; [rewrite (fetchData_existing _ _ _ S); reflexivity|].
  split; assumption.
Qed.

(** X9.  The quantity that a warranty claim stores comes from the page's copy
    of the inventory, not from the sheet: whatever the Inventory sheet
    holds in the line of the product, the stored quantity after the claim
    is the quantity of the copy less the quantity claimed.  A change made
    to the sheet since the copy was loaded is overwritten. *)
Theorem warranty_claim_writes_the_page_copy now (items : grid) cd (w : world F)
    g product cur req :
  sheets w !! "Inventory" = Some g ->
  InventoryManager.getItemById items (ClaimData.itemId cd) = Some product ->
  or0 (parseInt (get product 5)) = Int cur ->
  or0 (parseInt (ClaimData.quantity cd)) = Int req ->
  req <= cur ->
  exists w' res idx,
    WarrantyManager.processClaim now items cd w = (w', Ok res)
    /\ items !! idx = Some product
    /\ stored_quantity w' (S idx) = Some (Int (cur - req))
    /\ WarrantyManager.items res !! idx
       = Some [ClaimData.itemId cd; get product 1; get product 2; get product 3;
               oror (get product 4) (VStr ""); VNum (Int (cur - req)); get product 6;
               get product 7; oror (get product 8) (VStr "");
               oror (get product 9) (VStr "")].
Proof.
  intros HI Hget Hcur Hreq Hle.
  destruct (getItemById_findIndex _ _ _ Hget) as (idx & Hidx & Hprod).
  assert (Hrun : exists w' res newRow,
             WarrantyManager.processClaim now items cd w = (w', Ok res)
             /\ sheets w' !! "Inventory" = Some (write_line (S idx) 0 newRow g)
             /\ newRow !! 5%nat = Some (VNum (Int (cur - req)))
             /\ WarrantyManager.items res !! idx
                = Some [ClaimData.itemId cd; get product 1; get product 2; get product 3;
                        oror (get product 4) (VStr ""); VNum (Int (cur - req));
                        get product 6; get product 7; oror (get product 8) (VStr "");
                        oror (get product 9) (VStr "")]).
  { unfold WarrantyManager.processClaim. rewrite Hget. cbv zeta. rewrite Hcur, Hreq.
    change (lt (Int cur) (Int req)) with (cur <? req).
    replace (cur <? req) with false by (symmetry; apply Z.ltb_ge; exact Hle).
    cbv iota.
    match goal with
    | |- context [SheetsAPI.appendRow ?r ?n] =>
        destruct (appendRow_warranty r w) as (wa & pre & Ra & Wa & Oa & _ & _)
    end.
    assert (HIa : sheets wa !! "Inventory" = Some g).
    { rewrite Oa by discriminate. exact HI. }
    eexists _, _, _. split.
    { unfold WarrantyManager.sheetName. rewrite (bind_ok _ _ _ _ _ Ra).
      unfold InventoryManager.updateQuantity. rewrite Hget.
      unfold InventoryManager.updateItem. rewrite Hidx. cbv zeta.
      replace (idx + 2)%nat with (S (S idx)) by lia.
      erewrite bind_ok; cycle 1.
      { erewrite bind_ok; cycle 1.
        { apply updateRange_run. exact HIa. }
        reflexivity. }
      erewrite bind_ok; cycle 1.
      { apply loadClaims_existing. cbn [sheets]. rewrite lookup_insert_ne by discriminate.
        exact Wa. }
      reflexivity. }
    cbn [sheets WarrantyManager.items snd].
    split. { rewrite lookup_insert_eq. reflexivity. }
    split; [reflexivity|].
    apply list_lookup_insert_eq. apply lookup_lt_Some in Hprod. exact Hprod. }
  destruct Hrun as (w' & res & newRow & R & I' & N5 & It).
  exists w', res, idx. split; [exact R|]. split; [exact Hprod|]. split; [|exact It].
  unfold stored_quantity. rewrite I', lookup_write_line. unfold get.
  match goal with
  | |- context [write_cells 0 newRow ?old] =>
      pose proof (lookup_write_cells_ge 0 newRow old 5 _ N5) as H5
  end.
  change (0 + 5)%nat with 5%nat in H5. rewrite H5. cbn [written default from_option id].
  rewrite quantity_of_int. reflexivity.
Qed.

(** X24.  The claim record is written before the stock.  When the stock
    update fails (the Inventory sheet is gone while the page still has its
    copy), [processClaim] fails, and the claim record that it appended
    before, with the status ['Completed'], stays; no quantity is written. *)
Theorem failed_stock_update_leaves_the_claim now (items : grid) cd (w : world F)
    product cur req :
  sheets w !! "Inventory" = None ->
  InventoryManager.getItemById items (ClaimData.itemId cd) = Some product ->
  or0 (parseInt (get product 5)) = Int cur ->
  or0 (parseInt (ClaimData.quantity cd)) = Int req ->
  req <= cur ->
  exists w' msg claimRow,
    WarrantyManager.processClaim now items cd w = (w', Throw (Error msg))
    /\ appended "Warranty" (new_events w w') = [claimRow]
    /\ get claimRow 4 = VNum (Int req)
    /\ get claimRow 8 = VStr "Completed"
    /\ flat_map quantity_writes (new_events w w') = []
    /\ sheets w' !! "Inventory" = None.
Proof.
  intros HI Hget Hcur Hreq Hle.
  destruct (getItemById_findIndex _ _ _ Hget) as (idx & Hidx & _).
  unfold WarrantyManager.processClaim. rewrite Hget. cbv zeta. rewrite Hcur, Hreq.
  change (lt (Int cur) (Int req)) with (cur <? req).
  replace (cur <? req) with false by (symmetry; apply Z.ltb_ge; exact Hle).
  cbv iota.
  match goal with
  | |- context [SheetsAPI.appendRow ?r ?n] =>
      destruct (appendRow_warranty r w) as (wa & pre & Ra & Wa & Oa & La & Dpre)
  end.
  assert (HIa : sheets wa !! "Inventory" = None).
  { rewrite Oa by discriminate. exact HI. }
  unfold WarrantyManager.sheetName. rewrite (bind_ok _ _ _ _ _ Ra).
  unfold InventoryManager.updateQuantity. rewrite Hget.
  unfold InventoryManager.updateItem. rewrite Hidx. cbv zeta.
  match goal with
  | |- context [SheetsAPI.updateRange ?r ?vs] =>
      destruct (updateRange_missing r vs wa HIa) as [msg Hup]
  end.
  exists wa, msg. eexists. split.
  { apply bind_throw. apply bind_throw. exact Hup. }
  rewrite (new_events_app _ _ _ La).
  split.
  { rewrite appended_app, (appended_creates _ _ _ Dpre). reflexivity. }
  split; [reflexivity|]. split; [reflexivity|].
  split; [|exact HIa].
  rewrite flat_map_app, (quantity_writes_creates "Warranty") by (discriminate || exact Dpre).
  reflexivity.
Qed.

End WrapperFacts.

(** * Properties of the inventory page *)

Section PageFacts.
Context {F : Type} {FO : FloatOps F} {FS : FloatSum F}.

Local Abbreviation row := (list (value F)).
Local Abbreviation grid := (list (list (value F))).


Lemma strict_eq_refl_str s : strict_eq (F := F) (VStr s) (VStr s) = true.
Proof. apply strict_eq_str. reflexivity. Qed.




Lemma write_line_insert i col (new : row) : forall (g : grid) r,
  g !! i = Some r -> write_line i col new g = <[i := write_cells col new r]> g.
Proof.
  induction i as [|i IH]; intros [|x g] r H; simpl in *; try discriminate.
  - injection H as ->. reflexivity.
  - rewrite (IH g r H). reflexivity.
Qed.

Lemma findIndex_lookup_item (items : grid) id : forall idx,
  InventoryManager.findIndex items id = Some idx ->
  exists item, items !! idx = Some item /\ strict_eq (get item 0) id = true.
Proof.
  induction items as [|x xs IH]; intros idx H; simpl in H; [discriminate|].
  destruct (strict_eq (get x 0) id) eqn:E.
  - injection H as <-. eauto.
  - destruct (InventoryManager.findIndex xs id) as [j|] eqn:Ej; [|discriminate].
    simpl in H. injection H as <-. apply (IH j eq_refl).
Qed.


(** X13.  [markLoanAsPaid] writes only when the dialog is confirmed and the
    loan is found.  When the dialog is cancelled nothing is shown and
    nothing is sent; when no line of the Loans sheet has the loan id, the
    page shows that the loan is not found and nothing is written. *)
Theorem markLoanAsPaid_writes_only_when_found confirmed today id (w : world F) gl :
  sheets w !! "Loans" = Some gl ->
  confirmed = false \/ InventoryUI.loanIndex (drop 1 gl) id = None ->
  InventoryUI.markLoanAsPaid confirmed today id w =
    (w, Ok (if confirmed
            then InventoryUI.showError "✗ Failed to mark loan as paid: Loan not found"
            else InventoryUI.nothing)).
Proof.
  intros HL Hcase. unfold InventoryUI.markLoanAsPaid.
  destruct confirmed; [|reflexivity]. cbn [negb].
  destruct Hcase as [Hc | Hnone]; [discriminate|].
  unfold try_catch.
  rewrite (bind_ok _ _ _ _ _ (fetchData_existing _ _ _ HL)). cbn [snd].
  rewrite Hnone. reflexivity.
Qed.

Lemma lookup_overwrite_after (new : row) : forall (old : row) k,
  overwrite new old !! (length new + k)%nat = old !! (length new + k)%nat.
Proof.
  induction new as [|v vs IH]; intros old k; [reflexivity|].
  destruct old as [|x xs]; simpl.
  - rewrite (IH [] k). destruct (length vs + k)%nat; reflexivity.
  - apply IH.
Qed.

Lemma lookup_write_cells_after col (new : row) : forall (old : row) k,
  (col + length new + k < length old)%nat ->
  write_cells col new old !! (col + length new + k)%nat
    = old !! (col + length new + k)%nat.
Proof.
  induction col as [|c IH]; intros old k Hk.
  - destruct old; apply lookup_overwrite_after.
  - destruct old as [|x xs]; simpl in Hk |- *; [lia|].
    apply IH. lia.
Qed.

Lemma get_paid_cells today (r : row) :
  get (write_cells 7 [VStr "Paid"; VStr today] r) 7 = VStr "Paid"
  /\ get (write_cells 7 [VStr "Paid"; VStr today] r) 8 = VStr today.
Proof.
  pose proof (lookup_write_cells_ge 7 [VStr "Paid"; VStr today] r 0 (VStr "Paid") eq_refl)
    as H7.
  pose proof (lookup_write_cells_ge 7 [VStr "Paid"; VStr today] r 1 (VStr today) eq_refl)
    as H8.
  change (7 + 0)%nat with 7%nat in H7. change (7 + 1)%nat with 8%nat in H8.
  unfold get. rewrite H7, H8. split; reflexivity.
Qed.

(** X14.  Marking a loan as paid touches two cells.  The line of the loan gets
    ['Paid'] in column H and the date in column I; every other cell of the
    line (the amount among them), every other line of the Loans sheet and
    every other sheet is as it was.  One range of two cells is written. *)
Theorem markLoanAsPaid_touches_two_cells today id (w : world F) gl i :
  sheets w !! "Loans" = Some gl ->
  InventoryUI.loanIndex (drop 1 gl) (VStr id) = Some i ->
  let w' := fst (InventoryUI.markLoanAsPaid true today (VStr id) w) in
  exists r r',
    gl !! S i = Some r
    /\ sheets w' !! "Loans" = Some (<[S i := r']> gl)
    /\ get r' 7 = VStr "Paid"
    /\ get r' 8 = VStr today
    /\ (forall j, j <> 7%nat -> j <> 8%nat -> (j < length r)%nat -> r' !! j = r !! j)
    /\ (forall t, t <> "Loans" -> sheets w' !! t = sheets w !! t)
    /\ new_events w w' = [Update (Range "Loans" 7 (i + 2)) [[VStr "Paid"; VStr today]]].
Proof.
  intros HL Hi w'. subst w'.
  rewrite (markLoanAsPaid_run _ _ _ _ _ HL Hi). cbn [fst sheets].
  destruct (loanIndex_found _ _ _ Hi) as (r & Hr & _).
  rewrite lookup_drop in Hr. change (1 + i)%nat with (S i) in Hr.
  exists r, (write_cells 7 [VStr "Paid"; VStr today] r).
  split; [exact Hr|].
  split. { rewrite lookup_insert_eq, (write_line_insert _ _ _ _ _ Hr). reflexivity. }
  split; [apply get_paid_cells|].
  split; [apply get_paid_cells|].
  split.
  { intros j H7 H8 Hj.
    destruct (Nat.lt_ge_cases j 7) as [Hlt | Hge].
    - rewrite lookup_write_cells_lt by exact Hlt.
      destruct (lookup_lt_is_Some_2 r j Hj) as [v Hv]. rewrite Hv. reflexivity.
    - replace j with (7 + length [VStr (F := F) "Paid"; VStr today] + (j - 9))%nat
        by (simpl; lia).
      apply lookup_write_cells_after. simpl. lia. }
  split.
  { intros t Ht. apply lookup_insert_ne. congruence. }
  apply new_events_app. reflexivity.
Qed.

Lemma fold_left_eachLoan (loans : grid) : forall unpaidLoans paidLoans total,
  fold_left InventoryUI.eachLoan loans (unpaidLoans, paidLoans, total) =
    ((unpaidLoans ++ List.filter Rows.unpaid loans)%list,
     (paidLoans ++ List.filter (fun r => negb (Rows.unpaid r)) loans)%list,
     fold_left (fun sum r => add sum (parseFloat (oror (get r 4) (VNum (Int 0)))))
               (List.filter Rows.unpaid loans) total).
Proof.
  induction loans as [|r rest IH]; intros u p t; cbn [fold_left List.filter].
  - rewrite !app_nil_r. reflexivity.
  - assert (Hstep : InventoryUI.eachLoan (u, p, t) r =
                    if Rows.unpaid r
                    then ((u ++ [r])%list, p,
                          add t (parseFloat (oror (get r 4) (VNum (Int 0)))))
                    else (u, (p ++ [r])%list, t)) by reflexivity.
    rewrite Hstep.
    destruct (Rows.unpaid r); cbn [negb]; rewrite IH; cbn [fold_left];
      rewrite <- ?app_assoc; reflexivity.
Qed.

Lemma filter_split_length {A} (p : A -> bool) (l : list A) :
  (length (List.filter p l) + length (List.filter (fun x => negb (p x)) l))%nat = length l.
Proof.
  induction l as [|x l IH]; [reflexivity|]. simpl.
  destruct (p x); simpl; lia.
Qed.

Lemma updateLoans_run (w : world F) header (loans : grid) :
  sheets w !! "Loans" = Some (header :: loans) ->
  exists view,
    InventoryUI.updateLoans w = (w, Ok (Some view))
    /\ InventoryUI.unpaidLoans view = List.filter Rows.unpaid loans
    /\ InventoryUI.paidLoans view = List.filter (fun r => negb (Rows.unpaid r)) loans
    /\ InventoryUI.totalUnpaidLoans view = length (InventoryUI.unpaidLoans view)
    /\ InventoryUI.totalPaidLoans view = length (InventoryUI.paidLoans view).
Proof.
  intros HL.
  eexists. split.
  { unfold InventoryUI.updateLoans, try_catch.
    rewrite (bind_ok _ _ _ _ _ (fetchData_existing _ _ _ HL)). cbn [snd drop].
    rewrite ?drop_0, fold_left_eachLoan. reflexivity. }
  cbn [InventoryUI.unpaidLoans InventoryUI.paidLoans InventoryUI.totalUnpaidLoans
       InventoryUI.totalPaidLoans app].
  repeat split.
Qed.

(** X15.  [updateLoans] splits the loans by their status.  A loan is unpaid
    when its status cell is blank or is ['Unpaid'], and paid with any
    other status; each loan is in exactly one of the two lists, in the
    order of the sheet, the two counts add up to the number of loans, and
    the amount shown is the sum over the unpaid loans alone. *)
Theorem loans_are_split_by_status (w : world F) header (loans : grid) :
  sheets w !! "Loans" = Some (header :: loans) ->
  exists view,
    InventoryUI.updateLoans w = (w, Ok (Some view))
    /\ InventoryUI.unpaidLoans view = List.filter Rows.unpaid loans
    /\ InventoryUI.paidLoans view = List.filter (fun r => negb (Rows.unpaid r)) loans
    /\ InventoryUI.totalUnpaidLoans view = length (InventoryUI.unpaidLoans view)
    /\ InventoryUI.totalPaidLoans view = length (InventoryUI.paidLoans view)
    /\ (InventoryUI.totalUnpaidLoans view + InventoryUI.totalPaidLoans view)%nat
       = length loans
    /\ InventoryUI.totalUnpaidAmount view =
         "₱" ++ toFixed2
                  (fold_left (fun sum r => add sum (parseFloat (oror (get r 4) (VNum (Int 0)))))
                             (List.filter Rows.unpaid loans) (Int 0))
    /\ (forall r : row,
          Rows.unpaid r = true <-> truthy (get r 7) = false \/ get r 7 = VStr "Unpaid").
Proof.
  intros HL.
  eexists. split.
  { unfold InventoryUI.updateLoans, try_catch.
    rewrite (bind_ok _ _ _ _ _ (fetchData_existing _ _ _ HL)). cbn [snd drop].
    rewrite ?drop_0, fold_left_eachLoan. reflexivity. }
  cbn [InventoryUI.unpaidLoans InventoryUI.paidLoans InventoryUI.totalUnpaidLoans
       InventoryUI.totalPaidLoans InventoryUI.totalUnpaidAmount app].
  do 4 (split; [reflexivity|]).
  split; [apply filter_split_length|].
  split; [reflexivity|].
  intros r. unfold Rows.unpaid, oror.
  destruct (truthy (get r 7)) eqn:E.
  - rewrite strict_eq_str. split; [auto | intros [H | H]; [discriminate | exact H]].
  - split; [auto | intros _; apply strict_eq_refl_str].
Qed.

Lemma filter_insert_length {A} (p : A -> bool) (y : A) : forall (l : list A) i x,
  l !! i = Some x ->
  (length (List.filter p (<[i := y]> l)) + (if p x then 1 else 0))%nat
  = (length (List.filter p l) + (if p y then 1 else 0))%nat.
Proof.
  induction l as [|a l IH]; intros i x H; [discriminate|].
  destruct i as [|i]; simpl in H |- *.
  - injection H as ->. destruct (p x), (p y); simpl; lia.
  - specialize (IH i x H). destruct (p a); simpl; lia.
Qed.

(** X16.  A loan that is marked as paid moves from the unpaid list to the paid
    list: the next [updateLoans] counts one unpaid loan less and one paid
    loan more, and the loan's line, with its new status and date, is among
    the paid loans. *)
Theorem paid_loan_moves_to_the_paid_list today id (w : world F) header (loans : grid) i r :
  sheets w !! "Loans" = Some (header :: loans) ->
  InventoryUI.loanIndex loans (VStr id) = Some i ->
  loans !! i = Some r ->
  Rows.unpaid r = true ->
  let w' := fst (InventoryUI.markLoanAsPaid true today (VStr id) w) in
  exists before after,
    InventoryUI.updateLoans w = (w, Ok (Some before))
    /\ InventoryUI.updateLoans w' = (w', Ok (Some after))
    /\ InventoryUI.totalUnpaidLoans before = S (InventoryUI.totalUnpaidLoans after)
    /\ InventoryUI.totalPaidLoans after = S (InventoryUI.totalPaidLoans before)
    /\ In (write_cells 7 [VStr "Paid"; VStr today] r) (InventoryUI.paidLoans after).
Proof.
  intros HL Hi Hr Hunpaid w'. subst w'.
  set (r' := write_cells 7 [VStr "Paid"; VStr today] r).
  assert (Hpaid : Rows.unpaid r' = false).
  { unfold Rows.unpaid, r'. rewrite (proj1 (get_paid_cells today r)). reflexivity. }
  assert (HL' : sheets (fst (InventoryUI.markLoanAsPaid true today (VStr id) w)) !! "Loans"
                = Some (header :: <[i := r']> loans)).
  { rewrite (markLoanAsPaid_run today id w (header :: loans) i HL Hi).
    cbn [fst sheets]. rewrite lookup_insert_eq. cbn [write_line].
    rewrite (write_line_insert _ _ _ _ _ Hr). reflexivity. }
  destruct (updateLoans_run w header loans HL)
    as (before & Rb & Ub & Pb & Nu & Np).
  destruct (updateLoans_run _ header (<[i := r']> loans) HL')
    as (after & Ra & Ua & Pa & Nu' & Np').
  exists before, after. split; [exact Rb|]. split; [exact Ra|].
  pose proof (filter_insert_length Rows.unpaid r' loans i r Hr) as H1.
  pose proof (filter_insert_length (fun x => negb (Rows.unpaid x)) r' loans i r Hr) as H2.
  cbv beta in H2. rewrite Hunpaid, Hpaid in H1, H2. cbn [negb] in H2.
  rewrite Nu, Nu', Np, Np', Ub, Ua, Pb, Pa.
  split; [lia|]. split; [lia|].
  apply filter_In. split; [|rewrite Hpaid; reflexivity].
  apply list_elem_of_In, (list_elem_of_lookup_2 _ i).
  apply list_lookup_insert_eq. apply lookup_lt_Some in Hr. exact Hr.
Qed.

Lemma parseInt_positive (v : value F) :
  gt (parseInt v) (Int 0) = true -> exists z, parseInt v = Int z /\ 0 < z.
Proof.
  unfold parseInt. destruct (parse_int_cases (F := F) (ToString v)) as [-> | [z ->]].
  - discriminate.
  - simpl. intros H. apply Z.ltb_lt in H. eauto.
Qed.

Lemma parseInt_checked (v : value F) :
  isNaN (parseInt v) || le (parseInt v) (Int 0) = false ->
  exists z, parseInt v = Int z /\ 0 < z.
Proof.
  unfold parseInt. destruct (parse_int_cases (F := F) (ToString v)) as [-> | [z ->]].
  - discriminate.
  - simpl. intros H. apply Z.leb_gt in H. eauto.
Qed.

(** A line of a bulk sale as the form checks it: it comes from an input
    of the form, its quantity is the number typed there, which is above 0
    and not above the [maxQty] of the input. *)
Lemma pick_lines (qtyInputs : list QtyInput.t) :
  forall (inputs : list QtyInput.t) (selectedItems : list (Selected.t F))
         totalCost n selected cost total,
  (forall input, In input inputs -> In input qtyInputs) ->
  InventoryUI.pick inputs selectedItems totalCost (Int n) = InventoryUI.Picked selected cost total ->
  let line := fun item : Selected.t F =>
                BulkItem.Make (VStr (Selected.itemId item)) (VNum (Selected.qty item)) in
  let checked := fun l : BulkItem.t F =>
    exists input z,
      In input qtyInputs
      /\ BulkItem.itemId l = VStr (QtyInput.itemId input)
      /\ BulkItem.qty l = VNum (Int z)
      /\ parseInt (oror (VStr (QtyInput.value input)) (VNum (Int 0))) = Int z
      /\ 0 < z
      /\ gt (Int z) (parseInt (oror (VStr (QtyInput.maxQty input)) (VNum (Int 0)))) = false in
  Forall checked (map line selectedItems) ->
  Rows.pieces (map line selectedItems) = n ->
  Forall checked (map line selected)
  /\ total = Int (Rows.pieces (map line selected))
  /\ (length selectedItems <= length selected)%nat.
Proof.
  induction inputs as [|input rest IH];
    intros sel cost0 n selected cost total Hin Hpick line checked Hsel Hn.
  - simpl in Hpick. injection Hpick as <- <- <-. rewrite Hn. auto.
  - cbn [InventoryUI.pick] in Hpick. cbv zeta in Hpick.
    destruct (gt (parseInt (oror (VStr (QtyInput.value input)) (VNum (Int 0)))) (Int 0))
      eqn:Epos.
    + destruct (parseInt_positive _ Epos) as (z & Hz & Hzpos).
      rewrite Hz in Hpick.
      destruct (gt (Int z) (parseInt (oror (VStr (QtyInput.maxQty input)) (VNum (Int 0)))))
        eqn:Emax; [discriminate|].
      change (add (Int n) (Int z)) with (Int (F := F) (n + z)) in Hpick.
      assert (Hline : Rows.pieces (map line (sel ++ [Selected.Make (QtyInput.itemId input)
                        (QtyInput.itemName input) (QtyInput.flavor input)
                        (QtyInput.version input) (Int z)
                        (parseFloat (oror (VStr (QtyInput.price input)) (VNum (Int 0))))]))
                      = n + z).
      { rewrite map_app. unfold Rows.pieces. rewrite fold_right_app. cbn [map fold_right line
          BulkItem.qty Selected.qty]. rewrite Z.add_0_r.
        clear - Hn. unfold Rows.pieces in Hn. rewrite <- Hn.
        generalize (map line sel). intros l. induction l as [|a l IHl]; simpl; [lia|].
        destruct (BulkItem.qty a) as [| |?|[|?|?]|?]; try exact IHl. rewrite IHl. lia. }
      edestruct (IH _ _ _ selected cost total (fun i Hi => Hin i (or_intror Hi)) Hpick)
        as (H1 & H2 & H3); [| exact Hline |].
      * rewrite map_app. apply Forall_app. split; [exact Hsel|].
        constructor; [|constructor].
        exists input, z. cbn [line BulkItem.itemId BulkItem.qty Selected.itemId Selected.qty].
        split; [apply Hin; left; reflexivity|]. auto.
      * split; [exact H1|]. split; [exact H2|].
        rewrite length_app in H3. simpl in H3. lia.
    + apply (IH _ _ _ selected cost total (fun i Hi => Hin i (or_intror Hi)) Hpick);
        assumption.
Qed.

(** The branch of [prepare] that builds a bulk sale, once the quantity
    [q] is checked. *)
Ltac bulk_branch form q Hpos :=
  set (P := parseFloat (oror (VStr (SalesForm.bulkSalePrice form)) (VStr "0")));
  destruct (isNaN P || le P (Int 0)) eqn:Ep; [intros H; discriminate H|];
  apply Bool.orb_false_elim in Ep; destruct Ep as [Ep1 Ep2];
  destruct (InventoryUI.pick (SalesForm.qtyInputs form) [] (Int 0) (Int 0))
    as [selected cost total | msg] eqn:Epick; [|intros H; discriminate H];
  destruct (length selected =? 0)%nat eqn:Elen; [intros H; discriminate H|];
  destruct (negb (number_eqb total (Int q))) eqn:Esum; [intros H; discriminate H|];
  intros H; injection H as <-;
  cbn [Sale.quantitySold Sale.appliedPrice Sale.pricePerUnit Sale.bulkItems
       Sale.saleType Sale.itemId];
  split; [eauto|]; split; [eauto|];
  destruct (pick_lines (SalesForm.qtyInputs form) (SalesForm.qtyInputs form) [] (Int 0) 0
              selected cost total (fun _ Hi => Hi) Epick (List.Forall_nil _) eq_refl)
    as (Hlines & Htotal & _);
  split; [destruct selected; discriminate|];
  split; [exact Hlines|];
  rewrite Htotal in Esum; apply Bool.negb_false_iff in Esum;
  cbn [number_eqb] in Esum; apply Z.eqb_eq in Esum; rewrite Esum; reflexivity.

(** X17.  Every sale that the sales form sends is checked.  Its quantity is a
    whole number above 0 and its price is a number above 0.  A retail sale
    names an item.  The lines of a bulk sale are not empty; each comes
    from an input of the form whose number is above 0 and not above its
    [maxQty]; and the pieces of the lines add up to the quantity of the
    sale.  In particular the form never sends a line with a negative
    quantity. *)
Theorem sales_form_sends_checked_sales (form : SalesForm.t) (sale : Sale.t F) :
  InventoryUI.prepare form = InventoryUI.Send sale ->
  (exists q, Sale.quantitySold sale = VNum (Int q) /\ 0 < q)
  /\ (exists p, Sale.appliedPrice sale = VNum p /\ Sale.pricePerUnit sale = VNum p
                /\ isNaN p = false /\ le p (Int 0) = false)
  /\ match Sale.bulkItems sale with
     | None =>
         Sale.saleType sale = VStr "retail"
         /\ exists id, Sale.itemId sale = VStr id /\ id <> ""
     | Some lines =>
         lines <> []
         /\ Forall (fun l : BulkItem.t F =>
                      exists input z,
                        In input (SalesForm.qtyInputs form)
                        /\ BulkItem.itemId l = VStr (QtyInput.itemId input)
                        /\ BulkItem.qty l = VNum (Int z)
                        /\ parseInt (oror (VStr (QtyInput.value input)) (VNum (Int 0))) = Int z
                        /\ 0 < z
                        /\ gt (Int z) (parseInt (oror (VStr (QtyInput.maxQty input))
                                                      (VNum (Int 0)))) = false)
                   lines
         /\ Sale.quantitySold sale = VNum (Int (Rows.pieces lines))
     end.
Proof.
  unfold InventoryUI.prepare. cbv zeta.
  remember (ToString (oror (VStr (SalesForm.saleType form)) (VStr "retail")))
    as saleType eqn:Est.
  destruct (String.eqb saleType "bulk") eqn:Ebulk.
  - apply String.eqb_eq in Ebulk. rewrite Ebulk.
    change (String.eqb "bulk" "retail") with false.
    set (Q := parseInt (oror (VStr (SalesForm.bulkSaleQuantity form)) (VStr "0"))).
    destruct (isNaN Q || le Q (Int 0)) eqn:Eq; [intros H; discriminate H|].
    destruct (parseInt_checked _ Eq) as (q & Hq & Hpos).
    unfold Q. rewrite Hq. cbv beta iota.
    bulk_branch form q Hpos.
  - set (Q := parseInt (oror (VStr (SalesForm.saleQuantity form)) (VStr "0"))).
    destruct (negb (truthy (VStr (SalesForm.retailFlavorSelect form)))
              || isNaN Q || le Q (Int 0)) eqn:Eq; [intros H; discriminate H|].
    rewrite <- Bool.orb_assoc in Eq. apply Bool.orb_false_elim in Eq.
    destruct Eq as [Eid Eq].
    destruct (parseInt_checked _ Eq) as (q & Hq & Hpos).
    unfold Q. rewrite Hq. cbv beta iota.
    destruct (String.eqb saleType "retail") eqn:Eretail.
    + set (P := parseFloat (oror (VStr (SalesForm.retailPrice form)) (VStr "0"))).
      destruct (isNaN P || le P (Int 0)) eqn:Ep; [intros H; discriminate H|].
      apply Bool.orb_false_elim in Ep. destruct Ep as [Ep1 Ep2].
      intros H. injection H as <-.
      cbn [Sale.quantitySold Sale.appliedPrice Sale.pricePerUnit Sale.bulkItems
           Sale.saleType Sale.itemId].
      split; [eauto|]. split; [eauto|].
      apply String.eqb_eq in Eretail.
      split; [rewrite Eretail; reflexivity|].
      eexists. split; [reflexivity|].
      intros Hempty. rewrite Hempty in Eid. discriminate Eid.
    + bulk_branch form q Hpos.
Qed.

Lemma parseInt_sent (q : Z) :
  parseInt (F := F) (oror (VNum (Int q)) (VNum (Int 0))) = Int q.
Proof.
  unfold oror. cbn [truthy number_truthy].
  destruct (q =? 0) eqn:E; cbn [negb]; unfold parseInt; cbn [ToString number_to_string].
  - apply Z.eqb_eq in E. subst. reflexivity.
  - apply parse_int_string_of_Z.
Qed.

(** A single-item sale that passes the checks, with the Inventory sheet
    that it leaves. *)
Lemma single_sale_world c b sale (w : world F) gi i q e :
  truthy (Server.spreadsheetId b) = true ->
  Server.sale b = Some sale ->
  Sale.bulkItems sale = None ->
  sheets w !! "Inventory" = Some gi ->
  truthy (Sale.itemId sale) = true ->
  Server.findIndex gi (Sale.itemId sale) = Some i ->
  parseInt (oror (Sale.quantitySold sale) (VNum (Int 0))) = Int q ->
  0 < q ->
  quantity_of (get (default [] (gi !! i)) 5) = Int e ->
  q <= e ->
  exists w' saleRow,
    Server.recordSale c b w =
      (w', Ok (Server.Status200
                 (Server.Recorded (string_of_Z (Server.now c)) (Some (Int (e - q))))))
    /\ sheets w' !! "Inventory" = Some (write_line i 5 [VStr (string_of_Z (e - q))] gi)
    /\ appended "Sales" (new_events w w') = [saleRow]
    /\ get saleRow 4 = VNum (Int q).
Proof.
  intros Hid Hsale Hsingle HI Hitem Hfind Hq Hpos Hex Hle.
  destruct (recordSale_prelude c b sale w gi Hid Hsale HI)
    as (w0 & pre & gs & gl & HS & HL & HI0 & K & L & D & R).
  edestruct (recordSingle_ok c sale gi w0 gs gl gi i HS HL HI0 Hitem Hfind)
    as (w' & saleRow & loanRows & Rs & Ls & Is & _ & G4 & _).
  { rewrite Hq. simpl. apply Z.leb_gt. exact Hpos. }
  { rewrite Hq, Hex. simpl. apply Z.ltb_ge. exact Hle. }
  rewrite Hq, Hex in Rs, Ls, Is. simpl sub in Rs, Ls, Is.
  simpl number_to_string in Ls, Is. rewrite Hq in G4.
  exists w', saleRow.
  split. { rewrite R, Hsingle. apply respond_ok. exact Rs. }
  split; [exact Is|]. split; [|exact G4].
  rewrite (new_events_app w w' (pre ++ Append "Sales" saleRow
             :: map (Append "Loans") loanRows
             ++ [Update (Range "Inventory" 5 (i + 1)) [[VStr (string_of_Z (e - q))]]])%list).
  - rewrite appended_app, (appended_setup _ _ D). cbn [appended flat_map app].
    change (String.eqb "Sales" "Sales") with true. cbv iota. cbn [app]. f_equal.
    fold (appended "Sales" (map (Append "Loans") loanRows
            ++ [Update (Range "Inventory" 5 (i + 1)) [[VStr (string_of_Z (e - q))]]])%list).
    rewrite appended_app, (proj2 (appended_loans loanRows)). reflexivity.
  - rewrite Ls, L, <- !app_assoc. reflexivity.
Qed.

(** A single-item sale of more than the stock, with the world it leaves. *)
Lemma single_sale_short c b sale (w : world F) gi i q e :
  truthy (Server.spreadsheetId b) = true ->
  Server.sale b = Some sale ->
  Sale.bulkItems sale = None ->
  sheets w !! "Inventory" = Some gi ->
  truthy (Sale.itemId sale) = true ->
  Server.findIndex gi (Sale.itemId sale) = Some i ->
  parseInt (oror (Sale.quantitySold sale) (VNum (Int 0))) = Int q ->
  0 < q ->
  quantity_of (get (default [] (gi !! i)) 5) = Int e ->
  e < q ->
  exists w',
    Server.recordSale c b w = (w', Ok (Server.Status500 "Insufficient stock"))
    /\ appended "Sales" (new_events w w') = []
    /\ flat_map quantity_writes (new_events w w') = []
    /\ sheets w' !! "Inventory" = Some gi.
Proof.
  intros Hid Hsale Hsingle HI Hitem Hfind Hq Hpos Hex Hlt.
  destruct (recordSale_prelude c b sale w gi Hid Hsale HI)
    as (w0 & pre & gs & gl & HS & HL & HI0 & K & L & D & R).
  assert (Rs : Server.recordSingle c sale gi w0 = (w0, Throw (Error "Insufficient stock"))).
  { unfold Server.recordSingle. rewrite Hitem. cbn [negb]. rewrite Hfind. cbv zeta.
    unfold quantity_of in Hex. rewrite Hq, Hex. simpl.
    replace (q <=? 0) with false by (symmetry; apply Z.leb_gt; exact Hpos).
    replace (e <? q) with true by (symmetry; apply Z.ltb_lt; exact Hlt).
    reflexivity. }
  exists w0. rewrite (new_events_app _ _ _ L).
  split. { rewrite R, Hsingle. apply respond_throw. exact Rs. }
  split; [apply appended_setup, D|].
  split; [|exact HI0].
  pose proof (quantity_writes_setup _ D) as Hq'. clear - Hq'.
  induction Hq' as [|ev l He _ IH]; [reflexivity|]. simpl. rewrite He, IH. reflexivity.
Qed.

(** The sale that the form builds for a retail sale that passes its
    checks. *)
Lemma prepare_retail (form : SalesForm.t) q p :
  SalesForm.saleType form = "retail" ->
  SalesForm.retailFlavorSelect form <> "" ->
  parseInt (oror (VStr (SalesForm.saleQuantity form)) (VStr "0")) = Int q ->
  0 < q ->
  parseFloat (oror (VStr (SalesForm.retailPrice form)) (VStr "0")) = p ->
  isNaN p = false ->
  le p (Int 0) = false ->
  InventoryUI.prepare (F := F) form =
    InventoryUI.Send
      (Sale.Make (VStr (SalesForm.retailFlavorSelect form)) (VNum (Int q)) (VNum p) (VNum p)
                 (VStr (SalesForm.retailPaymentMethod form))
                 (VStr (SalesForm.saleCustomer form)) (VStr (SalesForm.saleDate form))
                 (VStr (SalesForm.saleNotes form)) (VStr "retail") None).
Proof.
  intros Htype Hid Hq Hpos Hp Hnan Hle.
  unfold InventoryUI.prepare. cbv zeta. rewrite Htype.
  change (ToString (oror (VStr (F := F) "retail") (VStr "retail"))) with "retail".
  change (String.eqb "retail" "bulk") with false.
  change (String.eqb "retail" "retail") with true. cbv iota.
  rewrite Hq, Hp.
  assert (Ht : truthy (VStr (F := F) (SalesForm.retailFlavorSelect form)) = true).
  { cbn [truthy]. apply Bool.negb_true_iff, String.eqb_neq. exact Hid. }
  rewrite Ht. cbn [negb isNaN le orb].
  replace (q <=? 0) with false by (symmetry; apply Z.leb_gt; exact Hpos).
  cbv iota. rewrite Hnan, Hle. reflexivity.
Qed.

(** X18.  A retail sale from the form to the sheet and back.  For a form that
    passes its checks and an item that the Inventory sheet has: when the
    quantity is at most the stock, one sale record is appended with that
    quantity, the stored quantity is the stock less the quantity, the page
    shows a success and its copy of the inventory is reloaded from the
    sheet, so that it holds the new quantity; when the quantity is above the
    stock, the page shows the error of the server, nothing is recorded or
    written, and the page keeps its copy. *)
Theorem retail_form_sale_reaches_the_sheet c sheetId (items : grid) (form : SalesForm.t)
    (w : world F) gi i q p e :
  truthy sheetId = true ->
  SalesForm.saleType form = "retail" ->
  SalesForm.retailFlavorSelect form <> "" ->
  parseInt (oror (VStr (SalesForm.saleQuantity form)) (VStr "0")) = Int q ->
  0 < q ->
  parseFloat (oror (VStr (SalesForm.retailPrice form)) (VStr "0")) = p ->
  isNaN p = false ->
  le p (Int 0) = false ->
  sheets w !! "Inventory" = Some gi ->
  Server.findIndex gi (VStr (SalesForm.retailFlavorSelect form)) = Some i ->
  quantity_of (get (default [] (gi !! i)) 5) = Int e ->
  let run := InventoryUI.handleSalesSubmit c sheetId items form w in
  (q <= e ->
   snd run = Ok ([InventoryUI.showSuccess
                    (InventoryUI.icon "check_circle"
                     ++ " Sale recorded and inventory updated")],
                 drop 1 (write_line i 5 [VStr (string_of_Z (e - q))] gi))
   /\ sheets (fst run) !! "Inventory" = Some (write_line i 5 [VStr (string_of_Z (e - q))] gi)
   /\ stored_quantity (fst run) i = Some (Int (e - q))
   /\ exists saleRow,
        appended "Sales" (new_events w (fst run)) = [saleRow]
        /\ get saleRow 4 = VNum (Int q))
  /\ (e < q ->
      snd run = Ok ([InventoryUI.showError
                       (InventoryUI.icon "error"
                        ++ " Failed to record sale: Insufficient stock")],
                    items)
      /\ sheets (fst run) !! "Inventory" = Some gi
      /\ appended "Sales" (new_events w (fst run)) = []
      /\ flat_map quantity_writes (new_events w (fst run)) = []).
Proof.
  intros Hsheet Htype Hid Hq Hpos Hp Hnan Hle HI Hfind Hex run. subst run.
  set (sale := Sale.Make (VStr (SalesForm.retailFlavorSelect form)) (VNum (Int q)) (VNum p)
                 (VNum p) (VStr (SalesForm.retailPaymentMethod form))
                 (VStr (SalesForm.saleCustomer form)) (VStr (SalesForm.saleDate form))
                 (VStr (SalesForm.saleNotes form)) (VStr (F := F) "retail") None).
  assert (Hprep : InventoryUI.prepare (F := F) form = InventoryUI.Send sale).
  { apply prepare_retail; assumption. }
  assert (Hjson : SheetsAPI.json_sale sale = sale).
  { unfold SheetsAPI.json_sale, sale. cbn [Sale.itemId Sale.quantitySold Sale.appliedPrice
      Sale.pricePerUnit Sale.paymentMethod Sale.customer Sale.date Sale.notes Sale.saleType
      Sale.bulkItems option_map SheetsAPI.json_field isNaN]. rewrite Hnan. reflexivity. }
  assert (Hid' : truthy (SheetsAPI.json_field sheetId) = true).
  { destruct sheetId as [| |x|n|s]; try exact Hsheet. cbn [SheetsAPI.json_field].
    destruct (isNaN n) eqn:En; [|exact Hsheet].
    destruct n as [|z|f]; cbn in Hsheet, En; try discriminate.
    rewrite En, Bool.orb_true_r in Hsheet. discriminate. }
  assert (Hitem : truthy (Sale.itemId sale) = true).
  { cbn [sale Sale.itemId truthy]. apply Bool.negb_true_iff, String.eqb_neq. exact Hid. }
  assert (Hqty : parseInt (oror (Sale.quantitySold sale) (VNum (Int 0))) = Int q).
  { apply parseInt_sent. }
  unfold InventoryUI.handleSalesSubmit. rewrite Hprep. unfold try_catch.
  split.
  - intros Hfit.
    destruct (single_sale_world c (Server.Body (SheetsAPI.json_field sheetId) (Some sale))
                sale w gi i q e Hid' eq_refl eq_refl HI Hitem Hfind Hqty Hpos Hex Hfit)
      as (w' & saleRow & R & Is & A & G4).
    assert (Hrun : (await SheetsAPI.recordSale c sheetId sale;
                    let* items0 := InventoryManager.loadInventory in
                    ret ([InventoryUI.showSuccess
                            (InventoryUI.icon "check_circle"
                             ++ " Sale recorded and inventory updated")], items0)) w
                   = (w', Ok ([InventoryUI.showSuccess
                                 (InventoryUI.icon "check_circle"
                                  ++ " Sale recorded and inventory updated")],
                              drop 1 (write_line i 5 [VStr (string_of_Z (e - q))] gi)))).
    { erewrite bind_ok; cycle 1.
      { unfold SheetsAPI.recordSale. rewrite Hjson. rewrite (bind_ok _ _ _ _ _ R).
        reflexivity. }
      rewrite (bind_ok _ _ _ _ _ (loadInventory_existing _ _ Is)). reflexivity. }
    rewrite Hrun. cbn [fst snd].
    split; [reflexivity|]. split; [exact Is|].
    split; [|eauto].
    unfold stored_quantity. rewrite Is, lookup_write_line.
    rewrite get_write_cells_str. rewrite quantity_of_digits. reflexivity.
  - intros Hshort.
    destruct (single_sale_short c (Server.Body (SheetsAPI.json_field sheetId) (Some sale))
                sale w gi i q e Hid' eq_refl eq_refl HI Hitem Hfind Hqty Hpos Hex Hshort)
      as (w' & R & A & Qw & Is).
    assert (Hrun : (await SheetsAPI.recordSale c sheetId sale;
                    let* items0 := InventoryManager.loadInventory in
                    ret ([InventoryUI.showSuccess
                            (InventoryUI.icon "check_circle"
                             ++ " Sale recorded and inventory updated")], items0)) w
                   = (w', Throw (Error "Insufficient stock"))).
    { apply bind_throw. unfold SheetsAPI.recordSale. rewrite Hjson.
      rewrite (bind_ok _ _ _ _ _ R). reflexivity. }
    rewrite Hrun. cbn [fst snd message].
    split; [reflexivity|]. split; [exact Is|]. split; assumption.
Qed.

Lemma length_overwrite (new : row) : forall old : row,
  (length new <= length (overwrite new old))%nat.
Proof.
  induction new as [|v vs IH]; intros old; [simpl; lia|].
  destruct old as [|x xs]; simpl.
  - specialize (IH []). lia.
  - specialize (IH xs). lia.
Qed.

(** The test of [init]: the header line is short of a column or has no
    ['Cost']. *)
Lemma header_with_cost (old : row) :
  (length (overwrite InventoryManager.expectedHeaders old)
     <? length (InventoryManager.expectedHeaders (F := F)))%nat
  || negb (existsb (same_value_zero (VStr "Cost"))
                   (overwrite InventoryManager.expectedHeaders old)) = false.
Proof.
  apply Bool.orb_false_intro.
  - apply Nat.ltb_ge, length_overwrite.
  - apply Bool.negb_false_iff, existsb_exists. exists (VStr "Cost").
    split; [|reflexivity].
    apply list_elem_of_In, (list_elem_of_lookup_2 _ 9).
    apply (lookup_overwrite InventoryManager.expectedHeaders old 9 (VStr "Cost") eq_refl).
Qed.

Lemma init_settled headers (w : world F) g :
  sheets w !! "Inventory" = Some g ->
  (length (default [] (g !! 0%nat)) <? length (InventoryManager.expectedHeaders (F := F)))%nat
  || negb (existsb (same_value_zero (VStr "Cost")) (default [] (g !! 0%nat))) = false ->
  InventoryManager.init headers w = (w, Ok (None, (default [] (g !! 0%nat), drop 1 g))).
Proof.
  intros HI Hcond. unfold InventoryManager.init, InventoryManager.load, try_catch.
  erewrite bind_ok; cycle 1.
  { rewrite (bind_ok _ _ _ _ _ (fetchData_existing _ _ _ HI)). reflexivity. }
  cbn [fst snd]. rewrite Hcond. reflexivity.
Qed.

Lemma init_upgrade headers (w : world F) g :
  sheets w !! "Inventory" = Some g ->
  (length (default [] (g !! 0%nat)) <? length (InventoryManager.expectedHeaders (F := F)))%nat
  || negb (existsb (same_value_zero (VStr "Cost")) (default [] (g !! 0%nat))) = true ->
  InventoryManager.init headers w =
    (World (<["Inventory" := write_line 0 0 InventoryManager.expectedHeaders g]> (sheets w))
           (log w ++ [Update (Range "Inventory" 0 1) [InventoryManager.expectedHeaders]])%list,
     Ok (None, (InventoryManager.expectedHeaders, drop 1 g))).
Proof.
  intros HI Hcond. unfold InventoryManager.init, InventoryManager.load, try_catch.
  erewrite bind_ok; cycle 1.
  { rewrite (bind_ok _ _ _ _ _ (fetchData_existing _ _ _ HI)). reflexivity. }
  cbn [fst snd]. rewrite Hcond.
  erewrite bind_ok; cycle 1.
  { apply updateRange_run. exact HI. }
  reflexivity.
Qed.

Lemma drop_write_line_0 col (new : row) (g : grid) :
  drop 1 (write_line 0 col new g) = drop 1 g.
Proof. destruct g; reflexivity. Qed.

(** X19.  [init] makes sure that the header line of the Inventory sheet has the
    Cost column.  On a spreadsheet without an Inventory sheet, the read
    route creates the sheet with its nine headers and [init] then writes
    the ten headers over them.  On a sheet whose header line is short of
    ten cells or has no ['Cost'], the ten headers are written over the
    header line and the data lines are untouched.  Otherwise nothing is
    written.  In every case a second [init] writes nothing. *)
Theorem init_adds_the_cost_header headers (w : world F) :
  let run := InventoryManager.init headers w in
  (sheets w !! "Inventory" = None ->
   snd run = Ok (None, (InventoryManager.expectedHeaders, []))
   /\ sheets (fst run) !! "Inventory" = Some [InventoryManager.expectedHeaders])
  /\ (forall g, sheets w !! "Inventory" = Some g ->
      let header := default [] (g !! 0%nat) in
      if (length header <? length (InventoryManager.expectedHeaders (F := F)))%nat
         || negb (existsb (same_value_zero (VStr "Cost")) header)
      then snd run = Ok (None, (InventoryManager.expectedHeaders, drop 1 g))
           /\ sheets (fst run) !! "Inventory"
              = Some (write_line 0 0 InventoryManager.expectedHeaders g)
           /\ drop 1 (write_line 0 0 InventoryManager.expectedHeaders g) = drop 1 g
           /\ new_events w (fst run)
              = [Update (Range "Inventory" 0 1) [InventoryManager.expectedHeaders]]
      else run = (w, Ok (None, (header, drop 1 g))))
  /\ (forall headers', fst (InventoryManager.init headers' (fst run)) = fst run).
Proof.
  intros run. subst run.
  destruct (sheets w !! "Inventory") as [g|] eqn:HI.
  - split; [discriminate|].
    destruct ((length (default [] (g !! 0%nat))
                 <? length (InventoryManager.expectedHeaders (F := F)))%nat
              || negb (existsb (same_value_zero (VStr "Cost")) (default [] (g !! 0%nat))))
      eqn:Hcond.
    + rewrite (init_upgrade _ _ _ HI Hcond). cbn [fst snd sheets].
      split.
      { intros g' [= <-]. cbv zeta. rewrite Hcond.
        split; [reflexivity|]. split; [apply lookup_insert_eq|].
        split; [apply drop_write_line_0|]. apply new_events_app. reflexivity. }
      intros headers'. erewrite init_settled; [reflexivity | apply lookup_insert_eq |].
      rewrite lookup_write_line. cbn [default from_option id write_cells].
      apply header_with_cost.
    + rewrite (init_settled _ _ _ HI Hcond). cbn [fst snd].
      split.
      { intros g' [= <-]. cbv zeta. rewrite Hcond. reflexivity. }
      intros headers'. rewrite (init_settled _ _ _ HI Hcond). reflexivity.
  - assert (Hrun : InventoryManager.init headers w =
                   (World (<["Inventory" := [InventoryManager.expectedHeaders]]>
                             (<["Inventory" := [Server.inventory_headers]]>
                                (<["Inventory" := []]> (sheets w))))
                          (log w ++ [AddSheet "Inventory";
                                     Update (Range "Inventory" 0 1) [Server.inventory_headers];
                                     Update (Range "Inventory" 0 1)
                                            [InventoryManager.expectedHeaders]])%list,
                    Ok (None, (InventoryManager.expectedHeaders, [])))).
    { pose proof (fetchData_inventory_missing w HI) as Hl.
      unfold InventoryManager.init, InventoryManager.load, try_catch.
      erewrite bind_ok; cycle 1.
      { rewrite (bind_ok _ _ _ _ _ Hl). reflexivity. }
      cbn [fst snd].
      change ((length (Server.inventory_headers (F := F))
                 <? length (InventoryManager.expectedHeaders (F := F)))%nat) with true.
      cbn [orb].
      erewrite bind_ok; cycle 1.
      { apply updateRange_run. cbn [sheets]. apply lookup_insert_eq. }
      cbn [sheets log]. rewrite <- app_assoc. reflexivity. }
    rewrite Hrun. cbn [fst snd sheets].
    split; [intros _; split; [reflexivity | apply lookup_insert_eq]|].
    split; [discriminate|].
    intros headers'. erewrite init_settled; [reflexivity | apply lookup_insert_eq |].
    cbn [lookup list_lookup default from_option id]. reflexivity.
Qed.

Lemma fold_add_quantities (items : grid) : forall n,
  (forall item, In item items ->
                exists z, parseInt (oror (get item 5) (VNum (Int 0))) = Int z) ->
  fold_left (fun sum item => add sum (parseInt (oror (get item 5) (VNum (Int 0)))))
            items (Int n)
  = Int (n + Rows.stock items).
Proof.
  induction items as [|item rest IH]; intros n H; simpl.
  - rewrite Z.add_0_r. reflexivity.
  - destruct (H item (or_introl eq_refl)) as [z Hz]. rewrite Hz. cbn [add].
    rewrite IH by (intros i Hi; apply H; right; exact Hi).
    f_equal. lia.
Qed.

Lemma add_NaN_r (a : number F) : add a NaN = NaN.
Proof. destruct a; reflexivity. Qed.

Lemma fold_add_NaN {A} (f : A -> number F) (l : list A) :
  fold_left (fun sum x => add sum (f x)) l NaN = NaN.
Proof. induction l as [|x l IH]; [reflexivity | exact IH]. Qed.

Lemma fold_add_unparsed (items : grid) : forall sum,
  (exists item, In item items /\ parseInt (oror (get item 5) (VNum (Int 0))) = NaN) ->
  fold_left (fun sum item => add sum (parseInt (oror (get item 5) (VNum (Int 0)))))
            items sum
  = NaN.
Proof.
  induction items as [|item rest IH]; intros sum (bad & Hin & Hbad); [destruct Hin|].
  simpl. destruct Hin as [<- | Hin].
  - rewrite Hbad, add_NaN_r. apply (fold_add_NaN (fun item => parseInt _)).
  - apply IH. eauto.
Qed.

Lemma set_of_spec (values : list (value F)) : forall seen,
  let result :=
    fold_left (fun seen v => if existsb (same_value_zero v) seen then seen
                             else (seen ++ [v])%list) values seen in
  (length result <= length seen + length values)%nat
  /\ (forall v, In v seen -> In v result)
  /\ (forall s, In (VStr s) values -> In (VStr s) result)
  /\ (forall v, In v result -> In v seen \/ In v values).
Proof.
  induction values as [|v rest IH]; intros seen; simpl.
  - split; [lia|]. split; [auto|]. split; [intros s []|auto].
  - destruct (existsb (same_value_zero v) seen) eqn:E.
    + destruct (IH seen) as (L & K & S & B).
      split; [lia|]. split; [exact K|]. split.
      * intros s [-> | Hs]; [|apply S, Hs].
        apply existsb_exists in E. destruct E as (x & Hx & Hsame).
        cbn [same_value_zero] in Hsame. apply K.
        destruct x as [| |?|?|t]; try discriminate.
        simpl in Hsame. apply String.eqb_eq in Hsame. subst. exact Hx.
      * intros x Hx. destruct (B x Hx); auto.
    + destruct (IH (seen ++ [v])%list) as (L & K & S & B).
      rewrite length_app in L. simpl in L.
      split; [lia|]. split; [intros x Hx; apply K, in_or_app; auto|]. split.
      * intros s [-> | Hs]; [|apply S, Hs].
        apply K, in_or_app. right. left. reflexivity.
      * intros x Hx. destruct (B x Hx) as [Hs | Hr]; [|auto].
        apply in_app_or in Hs. destruct Hs as [Hs | [<- | []]]; auto.
Qed.

Lemma filter_disjoint_length {A} (p q : A -> bool) (l : list A) :
  (forall x, p x = true -> q x = false) ->
  (length (List.filter p l) + length (List.filter q l) <= length l)%nat.
Proof.
  intros H. induction l as [|x l IH]; [reflexivity|]. simpl.
  destruct (p x) eqn:Ep.
  - rewrite (H x Ep). simpl. lia.
  - destruct (q x); simpl; lia.
Qed.

(** X20.  What [getAnalytics] counts.  The two category counts are at most the
    number of items; the brands are names of items, every text name of an
    item is among them, and there are at most as many brands as items; the
    total quantity is the sum of the quantity cells when each of them is
    blank or a whole number, and it is [NaN] as soon as one of them is
    neither. *)
Theorem analytics_count_the_inventory (items : grid) :
  let a := InventoryManager.getAnalytics items in
  InventoryManager.totalItems a = length items
  /\ (InventoryManager.juiceItems a + InventoryManager.deviceItems a
      <= InventoryManager.totalItems a)%nat
  /\ InventoryManager.totalBrands a = length (InventoryManager.brands a)
  /\ (InventoryManager.totalBrands a <= InventoryManager.totalItems a)%nat
  /\ (forall item s, In item items -> get item 2 = VStr s ->
                     In (VStr s) (InventoryManager.brands a))
  /\ (forall v, In v (InventoryManager.brands a) ->
                exists item, In item items /\ get item 2 = v)
  /\ ((forall item, In item items ->
                    exists z, parseInt (oror (get item 5) (VNum (Int 0))) = Int z) ->
      InventoryManager.totalQuantity a = Int (Rows.stock items))
  /\ ((exists item, In item items
                    /\ parseInt (oror (get item 5) (VNum (Int 0))) = NaN) ->
      InventoryManager.totalQuantity a = NaN).
Proof.
  intros a. subst a. unfold InventoryManager.getAnalytics. cbv zeta.
  cbn [InventoryManager.totalItems InventoryManager.juiceItems InventoryManager.deviceItems
       InventoryManager.totalBrands InventoryManager.brands InventoryManager.totalQuantity].
  destruct (set_of_spec (map (fun item : row => get item 2) items) []) as (L & _ & S & B).
  cbv zeta in L, S, B. fold (set_of (map (fun item : row => get item 2) items)) in L, S, B.
  split; [reflexivity|].
  split.
  { apply filter_disjoint_length. intros item Hj.
    apply strict_eq_str in Hj. rewrite Hj. reflexivity. }
  split; [reflexivity|].
  split. { rewrite length_map in L. simpl in L. exact L. }
  split.
  { intros item s Hin Hname. apply S. rewrite <- Hname.
    apply (in_map (fun item : row => get item 2)). exact Hin. }
  split.
  { intros v Hv. destruct (B v Hv) as [[] | Hm].
    apply in_map_iff in Hm. destruct Hm as (item & Hname & Hin). eauto. }
  split.
  { intros H. rewrite (fold_add_quantities items 0 H). reflexivity. }
  apply fold_add_unparsed.
Qed.

(** X21.  The low stock list needs a number.  An item is listed exactly when
    its quantity cell parses to a whole number below 10 (a negative number
    too).  An item whose quantity cell is blank or missing is never listed,
    although [getAnalytics] counts it as 0 pieces. *)
Theorem low_stock_needs_a_number (items : grid) (item : row) :
  (In item (InventoryManager.getLowStockItems items)
   <-> In item items /\ exists z, parseInt (get item 5) = Int z /\ z < 10)
  /\ (get item 5 = VStr "" \/ get item 5 = VUndefined ->
      ~ In item (InventoryManager.getLowStockItems items)
      /\ parseInt (oror (get item 5) (VNum (Int 0))) = Int 0).
Proof.
  assert (Hiff : In item (InventoryManager.getLowStockItems items)
                 <-> In item items /\ exists z, parseInt (get item 5) = Int z /\ z < 10).
  { unfold InventoryManager.getLowStockItems. rewrite filter_In.
    split; intros [Hin H]; (split; [exact Hin|]).
    - unfold parseInt in *.
      destruct (parse_int_cases (F := F) (ToString (get item 5))) as [E | [z E]];
        rewrite E in H |- *; [discriminate|].
      exists z. split; [reflexivity|]. apply Z.ltb_lt. exact H.
    - destruct H as (z & -> & Hz). apply Z.ltb_lt. exact Hz. }
  split; [exact Hiff|].
  intros Hblank. split.
  - rewrite Hiff. intros [_ (z & Hz & _)].
    destruct Hblank as [E | E]; rewrite E in Hz; discriminate.
  - destruct Hblank as [E | E]; rewrite E; reflexivity.
Qed.

Lemma lookup_assign_cell_ne (values : grid) i j k (v : value F) :
  i <> k -> Server.assign_cell i j v values !! k = values !! k.
Proof.
  intros Hne. unfold Server.assign_cell.
  destruct (values !! i); [apply list_lookup_insert_ne; exact Hne | reflexivity].
Qed.

Lemma length_assign_cell (values : grid) i j (v : value F) :
  length (Server.assign_cell i j v values) = length values.
Proof.
  unfold Server.assign_cell. destruct (values !! i); [apply length_insert | reflexivity].
Qed.

(** The inventory loop over lines that name different items, each within
    the stock of its item. *)
Lemma bulk_loop_distinct (lines : list (BulkItem.t F)) :
  forall (mets : list Rows.met) (values : grid) (w : world F) g,
  sheets w !! "Inventory" = Some g ->
  length values = length g ->
  Forall2 (fun l m =>
             Server.findIndex values (BulkItem.itemId l) = Some (Rows.at_line m)
             /\ quantity_of (get (default [] (values !! Rows.at_line m)) 5)
                = Int (Rows.in_stock m)
             /\ parseInt (oror (BulkItem.qty l) (VNum (Int 0))) = Int (Rows.asked m)
             /\ Rows.asked m <= Rows.in_stock m) lines mets ->
  NoDup (map Rows.at_line mets) ->
  exists w' values' g' ups,
    Server.bulk_loop lines values w = (w', Ok values')
    /\ sheets w' !! "Inventory" = Some g'
    /\ (forall t, t <> "Inventory" -> sheets w' !! t = sheets w !! t)
    /\ log w' = (log w ++ ups)%list
    /\ length (flat_map quantity_writes ups) = length lines
    /\ appended "Sales" ups = [] /\ appended "Loans" ups = []
    /\ Forall (fun m => exists r, g' !! Rows.at_line m = Some r
                                  /\ quantity_of (get r 5)
                                     = Int (Rows.in_stock m - Rows.asked m)) mets
    /\ (forall j, ~ In j (map Rows.at_line mets) -> g' !! j = g !! j).
Proof.
  induction lines as [|l rest IH]; intros mets values w g HI Hlen Hall Hnd.
  - inversion Hall; subst. exists w, values, g, [].
    rewrite app_nil_r. repeat split; auto.
  - inversion Hall as [|? m ? mets' (Hf & He & Hq & Hle) Hrest]; subst.
    cbn [map] in Hnd. inversion Hnd as [|? ? Hnotin Hnd']; subst.
    rewrite list_elem_of_In in Hnotin.
    destruct (findIndex_pos _ _ _ Hf) as [j Hj].
    destruct (findIndex_lookup _ _ _ Hf) as [r Hr].
    assert (Hlt : (Rows.at_line m < length g)%nat).
    { rewrite <- Hlen. apply lookup_lt_Some in Hr. exact Hr. }
    destruct (lookup_lt_is_Some_2 g _ Hlt) as [rg Hrg].
    set (cell := VStr (F := F) (string_of_Z (Rows.in_stock m - Rows.asked m))).
    set (v1 := Server.assign_cell (Rows.at_line m) 5 cell values).
    set (g1 := <[Rows.at_line m := write_cells 5 [cell] rg]> g).
    set (w1 := World (<["Inventory" := g1]> (sheets w))
                     (log w ++ [Update (Range "Inventory" 5 (Rows.at_line m + 1))
                                       [[cell]]])%list).
    assert (Hstep : Server.bulk_loop (l :: rest) values w = Server.bulk_loop rest v1 w1).
    { cbn [Server.bulk_loop]. cbv zeta. rewrite Hf, Hq. unfold quantity_of in He.
      rewrite He. unfold gt. cbn [lt].
      rewrite (proj2 (Z.ltb_ge (Rows.in_stock m) (Rows.asked m))) by lia.
      cbn [sub number_to_string].
      erewrite bind_ok; [reflexivity|].
      rewrite Hj, Nat.add_1_r.
      rewrite (values_update_run _ _ _ _ _ _ HI). cbn [write_lines].
      rewrite <- Hj. rewrite (write_line_insert _ _ _ _ _ Hrg).
      unfold w1, g1, cell. rewrite Hj, Nat.add_1_r. reflexivity. }
    edestruct (IH mets' v1 w1 g1) as (w' & values' & g' & ups & R & I' & O & L & Q & A1 & A2 & F' & K).
    + apply lookup_insert_eq.
    + unfold v1, g1. rewrite length_assign_cell, length_insert. exact Hlen.
    + eapply Forall2_impl; [|intros x y Hxy; exact Hxy].
      clear - Hrest Hnotin.
      induction Hrest as [|x y xs ys (H1 & H2 & H3 & H4) Hxs IHxs]; constructor.
      * split; [unfold v1; rewrite findIndex_assign_cell; exact H1|].
        split; [|auto].
        unfold v1. rewrite lookup_assign_cell_ne; [exact H2|].
        intros Heq. apply Hnotin. left. symmetry. exact Heq.
      * apply IHxs. intros Hin. apply Hnotin. right. exact Hin.
    + exact Hnd'.
    + exists w', values', g', (Update (Range "Inventory" 5 (Rows.at_line m + 1)) [[cell]] :: ups).
      split; [rewrite Hstep; exact R|].
      split; [exact I'|].
      split.
      { intros t Ht. rewrite O by exact Ht. cbn [w1 sheets].
        apply lookup_insert_ne. congruence. }
      split. { rewrite L. cbn [w1 log]. rewrite <- app_assoc. reflexivity. }
      split.
      { cbn [flat_map quantity_writes sheet]. change (String.eqb "Inventory" "Inventory") with true.
        cbv iota. cbn [quantity_cells column line].
        change (5 <=? 5)%nat with true. cbv iota.
        cbn [lookup list_lookup app length Nat.sub]. rewrite Q. reflexivity. }
      split; [exact A1|]. split; [exact A2|].
      split.
      { constructor; [|exact F'].
        exists (write_cells 5 [cell] rg). split.
        - rewrite K by exact Hnotin. unfold g1. apply list_lookup_insert_eq. exact Hlt.
        - unfold cell. rewrite get_write_cells_str. apply quantity_of_digits. }
      intros k Hk. rewrite K by (intros Hin; apply Hk; right; exact Hin).
      unfold g1. apply list_lookup_insert_ne.
      intros Heq. apply Hk. left. exact Heq.
Qed.

(** X22.  A bulk sale whose lines name different items of the Inventory sheet,
    each for at most the stock of its item, is recorded and takes every
    line out of the stock: the answer is a success, one sale record is
    appended, one quantity is written for each line, the stored quantity of
    the item of each line is its stock less the quantity of the line, and
    the stored quantity of every other line of the sheet is as it was. *)
Theorem bulk_sale_decrements_every_line c b sale line rest (mets : list Rows.met)
    (w : world F) gi :
  truthy (Server.spreadsheetId b) = true ->
  Server.sale b = Some sale ->
  Sale.bulkItems sale = Some (line :: rest) ->
  sheets w !! "Inventory" = Some gi ->
  Forall2 (fun l m =>
             Server.findIndex gi (BulkItem.itemId l) = Some (Rows.at_line m)
             /\ quantity_of (get (default [] (gi !! Rows.at_line m)) 5)
                = Int (Rows.in_stock m)
             /\ parseInt (oror (BulkItem.qty l) (VNum (Int 0))) = Int (Rows.asked m)
             /\ Rows.asked m <= Rows.in_stock m) (line :: rest) mets ->
  NoDup (map Rows.at_line mets) ->
  let run := Server.recordSale c b w in
  snd run = Ok (Server.Status200 (Server.Recorded (string_of_Z (Server.now c)) None))
  /\ length (appended "Sales" (new_events w (fst run))) = 1%nat
  /\ length (flat_map quantity_writes (new_events w (fst run))) = length (line :: rest)
  /\ Forall (fun m => stored_quantity (fst run) (Rows.at_line m)
                      = Some (Int (Rows.in_stock m - Rows.asked m))) mets
  /\ (forall j, ~ In j (map Rows.at_line mets) ->
                stored_quantity (fst run) j = stored_quantity w j).
Proof.
  intros Hid Hsale Hbulk HI Hall Hnd run. subst run.
  destruct (recordSale_prelude c b sale w gi Hid Hsale HI)
    as (w0 & pre & gs & gl & HS & HL & HI0 & K & L & D & R).
  rewrite Hbulk in R.
  destruct (recordBulk_run c sale (line :: rest) gi w0 gs gl HS HL)
    as (wa & saleRow & loanRows & Rb & Lb & _ & O & _).
  assert (HIa : sheets wa !! "Inventory" = Some gi).
  { rewrite O by discriminate. exact HI0. }
  destruct (bulk_loop_distinct (line :: rest) mets gi wa gi HIa eq_refl Hall Hnd)
    as (w' & values' & g' & ups & Rl & I' & _ & Ll & Q & A1 & _ & F' & K').
  assert (Rrun : Server.recordSale c b w =
                 (w', Ok (Server.Status200
                            (Server.Recorded (string_of_Z (Server.now c)) None)))).
  { rewrite R. apply respond_ok. rewrite Rb. rewrite (bind_ok _ _ _ _ _ Rl). reflexivity. }
  rewrite Rrun. cbn [fst snd].
  assert (Hev : new_events w w' =
                (pre ++ (Append "Sales" saleRow :: map (Append "Loans") loanRows) ++ ups)%list).
  { apply new_events_app. rewrite Ll, Lb, L, <- !app_assoc. reflexivity. }
  rewrite Hev.
  split; [reflexivity|].
  split.
  { rewrite !appended_app, (appended_setup _ _ D), A1. cbn [appended flat_map].
    change (String.eqb "Sales" "Sales") with true. cbv iota.
    fold (appended "Sales" (map (Append "Loans") loanRows)).
    rewrite (proj2 (appended_loans loanRows)). reflexivity. }
  split.
  { rewrite !flat_map_app.
    assert (Hpre : flat_map quantity_writes pre = []).
    { pose proof (quantity_writes_setup _ D) as Hq. clear - Hq.
      induction Hq as [|ev l0 He _ IH]; [reflexivity|]. simpl. rewrite He, IH.
      reflexivity. }
    assert (Hloans : flat_map quantity_writes (map (Append "Loans") loanRows) = []).
    { clear. induction loanRows as [|r l0 IH]; [reflexivity | exact IH]. }
    rewrite Hpre. cbn [flat_map quantity_writes app]. rewrite Hloans. exact Q. }
  split.
  { eapply Forall_impl; [exact F'|]. intros m (r & Hr & Hq).
    unfold stored_quantity. rewrite I', Hr. rewrite Hq. reflexivity. }
  intros j Hj. unfold stored_quantity. rewrite I', HI, (K' j Hj). reflexivity.
Qed.

Lemma default_write_cell col (v : value F) : forall (old : row) j,
  j <> col ->
  default (VStr "") (write_cells col [v] old !! j) = default (VStr "") (old !! j).
Proof.
  induction col as [|c IH]; intros [|x xs] [|j] Hj; simpl; try congruence; try reflexivity.
  - apply (IH [] j). congruence.
  - apply (IH xs j). congruence.
Qed.

Lemma same_but_quantity_refl (g : grid) : Rows.same_but_quantity g g.
Proof. split; [reflexivity|]. intros k r Hr. exists r. split; [exact Hr | reflexivity]. Qed.

Lemma same_but_quantity_trans (g1 g2 g3 : grid) :
  Rows.same_but_quantity g1 g2 -> Rows.same_but_quantity g2 g3 ->
  Rows.same_but_quantity g1 g3.
Proof.
  intros [L1 H1] [L2 H2]. split; [congruence|].
  intros k r Hr. destruct (H1 k r Hr) as (r2 & Hr2 & E2).
  destruct (H2 k r2 Hr2) as (r3 & Hr3 & E3).
  exists r3. split; [exact Hr3|]. intros j Hj. rewrite E3, E2 by exact Hj. reflexivity.
Qed.

Lemma same_but_quantity_write (g : grid) i (v : value F) r :
  g !! i = Some r ->
  Rows.same_but_quantity g (write_line i 5 [v] g).
Proof.
  intros Hr. rewrite (write_line_insert _ _ _ _ _ Hr).
  split; [apply length_insert|].
  intros k rk Hk. destruct (decide (k = i)) as [-> | Hne].
  - exists (write_cells 5 [v] r). split.
    + apply list_lookup_insert_eq. apply lookup_lt_Some in Hr. exact Hr.
    + intros j Hj. assert (rk = r) as -> by congruence. apply default_write_cell. exact Hj.
  - exists rk. split; [|reflexivity].
    rewrite list_lookup_insert_ne by congruence. exact Hk.
Qed.

(** The inventory loop of a bulk sale, however it ends, changes quantity
    cells only. *)
Lemma bulk_loop_frame items : forall (values : grid) (w : world F) g,
  sheets w !! "Inventory" = Some g ->
  length values = length g ->
  exists w' r g',
    Server.bulk_loop items values w = (w', r)
    /\ sheets w' !! "Inventory" = Some g'
    /\ Rows.same_but_quantity g g'
    /\ (forall t, t <> "Inventory" -> sheets w' !! t = sheets w !! t).
Proof.
  induction items as [|item rest IH]; intros values w g HI Hlen; simpl.
  - exists w, (Ok values), g. split; [reflexivity|]. split; [exact HI|].
    split; [apply same_but_quantity_refl | auto].
  - destruct (Server.findIndex values (BulkItem.itemId item)) as [i|] eqn:Ef;
      [|apply IH; assumption].
    destruct (findIndex_pos _ _ _ Ef) as [j ->].
    destruct (findIndex_lookup _ _ _ Ef) as [rv Hrv].
    assert (Hlt : (S j < length g)%nat).
    { rewrite <- Hlen. apply lookup_lt_Some in Hrv. exact Hrv. }
    destruct (lookup_lt_is_Some_2 g _ Hlt) as [rg Hrg].
    destruct (gt _ _) eqn:Egt.
    + exists w, (Throw (Error ("Insufficient stock for "
                 ++ ToString (get (default [] (values !! S j)) 2) ++ " - "
                 ++ ToString (get (default [] (values !! S j)) 4)))), g.
      split; [reflexivity|]. split; [exact HI|].
      split; [apply same_but_quantity_refl | auto].
    + rewrite Nat.add_1_r.
      rewrite (bind_ok _ _ _ _ _ (values_update_run _ _ _ _ _ _ HI)).
      cbn [write_lines].
      match goal with
      | |- context [Server.bulk_loop rest ?v ?w0] =>
          edestruct (IH v w0) as (w' & r & g' & R & I' & Fr & O);
            [cbn [sheets]; apply lookup_insert_eq
            | rewrite length_assign_cell, Hlen;
              rewrite (write_line_insert _ _ _ _ _ Hrg), length_insert; reflexivity
            |]
      end.
      exists w', r, g'. split; [exact R|]. split; [exact I'|].
      split.
      { eapply same_but_quantity_trans; [|exact Fr].
        apply (same_but_quantity_write _ _ _ _ Hrg). }
      intros t Ht. rewrite O by exact Ht. cbn [sheets]. apply lookup_insert_ne. congruence.
Qed.

(** The single-item branch when every check passes, with the sheets that
    it leaves. *)
Lemma recordSingle_world c sale (values : grid) (w : world F) gs gl i :
  sheets w !! "Sales" = Some gs ->
  sheets w !! "Loans" = Some gl ->
  sheets w !! "Inventory" = Some values ->
  truthy (Sale.itemId sale) = true ->
  Server.findIndex values (Sale.itemId sale) = Some i ->
  (let sellQty := parseInt (oror (Sale.quantitySold sale) (VNum (Int 0))) in
   isNaN sellQty || le sellQty (Int 0) = false
   /\ gt sellQty (quantity_of (get (default [] (values !! i)) 5)) = false) ->
  exists w' rec newQty more moreLoans,
    Server.recordSingle c sale values w = (w', Ok rec)
    /\ sheets w' !! "Inventory" = Some (write_line i 5 [VStr newQty] values)
    /\ sheets w' !! "Sales" = Some (gs ++ more)%list
    /\ sheets w' !! "Loans" = Some (gl ++ moreLoans)%list
    /\ (forall t, t <> "Inventory" -> t <> "Sales" -> t <> "Loans" ->
                  sheets w' !! t = sheets w !! t).
Proof.
  intros HS HL HI Hid Hfind [Hvalid Hstock].
  unfold quantity_of in Hstock.
  unfold Server.recordSingle. rewrite Hid. cbn [negb]. rewrite Hfind.
  cbv zeta. rewrite Hvalid, Hstock.
  rewrite (bind_ok _ _ _ _ _ (values_append_run _ _ _ _ HS)).
  rewrite strict_eq_or_cash.
  destruct (strict_eq (Sale.paymentMethod sale) (VStr "Loan")) eqn:Epm.
  - erewrite bind_ok; cycle 1.
    { apply values_append_run. simpl. rewrite lookup_insert_ne by discriminate. exact HL. }
    erewrite bind_ok; cycle 1.
    { rewrite Nat.add_1_r. apply values_update_run. simpl.
      rewrite !lookup_insert_ne by discriminate. exact HI. }
    eexists _, _, _, [_], [_]. split; [reflexivity|]. cbn [sheets write_lines].
    split. { rewrite lookup_insert_eq. reflexivity. }
    split.
    { rewrite !lookup_insert_ne by discriminate. rewrite lookup_insert_eq. reflexivity. }
    split. { rewrite lookup_insert_ne by discriminate. rewrite lookup_insert_eq. reflexivity. }
    intros t H1 H2 H3. rewrite !lookup_insert_ne by congruence. reflexivity.
  - erewrite bind_ok; cycle 1. { reflexivity. }
    erewrite bind_ok; cycle 1.
    { rewrite Nat.add_1_r. apply values_update_run. simpl.
      rewrite !lookup_insert_ne by discriminate. exact HI. }
    eexists _, _, _, [_], []. split; [reflexivity|]. cbn [sheets write_lines].
    split. { rewrite lookup_insert_eq. reflexivity. }
    split.
    { rewrite !lookup_insert_ne by discriminate. rewrite lookup_insert_eq. reflexivity. }
    split. { rewrite !lookup_insert_ne by discriminate. rewrite app_nil_r. exact HL. }
    intros t H1 H2 H3. rewrite !lookup_insert_ne by congruence. reflexivity.
Qed.

(** X23.  A sale changes quantity cells only.  Whatever the request and however
    it is answered, the Inventory sheet afterwards has the same lines, and
    in every line the same content in every column but the quantity; the
    Sales and Loans sheets have only grown, the records that were there
    being untouched; and no other sheet that existed has changed. *)
Theorem sale_changes_quantity_cells_only c b (w : world F) gi :
  sheets w !! "Inventory" = Some gi ->
  let w' := fst (Server.recordSale c b w) in
  (exists gi', sheets w' !! "Inventory" = Some gi' /\ Rows.same_but_quantity gi gi')
  /\ (forall gs, sheets w !! "Sales" = Some gs ->
                 exists gs', sheets w' !! "Sales" = Some gs' /\ Rows.grown gs gs')
  /\ (forall gl, sheets w !! "Loans" = Some gl ->
                 exists gl', sheets w' !! "Loans" = Some gl' /\ Rows.grown gl gl')
  /\ (forall t, t <> "Inventory" -> t <> "Sales" -> t <> "Loans" ->
                is_Some (sheets w !! t) -> sheets w' !! t = sheets w !! t).
Proof.
  intros HI w'. subst w'.
  assert (Hsame : forall w0 r,
             Server.recordSale c b w = (w0, r) ->
             (forall t, is_Some (sheets w !! t) -> sheets w0 !! t = sheets w !! t) ->
             (exists gi', sheets (fst (Server.recordSale c b w)) !! "Inventory" = Some gi'
                          /\ Rows.same_but_quantity gi gi')
             /\ (forall gs, sheets w !! "Sales" = Some gs ->
                   exists gs', sheets (fst (Server.recordSale c b w)) !! "Sales" = Some gs'
                               /\ Rows.grown gs gs')
             /\ (forall gl, sheets w !! "Loans" = Some gl ->
                   exists gl', sheets (fst (Server.recordSale c b w)) !! "Loans" = Some gl'
                               /\ Rows.grown gl gl')
             /\ (forall t, t <> "Inventory" -> t <> "Sales" -> t <> "Loans" ->
                   is_Some (sheets w !! t) ->
                   sheets (fst (Server.recordSale c b w)) !! t = sheets w !! t)).
  { intros w0 r Hrun K. rewrite Hrun. cbn [fst].
    split.
    { exists gi. rewrite K by eauto. split; [exact HI | apply same_but_quantity_refl]. }
    split.
    { intros gs Hgs. exists gs. rewrite K by eauto. split; [exact Hgs|].
      exists []. rewrite app_nil_r. reflexivity. }
    split.
    { intros gl Hgl. exists gl. rewrite K by eauto. split; [exact Hgl|].
      exists []. rewrite app_nil_r. reflexivity. }
    intros t _ _ _ Ht. apply K. exact Ht. }
  destruct (truthy (Server.spreadsheetId b)) eqn:Hid; cycle 1.
  { apply (Hsame w (Ok (Server.Status500 "Missing required fields"))); [|auto].
    unfold Server.recordSale. rewrite Hid. apply respond_throw. reflexivity. }
  destruct (Server.sale b) as [sale|] eqn:Hsale; cycle 1.
  { apply (Hsame w (Ok (Server.Status500 "Missing required fields"))); [|auto].
    unfold Server.recordSale. rewrite Hid, Hsale. apply respond_throw. reflexivity. }
  destruct (recordSale_prelude c b sale w gi Hid Hsale HI)
    as (w0 & pre & gs0 & gl0 & HS & HL & HI0 & K & L & D & R).
  assert (Hsingle : (exists w1 r, Server.respond (Server.recordSingle c sale gi) w0 = (w1, r)
                       /\ (exists gi', sheets w1 !! "Inventory" = Some gi'
                                       /\ Rows.same_but_quantity gi gi')
                       /\ (exists gs', sheets w1 !! "Sales" = Some gs' /\ Rows.grown gs0 gs')
                       /\ (exists gl', sheets w1 !! "Loans" = Some gl' /\ Rows.grown gl0 gl')
                       /\ (forall t, t <> "Inventory" -> t <> "Sales" -> t <> "Loans" ->
                                     sheets w1 !! t = sheets w0 !! t))).
  { destruct (recordSingle_cases c sale gi) as [[m Hm] | (i & Hitem & Hf & Hv & Hs)].
    - exists w0. eexists. split; [apply respond_throw, Hm|].
      split; [exists gi; split; [exact HI0 | apply same_but_quantity_refl]|].
      split; [exists gs0; split; [exact HS | exists []; rewrite app_nil_r; reflexivity]|].
      split; [exists gl0; split; [exact HL | exists []; rewrite app_nil_r; reflexivity]|].
      auto.
    - destruct (recordSingle_world c sale gi w0 gs0 gl0 i HS HL HI0 Hitem Hf (conj Hv Hs))
        as (w1 & rec & newQty & more & moreLoans & Rs & I1 & S1 & L1 & O1).
      exists w1. eexists. split; [apply respond_ok, Rs|].
      destruct (findIndex_lookup _ _ _ Hf) as [ri Hri].
      split; [eexists; split; [exact I1 | apply (same_but_quantity_write _ _ _ _ Hri)]|].
      split; [eexists; split; [exact S1 | eexists; reflexivity]|].
      split; [eexists; split; [exact L1 | eexists; reflexivity]|].
      exact O1. }
  assert (Hbulk : forall items,
             exists w1 r, Server.respond (Server.recordBulk c sale items gi) w0 = (w1, r)
               /\ (exists gi', sheets w1 !! "Inventory" = Some gi'
                               /\ Rows.same_but_quantity gi gi')
               /\ (exists gs', sheets w1 !! "Sales" = Some gs' /\ Rows.grown gs0 gs')
               /\ (exists gl', sheets w1 !! "Loans" = Some gl' /\ Rows.grown gl0 gl')
               /\ (forall t, t <> "Inventory" -> t <> "Sales" -> t <> "Loans" ->
                             sheets w1 !! t = sheets w0 !! t)).
  { intros items.
    destruct (recordBulk_run c sale items gi w0 gs0 gl0 HS HL)
      as (wa & saleRow & loanRows & Rb & Lb & Sa & Oa & _ & _ & _ & Hloan).
    assert (HIa : sheets wa !! "Inventory" = Some gi).
    { rewrite Oa by discriminate. exact HI0. }
    destruct (bulk_loop_frame items gi wa gi HIa eq_refl)
      as (w1 & r & gi' & Rl & I1 & Fr & O1).
    exists w1.
    assert (Hrun : exists r', Server.respond (Server.recordBulk c sale items gi) w0 = (w1, r')).
    { destruct r as [v|[msg]].
      - eexists. apply respond_ok. rewrite Rb. rewrite (bind_ok _ _ _ _ _ Rl). reflexivity.
      - eexists. apply respond_throw. rewrite Rb. apply bind_throw. exact Rl. }
    destruct Hrun as [r' Hrun]. exists r'. split; [exact Hrun|].
    split; [exists gi'; split; assumption|].
    split.
    { eexists. split; [rewrite O1 by discriminate; exact Sa | eexists; reflexivity]. }
    split.
    { destruct Hloan as [(_ & loanRow & _ & _ & _ & La) | (_ & _ & La)].
      - eexists. split; [rewrite O1 by discriminate; exact La | eexists; reflexivity].
      - exists gl0. split; [rewrite O1 by discriminate; exact La|].
        exists []. rewrite app_nil_r. reflexivity. }
    intros t H1 H2 H3. rewrite O1 by exact H1. apply Oa; assumption. }
  assert (Hrun : exists w1 r, Server.recordSale c b w = (w1, r)
                   /\ (exists gi', sheets w1 !! "Inventory" = Some gi'
                                   /\ Rows.same_but_quantity gi gi')
                   /\ (exists gs', sheets w1 !! "Sales" = Some gs' /\ Rows.grown gs0 gs')
                   /\ (exists gl', sheets w1 !! "Loans" = Some gl' /\ Rows.grown gl0 gl')
                   /\ (forall t, t <> "Inventory" -> t <> "Sales" -> t <> "Loans" ->
                                 sheets w1 !! t = sheets w0 !! t)).
  { rewrite R. destruct (Sale.bulkItems sale) as [[|item rest]|];
      [exact Hsingle | apply Hbulk | exact Hsingle]. }
  destruct Hrun as (w1 & r & Hrun & Hinv & (gs' & HS' & GS) & (gl' & HL' & GL) & O).
  rewrite Hrun. cbn [fst].
  split; [exact Hinv|].
  split.
  { intros gs Hgs. exists gs'. split; [exact HS'|].
    rewrite K in HS by eauto. assert (gs0 = gs) as <- by congruence. exact GS. }
  split.
  { intros gl Hgl. exists gl'. split; [exact HL'|].
    rewrite K in HL by eauto. assert (gl0 = gl) as <- by congruence. exact GL. }
  intros t H1 H2 H3 Ht. rewrite O by assumption. apply K. exact Ht.
Qed.

End PageFacts.

(** * Further runs of the example shop *)

Section MoreRuns.
Import Example.

Lemma unknown_item_run :
  let run := Server.recordSale clock (request unknown_item) shop in
  snd run = Ok (Server.Status500 "Item ID not found in Inventory")
  /\ appended "Sales" (new_events shop (fst run)) = []
  /\ appended "Loans" (new_events shop (fst run)) = []
  /\ flat_map quantity_writes (new_events shop (fst run)) = []
  /\ (forall t, is_Some (sheets shop !! t) -> sheets (fst run) !! t = sheets shop !! t).
Proof.
  split; [reflexivity|].
  apply (failed_single_sale_leaves_no_record clock (request unknown_item) shop
           "Item ID not found in Inventory").
  - intros sale Hs. injection Hs as <-. left. reflexivity.
  - reflexivity.
Defined.

Lemma ghost_lines_run :
  let run := Server.recordSale clock (request (bulk "Cash" 8 ghost_lines)) shop in
  snd run = Ok (Server.Status200 (Server.Recorded "1712345678901" None))
  /\ (exists saleRow,
        appended "Sales" (new_events shop (fst run)) = [saleRow]
        /\ get saleRow 4 = num 8
        /\ get saleRow 6 = str "400.00")
  /\ flat_map quantity_writes (new_events shop (fst run)) = []
  /\ sheets (fst run) !! "Inventory" = Some inventory.
Proof.
  assert (Hunknown : Forall (fun l => Server.findIndex inventory (BulkItem.itemId l) = None)
                            ghost_lines) by (repeat constructor).
  exact (bulk_sale_of_unknown_items_is_recorded clock (request (bulk "Cash" 8 ghost_lines))
           (bulk "Cash" 8 ghost_lines) (bulk_line "42" 3) [bulk_line "43" 5] shop
           inventory eq_refl eq_refl eq_refl eq_refl Hunknown).
Defined.

Lemma mint_twice_run :
  let run := Server.recordSale clock (request (bulk "Cash" 9 mint_twice)) shop in
  snd run = Ok (Server.Status200 (Server.Recorded "1712345678901" None))
  /\ stored_quantity (fst run) 1 = Some (Int 1).
Proof.
  assert (H1 : 4 <= 10) by lia.
  assert (H2 : 5 <= 10 - 4) by lia.
  exact (proj1 (bulk_lines_of_one_item_add_up clock (request (bulk "Cash" 9 mint_twice))
                  (bulk "Cash" 9 mint_twice) (bulk_line "1700000000001" 4)
                  (bulk_line "1700000000001" 5) shop inventory 1 10 4 5
                  eq_refl eq_refl eq_refl eq_refl eq_refl eq_refl eq_refl eq_refl eq_refl
                  H1) H2).
Defined.


Lemma blank_inventory_run :
  let w' := fst (InventoryManager.loadInventory blank) in
  snd (InventoryManager.loadInventory blank) = Ok []
  /\ sheets w' !! "Inventory" = Some [Server.inventory_headers]
  /\ new_events blank w' =
       [AddSheet "Inventory"; Update (Range "Inventory" 0 1) [Server.inventory_headers]]
  /\ (forall t, t <> "Inventory" -> sheets w' !! t = sheets blank !! t).
Proof.
  exact (loadInventory_creates_missing_sheet blank eq_refl).
Defined.

Lemma second_claim_run :
  exists w' res claimRow,
    WarrantyManager.processClaim 1712345678901 [mint; grape] (claim "1") shop_with_claims
      = (w', Ok res)
    /\ WarrantyManager.claims res = [old_claim; claimRow]
    /\ WarrantyManager.claimId res = "1712345678901"
    /\ get claimRow 0 = str "1712345678901"
    /\ get claimRow 4 = num 1
    /\ get claimRow 8 = str "Completed".
Proof.
  assert (Hle : 1 <= 2) by lia.
  exact (warranty_claim_is_listed_last 1712345678901 [mint; grape] (claim "1")
           shop_with_claims inventory _ [old_claim] grape 2 1
           eq_refl eq_refl eq_refl eq_refl eq_refl Hle).
Defined.

Lemma first_claim_run :
  exists w' res claimRow,
    WarrantyManager.processClaim 1712345678901 [mint; grape] (claim "1") shop = (w', Ok res)
    /\ WarrantyManager.claims res = []
    /\ sheets w' !! "Warranty" = Some [claimRow]
    /\ SheetsAPI.fetchData "Warranty" w' = (w', Ok (claimRow, []))
    /\ get claimRow 0 = str "1712345678901"
    /\ get claimRow 8 = str "Completed".
Proof.
  assert (Hle : 1 <= 2) by lia.
  exact (first_warranty_claim_is_not_listed 1712345678901 [mint; grape] (claim "1") shop
           inventory grape 2 1 eq_refl (or_introl eq_refl) eq_refl eq_refl eq_refl Hle).
Defined.

Lemma stale_claim_run :
  exists w' res idx,
    WarrantyManager.processClaim 1712345678901 [mint; stale_grape] (claim "1") shop
      = (w', Ok res)
    /\ [mint; stale_grape] !! idx = Some stale_grape
    /\ stored_quantity shop 2 = Some (Int 2)
    /\ stored_quantity w' (S idx) = Some (Int (5 - 1)).
Proof.
  assert (Hle : 1 <= 5) by lia.
  destruct (warranty_claim_writes_the_page_copy 1712345678901 [mint; stale_grape]
              (claim "1") shop inventory stale_grape 5 1
              eq_refl eq_refl eq_refl eq_refl Hle)
    as (w' & res & idx & R & Hidx & Hq & _).
  exists w', res, idx. split; [exact R|]. split; [exact Hidx|].
  split; [reflexivity | exact Hq].
Defined.




Lemma unknown_loan_run :
  InventoryUI.markLoanAsPaid true "2024-04-05" (str "LOAN-42") shop =
    (shop, Ok (InventoryUI.showError "✗ Failed to mark loan as paid: Loan not found")).
Proof.
  exact (markLoanAsPaid_writes_only_when_found true "2024-04-05" (str "LOAN-42") shop
           [Server.loans_headers; loan] eq_refl (or_intror eq_refl)).
Defined.

Lemma paid_cells_run :
  let w' := fst (InventoryUI.markLoanAsPaid true "2024-04-05" (str "LOAN-1699999999999")
                   shop) in
  exists r r',
    [Server.loans_headers; loan] !! 1%nat = Some r
    /\ sheets w' !! "Loans" = Some (<[1%nat := r']> [Server.loans_headers; loan])
    /\ get r' 7 = str "Paid"
    /\ get r' 8 = str "2024-04-05"
    /\ (forall j, j <> 7%nat -> j <> 8%nat -> (j < length r)%nat -> r' !! j = r !! j)
    /\ (forall t, t <> "Loans" -> sheets w' !! t = sheets shop !! t)
    /\ new_events shop w'
       = [Update (Range "Loans" 7 (0 + 2)) [[str "Paid"; str "2024-04-05"]]].
Proof.
  exact (markLoanAsPaid_touches_two_cells "2024-04-05" "LOAN-1699999999999" shop
           [Server.loans_headers; loan] 0 eq_refl eq_refl).
Defined.

Lemma loans_view_run :
  exists view,
    InventoryUI.updateLoans shop = (shop, Ok (Some view))
    /\ InventoryUI.unpaidLoans view = [loan]
    /\ InventoryUI.paidLoans view = []
    /\ InventoryUI.totalUnpaidAmount view = "₱91.00".
Proof.
  destruct (loans_are_split_by_status shop Server.loans_headers [loan] eq_refl)
    as (view & R & U & P & _ & _ & _ & A & _).
  exists view. split; [exact R|]. split; [exact U|]. split; [exact P | exact A].
Defined.

Lemma loan_moves_run :
  let w' := fst (InventoryUI.markLoanAsPaid true "2024-04-05" (str "LOAN-1699999999999")
                   shop) in
  exists before after,
    InventoryUI.updateLoans shop = (shop, Ok (Some before))
    /\ InventoryUI.updateLoans w' = (w', Ok (Some after))
    /\ InventoryUI.totalUnpaidLoans before = S (InventoryUI.totalUnpaidLoans after)
    /\ InventoryUI.totalPaidLoans after = S (InventoryUI.totalPaidLoans before)
    /\ In (write_cells 7 [str "Paid"; str "2024-04-05"] loan) (InventoryUI.paidLoans after).
Proof.
  exact (paid_loan_moves_to_the_paid_list "2024-04-05" "LOAN-1699999999999" shop
           Server.loans_headers [loan] 0 loan eq_refl eq_refl eq_refl eq_refl).
Defined.

Lemma bulk_form_run :
  exists sale : Sale.t ExactDecimal.t,
    InventoryUI.prepare bulk_form = InventoryUI.Send sale
    /\ (exists q, Sale.quantitySold sale = VNum (Int q) /\ 0 < q)
    /\ Sale.bulkItems sale
       = Some [bulk_line "1700000000001" 3; bulk_line "1700000000002" 2]
    /\ Sale.quantitySold sale = num 5.
Proof.
  eexists. split; [reflexivity|].
  refine (let H := sales_form_sends_checked_sales bulk_form _ eq_refl in _).
  destruct H as (Hq & _ & _).
  split; [exact Hq|]. split; reflexivity.
Defined.

Lemma counter_form_run :
  let run := InventoryUI.handleSalesSubmit clock (str "spreadsheet") [mint; grape]
               (counter_form "4") shop in
  snd run = Ok ([InventoryUI.showSuccess
                   (InventoryUI.icon "check_circle"
                    ++ " Sale recorded and inventory updated")],
                [<[5%nat := str "6"]> mint; grape])
  /\ stored_quantity (fst run) 1 = Some (Int 6).
Proof.
  assert (Hpos : 0 < 4) by lia.
  assert (Hfit : 4 <= 10) by lia.
  destruct (proj1 (retail_form_sale_reaches_the_sheet clock (str "spreadsheet") [mint; grape]
                     (counter_form "4") shop inventory 1 4
                     (Float (ExactDecimal.Dec 4550 2)) 10
                     eq_refl eq_refl ltac:(discriminate) eq_refl Hpos eq_refl eq_refl eq_refl
                     eq_refl eq_refl eq_refl) Hfit)
    as (Hrun & _ & Hq & _).
  split; [exact Hrun | exact Hq].
Defined.

Lemma fitting_lines_run :
  let run := Server.recordSale clock (request (bulk "Cash" 5 fitting_lines)) shop in
  snd run = Ok (Server.Status200 (Server.Recorded "1712345678901" None))
  /\ length (appended "Sales" (new_events shop (fst run))) = 1%nat
  /\ stored_quantity (fst run) 1 = Some (Int (10 - 3))
  /\ stored_quantity (fst run) 2 = Some (Int (2 - 2)).
Proof.
  assert (Hmint : 3 <= 10) by lia.
  assert (Hgrape : 2 <= 2) by lia.
  assert (Hnd : NoDup (map Rows.at_line [Rows.Met 1 10 3; Rows.Met 2 2 2])).
  { apply NoDup_cons. split; [|apply NoDup_singleton].
    intros Hin. apply list_elem_of_singleton in Hin. discriminate Hin. }
  pose proof (bulk_sale_decrements_every_line clock (request (bulk "Cash" 5 fitting_lines))
                (bulk "Cash" 5 fitting_lines) (bulk_line "1700000000001" 3)
                [bulk_line "1700000000002" 2] [Rows.Met 1 10 3; Rows.Met 2 2 2] shop inventory
                eq_refl eq_refl eq_refl eq_refl) as H.
  destruct H as (Hok & Hsale & _ & Hall & _).
  { constructor; [repeat split; exact Hmint|].
    constructor; [repeat split; exact Hgrape | constructor]. }
  { exact Hnd. }
  split; [exact Hok|]. split; [exact Hsale|].
  apply Forall_cons in Hall. destruct Hall as [H1 Hall].
  apply Forall_cons in Hall. destruct Hall as [H2 _].
  split; [exact H1 | exact H2].
Defined.

Lemma retail_frame_run :
  let w' := fst (Server.recordSale clock (request retail) shop) in
  (exists gi', sheets w' !! "Inventory" = Some gi' /\ Rows.same_but_quantity inventory gi')
  /\ (forall gs, sheets shop !! "Sales" = Some gs ->
                 exists gs', sheets w' !! "Sales" = Some gs' /\ Rows.grown gs gs')
  /\ (forall gl, sheets shop !! "Loans" = Some gl ->
                 exists gl', sheets w' !! "Loans" = Some gl' /\ Rows.grown gl gl')
  /\ (forall t, t <> "Inventory" -> t <> "Sales" -> t <> "Loans" ->
                is_Some (sheets shop !! t) -> sheets w' !! t = sheets shop !! t).
Proof.
  exact (sale_changes_quantity_cells_only clock (request retail) shop inventory eq_refl).
Defined.

Lemma claim_without_inventory_run :
  exists w' msg claimRow,
    WarrantyManager.processClaim 1712345678901 [mint; grape] (claim "1") blank
      = (w', Throw (Error msg))
    /\ appended "Warranty" (new_events blank w') = [claimRow]
    /\ get claimRow 4 = VNum (Int 1)
    /\ get claimRow 8 = VStr "Completed"
    /\ flat_map quantity_writes (new_events blank w') = []
    /\ sheets w' !! "Inventory" = None.
Proof.
  assert (Hle : 1 <= 2) by lia.
  exact (failed_stock_update_leaves_the_claim 1712345678901 [mint; grape] (claim "1") blank
           grape 2 1 eq_refl eq_refl eq_refl eq_refl Hle).
Defined.

End MoreRuns.
